(** * Indian-Law-Search: summarizer and judgment-identity core

    A shallow embedding of
      - [backend-apis/summarizer.py]  (class [LegalCaseSummarizer], [main]),
      - [scraper-service/unified_scraper.py]  ([save_case]),
      - [scraper-service/bhc_scraper.py], [scraper-service/sc_scraper.py]
        ([generate_judgment_id], [extract_judges]),
    followed by the properties of the specification stated over it.

    Conventions.  A Python [str] is a list of characters; a character is a
    code point below 256 (type [ascii], read as Latin-1), and the character
    tables below are CPython's tables restricted to that range.  Python
    integers are [Z]; lengths are [nat].  The [sumy] package is an external
    library: its calls are fields of a record [SumyLib], each of which may
    raise.

    Characters above code point 255 are outside the embedding.  That
    matters for [lower()]: above that range it can change the length of
    a string or turn a character that is no ASCII letter into one (the
    Kelvin sign, the dotted capital I), so what is proved about letter
    case is stated for strings that satisfy [isascii()]. *)

From Stdlib Require Import String Ascii.
From Stdlib Require Import List ZArith Lia Bool Arith Permutation Sorted.
Import ListNotations.

Open Scope string_scope.
Open Scope list_scope.
Open Scope nat_scope.

Abbreviation str := (list ascii).
Coercion list_ascii_of_string : string >-> list.

(** A list of string literals, as a list of [str]. *)
Definition strs (l : list string) : list str := map list_ascii_of_string l.

(* ================================================================= *)
(** ** Characters *)

Module Char.

Definition code (c : ascii) : nat := nat_of_ascii c.

Definition between (lo hi : nat) (c : ascii) : bool :=
  (lo <=? code c) && (code c <=? hi).

(** [0-9], which is also [\d] below code point 256. *)
Definition is_digit (c : ascii) : bool := between 48 57 c.
(** [A-Z] *)
Definition is_upper (c : ascii) : bool := between 65 90 c.
(** [a-z] *)
Definition is_lower (c : ascii) : bool := between 97 122 c.
(** [a-zA-Z0-9] *)
Definition is_alnum (c : ascii) : bool := is_lower c || is_upper c || is_digit c.
(** [a-zA-Z]: what [[A-Z]] and [[a-z]] match under [re.IGNORECASE]. *)
Definition is_alpha (c : ascii) : bool := is_lower c || is_upper c.

(** [str.isspace], which is also [\s] and what [strip()] and [split()]
    remove: TAB..CR, FS..US, space, NEL and NBSP. *)
Definition is_space (c : ascii) : bool :=
  between 9 13 c || between 28 32 c || (code c =? 133) || (code c =? 160).

(** [\w]: alphanumeric in the Unicode sense, or underscore. *)
Definition is_word (c : ascii) : bool :=
  is_alnum c || (code c =? 95)
  || (code c =? 170) || (code c =? 178) || (code c =? 179) || (code c =? 181)
  || (code c =? 185) || (code c =? 186) || between 188 190 c
  || between 192 214 c || between 216 246 c || between 248 255 c.

(** [str.lower] on one character. *)
Definition lower (c : ascii) : ascii :=
  if is_upper c || between 192 214 c || between 216 222 c
  then ascii_of_nat (code c + 32) else c.

(** The class [[.!?]] of the sentence splitter. *)
Definition is_terminal (c : ascii) : bool :=
  (code c =? 46) || (code c =? 33) || (code c =? 63).

End Char.

(* ================================================================= *)
(** ** Strings *)

Module Str.

Fixpoint eqb (a b : str) : bool :=
  match a, b with
  | [], [] => true
  | x :: a', y :: b' => Ascii.eqb x y && eqb a' b'
  | _, _ => false
  end.

(** [not s] is [negb (truthy s)]. *)
Definition truthy (s : str) : bool :=
  match s with [] => false | _ => true end.

(** [s.lower()], one character for one character as it is below code
    point 256. *)
Definition lower (s : str) : str := map Char.lower s.

(** [s.isascii()] *)
Definition isascii (s : str) : bool := forallb (fun c => Char.code c <? 128) s.

Fixpoint dropwhile (p : ascii -> bool) (s : str) : str :=
  match s with
  | [] => []
  | c :: s' => if p c then dropwhile p s' else s
  end.

Definition lstrip (s : str) : str := dropwhile Char.is_space s.
Definition rstrip (s : str) : str := rev (dropwhile Char.is_space (rev s)).
(** [s.strip()] *)
Definition strip (s : str) : str := rstrip (lstrip s).

(** [sep.join(l)] *)
Fixpoint join (sep : str) (l : list str) : str :=
  match l with
  | [] => []
  | [x] => x
  | x :: rest => x ++ sep ++ join sep rest
  end.

Fixpoint startswith (s p : str) : bool :=
  match p, s with
  | [], _ => true
  | x :: p', y :: s' => Ascii.eqb x y && startswith s' p'
  | _ :: _, [] => false
  end.

(** [s.endswith(p)] *)
Definition endswith (s p : str) : bool := startswith (rev s) (rev p).

(** [sub in s] *)
Fixpoint contains (sub s : str) : bool :=
  startswith s sub ||
  match s with
  | [] => false
  | _ :: s' => contains sub s'
  end.

(** [x in l] for a list of strings. *)
Definition mem (x : str) (l : list str) : bool := existsb (eqb x) l.

(** [s.split()]: the maximal runs of non-whitespace characters.  [cur]
    holds the characters of the token being read, last one first. *)
Fixpoint split_ws_aux (cur : str) (s : str) : list str :=
  match s with
  | [] => match cur with [] => [] | _ => [rev cur] end
  | c :: s' =>
      if Char.is_space c
      then match cur with
           | [] => split_ws_aux [] s'
           | _ => rev cur :: split_ws_aux [] s'
           end
      else split_ws_aux (c :: cur) s'
  end.

Definition split_ws (s : str) : list str := split_ws_aux [] s.

End Str.

(** Python's [l[:n]] for any integer [n]: a negative [n] counts from the
    end.  ([firstn] already stops at the end of the list.) *)
Definition py_slice_to {A : Type} (n : Z) (l : list A) : list A :=
  if (0 <=? n)%Z then firstn (Z.to_nat n) l
  else firstn (length l - Z.to_nat (- n)) l.

(* ================================================================= *)
(** ** Sentence segmentation: [re.split(r'[.!?]+', text)] and the filter *)

Module Segmenter.

(** [re.split(r'[.!?]+', s)].  The flag says whether the character just
    consumed belonged to a separator run; the head of the result is the
    fragment under construction, so the result is never empty and a
    separator at either end of [s] leaves an empty fragment there. *)
Fixpoint split_terminal (in_run : bool) (s : str) : list str :=
  match s with
  | [] => [ [] ]
  | c :: s' =>
      if Char.is_terminal c
      then if in_run then split_terminal true s'
           else [] :: split_terminal true s'
      else match split_terminal false s' with
           | frag :: rest => (c :: frag) :: rest
           | [] => [ [c] ]
           end
  end.

Definition re_split_terminal (s : str) : list str := split_terminal false s.

(** [[s.strip() for s in re.split(r'[.!?]+', text) if len(s.strip()) > m]] *)
Definition segment (m : nat) (text : str) : list str :=
  map Str.strip
      (filter (fun s => m <? length (Str.strip s)) (re_split_terminal text)).

End Segmenter.

(** No sentence-terminal punctuation in [s]. *)
Definition no_terminal (s : str) : Prop :=
  Forall (fun c => Char.is_terminal c = false) s.

(* ================================================================= *)
(** ** Regular expressions: the fragment of [re] the sources use *)

Module Re.

(** Pattern syntax.  [Cls p] is one character of a class (a literal is a
    singleton class), [Star] is the greedy [*], [WordB] is [\b] and
    [Group] is a capturing group (the sources use at most one per
    pattern). *)
Inductive regex : Type :=
| Eps
| Cls (p : ascii -> bool)
| Cat (a b : regex)
| Alt (a b : regex)
| Star (a : regex)
| WordB
| Group (a : regex).

Definition Plus (a : regex) : regex := Cat a (Star a).
Definition Opt (a : regex) : regex := Alt a Eps.
Definition cat (l : list regex) : regex := fold_right Cat Eps l.
Fixpoint Rep (n : nat) (a : regex) : regex :=
  match n with 0 => Eps | S n' => Cat a (Rep n' a) end.
(** [a{lo,lo+extra}], greedy. *)
Fixpoint RepUpTo (extra : nat) (a : regex) : regex :=
  match extra with 0 => Eps | S n' => Opt (Cat a (RepUpTo n' a)) end.

Definition chr (c : ascii) : regex := Cls (Ascii.eqb c).
(** A literal character under [re.IGNORECASE]. *)
Definition chr_i (c : ascii) : regex :=
  Cls (fun x => Ascii.eqb (Char.lower x) (Char.lower c)).
Definition lit (s : str) : regex := cat (map chr s).
Definition lit_i (s : str) : regex := cat (map chr_i s).

Definition digit : regex := Cls Char.is_digit.
Definition space : regex := Cls Char.is_space.
Definition upper : regex := Cls Char.is_upper.
Definition lower : regex := Cls Char.is_lower.
Definition alpha : regex := Cls Char.is_alpha.

Fixpoint has_group (r : regex) : bool :=
  match r with
  | Group _ => true
  | Cat a b | Alt a b => has_group a || has_group b
  | Star a => has_group a
  | _ => false
  end.

Definition capture := option (nat * nat).

Section Subject.

Variable s : str.

Definition word_at (i : nat) : bool :=
  match nth_error s i with Some c => Char.is_word c | None => false end.

(** [\b] at offset [i]: exactly one of the characters before and at
    [i] is a word character. *)
Definition at_boundary (i : nat) : bool :=
  xorb (match i with 0 => false | S j => word_at j end) (word_at i).

(** Backtracking matcher.  [bt r i g k] tries to match [r] at offset
    [i] with capture [g] and hands the end offset to the continuation
    [k]; alternatives are tried in the order the [re] module tries
    them (left branch first, one more iteration before stopping), and
    the first success is the answer.  An iteration of [Star] has to
    consume a character, which bounds the iterations by the length of
    the subject. *)
Fixpoint bt {R : Type} (r : regex) (i : nat) (g : capture)
         (k : nat -> capture -> option R) : option R :=
  match r with
  | Eps => k i g
  | Cls p =>
      match nth_error s i with
      | Some c => if p c then k (S i) g else None
      | None => None
      end
  | Cat a b => bt a i g (fun j g' => bt b j g' k)
  | Alt a b =>
      match bt a i g k with
      | Some x => Some x
      | None => bt b i g k
      end
  | Star a =>
      (fix iter (fuel : nat) (i : nat) (g : capture) : option R :=
         match fuel with
         | 0 => k i g
         | S fuel' =>
             match bt a i g (fun j g' =>
                               if i <? j then iter fuel' j g' else None) with
             | Some x => Some x
             | None => k i g
             end
         end) (length s) i g
  | WordB => if at_boundary i then k i g else None
  | Group a => bt a i g (fun j _ => k j (Some (i, j)))
  end.

(** A match starting exactly at [i]: its end and its capture. *)
Definition match_at (r : regex) (i : nat) : option (nat * capture) :=
  bt r i None (fun j g => Some (j, g)).

(** Leftmost match at or after [i]. *)
Fixpoint scan (r : regex) (fuel i : nat) : option (nat * nat * capture) :=
  match match_at r i with
  | Some (j, g) => Some (i, j, g)
  | None =>
      match fuel with
      | 0 => None
      | S fuel' => scan r fuel' (S i)
      end
  end.

Definition slice (i j : nat) : str := firstn (j - i) (skipn i s).

(** What [findall] reports for one match: the group if the pattern has
    one (empty when it took no part), else the whole match. *)
Definition reported (r : regex) (i j : nat) (g : capture) : str :=
  if has_group r
  then match g with Some (a, b) => slice a b | None => [] end
  else slice i j.

Fixpoint findall_from (r : regex) (fuel i : nat) : list str :=
  match fuel with
  | 0 => []
  | S fuel' =>
      if length s <? i then []
      else match match_at r i with
           | Some (j, g) =>
               reported r i j g
                 :: findall_from r fuel' (if i <? j then j else S i)
           | None => findall_from r fuel' (S i)
           end
  end.

End Subject.

(** [re.search(r, s)] as a truth value. *)
Definition search (r : regex) (s : str) : bool :=
  match scan s r (length s) 0 with Some _ => true | None => false end.

(** [re.findall(r, s)]: the non-overlapping matches from left to right. *)
Definition findall (r : regex) (s : str) : list str :=
  findall_from s r (S (length s)) 0.

End Re.

(* ================================================================= *)
(** ** Exceptions *)

(** An instance of (a subclass of) Python's [Exception]. *)
Inductive exn : Type := Exception (what : string).

Inductive outcome (A : Type) : Type :=
| Ok (a : A)
| Raise (e : exn).
Arguments Ok {A} a.
Arguments Raise {A} e.

Definition bind {A B : Type} (m : outcome A) (f : A -> outcome B) : outcome B :=
  match m with
  | Ok a => f a
  | Raise e => Raise e
  end.

Notation "x <- m ;; k" := (bind m (fun x => k))
  (at level 61, m at next level, right associativity).

(** [try: body  except Exception as e: handler] *)
Definition try_except {A : Type} (body : outcome A) (handler : exn -> outcome A)
  : outcome A :=
  match body with
  | Ok a => Ok a
  | Raise e => handler e
  end.

(* ================================================================= *)
(** ** Stable descending sort: [l.sort(key=..., reverse=True)] *)

(** Python's [list.sort] is stable, also under [reverse=True]: items whose
    keys compare equal keep their relative order.  That fixes the result,
    which is computed here by insertion from the right: an item is put in
    front of the first item whose key is not greater than its own. *)
Section StableSort.

Context {A : Type} (key : A -> Z).

Fixpoint insert_desc (x : A) (l : list A) : list A :=
  match l with
  | [] => [x]
  | y :: l' => if (key x <? key y)%Z then y :: insert_desc x l' else x :: l
  end.

Definition sort_desc (l : list A) : list A := fold_right insert_desc [] l.

End StableSort.

(* ================================================================= *)
(** ** [summarizer.py]: class [LegalCaseSummarizer] *)

Module Summarizer.

Import Re.

Definition legal_keywords : list str := strs
  [ "held"; "directed"; "guidelines"; "ordered"; "ruled"; "decided";
    "concluded"; "determined"; "found"; "established"; "declared";
    "maintained"; "observed"; "noted"; "emphasized"; "highlighted";
    "clarified"; "interpreted"; "construed"; "applied"; "followed";
    "overruled"; "distinguished"; "approved"; "disapproved"; "rejected";
    "allowed"; "dismissed"; "quashed"; "set aside"; "remanded";
    "affirmed"; "reversed"; "modified"; "varied"; "substituted" ].

Definition court_keywords : list str := strs
  [ "supreme court"; "high court"; "district court"; "tribunal";
    "commission"; "authority"; "board"; "council" ].

Definition section_keywords : list str := strs
  [ "section"; "article"; "clause"; "sub-section"; "proviso";
    "schedule"; "act"; "code"; "regulation"; "rule" ].

(** [\(\d{4}\)\s+\d+\s+[A-Z]+\s+\d+] *)
Definition citation_re : regex :=
  cat [ chr "("; Rep 4 digit; chr ")"; Plus space; Plus digit; Plus space;
        Plus upper; Plus space; Plus digit ].

(** [\b(vs|versus|v\.)\b] with [re.IGNORECASE] *)
Definition versus_re : regex :=
  cat [ WordB;
        Group (Alt (lit_i "vs") (Alt (lit_i "versus") (lit_i "v.")));
        WordB ].

(** [Justice\s+[A-Z]] *)
Definition justice_re : regex := cat [ lit "Justice"; Plus space; upper ].

(** [\d{1,2}[-/]\d{1,2}[-/]\d{4}] *)
Definition dash_or_slash : regex :=
  Cls (fun c => Ascii.eqb c "-" || Ascii.eqb c "/").
Definition date_re : regex :=
  cat [ digit; RepUpTo 1 digit; dash_or_slash;
        digit; RepUpTo 1 digit; dash_or_slash; Rep 4 digit ].

(** [for keyword in kws: if keyword in sentence_lower: score += w] *)
Definition add_keywords (w : Z) (kws : list str) (sentence_lower : str)
           (score : Z) : Z :=
  fold_left (fun sc kw => if Str.contains kw sentence_lower
                          then (sc + w)%Z else sc) kws score.

Definition bonus (b : bool) (w : Z) (score : Z) : Z :=
  if b then (score + w)%Z else score.

(** The body of the scoring loop of [extract_key_sentences_regex], for
    one sentence. *)
Definition score (sentence : str) : Z :=
  let sentence_lower := Str.lower sentence in
  let sc := 0%Z in
  let sc := add_keywords 3 legal_keywords sentence_lower sc in
  let sc := add_keywords 2 court_keywords sentence_lower sc in
  let sc := add_keywords 2 section_keywords sentence_lower sc in
  let sc := bonus (search citation_re sentence) 3 sc in
  let sc := bonus (search versus_re sentence) 2 sc in
  let sc := bonus (search justice_re sentence) 2 sc in
  let sc := bonus (search date_re sentence) 1 sc in
  let sc := bonus (100 <? length sentence) 1 sc in
  sc.

(** [scored_sentences], after the [sort]. *)
Definition rank_sentences (sentences : list str) : list (str * Z) :=
  sort_desc snd (map (fun s => (s, score s)) sentences).

Definition extract_key_sentences_regex (text : str) (max_sentences : Z)
  : list str :=
  if negb (Str.truthy text) || (length (Str.strip text) <? 100) then []
  else
    let sentences := Segmenter.segment 20 text in
    let scored_sentences := rank_sentences sentences in
    map fst (py_slice_to max_sentences scored_sentences).

(** The three summarizer classes of [sumy]. *)
Inductive summarizer_class : Type := Lsa | LexRank | TextRank.

(** The calls into [sumy] and [nltk].  [init] is what [__init__] runs
    before it sets the keyword lists: [Stemmer(language)],
    [get_stop_words(language)] and the look-up of the [punkt] data with
    its download.  [from_string text] is
    [PlaintextParser.from_string(text, Tokenizer(self.language))];
    [summarize c doc n] builds the summarizer of class [c] on
    [self.stemmer], sets its stop words, calls it on [doc] with [n] and
    converts the chosen sentences with [str]. *)
Record SumyLib : Type := {
  init : outcome unit;
  document : Type;
  from_string : str -> outcome document;
  summarize : summarizer_class -> document -> Z -> outcome (list str)
}.

(** The [if method == ... elif ... else] chain. *)
Definition choose_summarizer (method : str) : summarizer_class :=
  if Str.eqb method "lsa" then Lsa
  else if Str.eqb method "lexrank" then LexRank
  else if Str.eqb method "textrank" then TextRank
  else Lsa.

Section WithSumy.

Variable L : SumyLib.

(** The [try] block of [extract_summary_sumy]. *)
Definition sumy_try (text : str) (max_sentences : Z) (method : str)
  : outcome (list str) :=
  if negb (Str.truthy text) || (length (Str.strip text) <? 200) then Ok []
  else
    doc <- from_string L text ;;
    summary_sentences <- summarize L (choose_summarizer method) doc max_sentences ;;
    Ok summary_sentences.

Definition extract_summary_sumy (text : str) (max_sentences : Z)
           (method : str) : outcome (list str) :=
  try_except (sumy_try text max_sentences method) (fun _ => Ok []).

(** [for sentence in new: if sentence not in all_sentences and
    len(all_sentences) < max_sentences: all_sentences.append(sentence)] *)
Definition add_new (max_sentences : Z) (all_sentences new : list str)
  : list str :=
  fold_left
    (fun all s =>
       if negb (Str.mem s all) && (Z.of_nat (length all) <? max_sentences)%Z
       then all ++ [s] else all)
    new all_sentences.

Definition hybrid_try (text : str) (max_sentences : Z)
  : outcome (list str) :=
  let regex_sentences := extract_key_sentences_regex text max_sentences in
  sumy_sentences <- extract_summary_sumy text max_sentences "lsa" ;;
  let all_sentences := add_new max_sentences [] regex_sentences in
  let all_sentences := add_new max_sentences all_sentences sumy_sentences in
  let all_sentences :=
    if (Z.of_nat (length all_sentences) <? max_sentences)%Z
    then add_new max_sentences all_sentences (Segmenter.segment 50 text)
    else all_sentences in
  Ok all_sentences.

Definition extract_hybrid_summary (text : str) (max_sentences : Z)
  : outcome (list str) :=
  try_except (hybrid_try text max_sentences) (fun _ => Ok []).

Definition is_empty {A : Type} (l : list A) : bool :=
  match l with [] => true | _ => false end.

(** [summary = ". ".join(...)] followed by
    [if not summary.endswith('.'): summary += '.'] *)
Definition join_with_period (summary_sentences : list str) : str :=
  let summary := Str.join ". " summary_sentences in
  if Str.endswith summary "." then summary else summary ++ ".".

Definition case_summary_try (case_text : str) (case_title : option str)
           (max_sentences : Z) : outcome str :=
  if negb (Str.truthy case_text) then Ok []
  else
    summary_sentences <- extract_hybrid_summary case_text max_sentences ;;
    let summary_sentences :=
      if is_empty summary_sentences
      then extract_key_sentences_regex case_text max_sentences
      else summary_sentences in
    let summary_sentences :=
      if is_empty summary_sentences
      then py_slice_to max_sentences (Segmenter.segment 30 case_text)
      else summary_sentences in
    let summary := join_with_period summary_sentences in
    Ok (match case_title with
        | Some t => if Str.truthy t then t ++ ": " ++ summary else summary
        | None => summary
        end).

Definition extract_case_summary (case_text : str) (case_title : option str)
           (max_sentences : Z) : outcome str :=
  try_except (case_summary_try case_text case_title max_sentences)
             (fun _ => Ok (list_ascii_of_string "Summary extraction failed.")).

(** *** [main]: the command line *)

(** The parsed arguments; [--max_sentences] has [type=int]. *)
Record Args : Type := {
  arg_text : str;
  arg_title : str;
  arg_method : str;
  arg_max_sentences : Z;
  arg_output : str
}.

Definition method_choices : list str :=
  strs ["hybrid"; "regex"; "lsa"; "lexrank"; "textrank"].
Definition output_choices : list str := strs ["json"; "text"].

(** How a run of [main] ends. *)
Inductive run : Type :=
| UsageError                 (** [parse_args] rejects: exit status 2 *)
| Printed (summary : str)    (** the result was printed *)
| Failed (e : exn).          (** the [except] branch: exit status 1 *)

(** [parser.parse_args()]: an option with [choices] accepts only
    these values. *)
Definition parse_args (a : Args) : option Args :=
  if Str.mem (arg_method a) method_choices
     && Str.mem (arg_output a) output_choices
  then Some a else None.

(** [LegalCaseSummarizer()] *)
Definition LegalCaseSummarizer : outcome unit := init L.

(** The [try] block of [main]. *)
Definition main_try (a : Args) : outcome str :=
  summarizer <- LegalCaseSummarizer ;;
  summary <-
    (if Str.eqb (arg_method a) "regex" then
       Ok (join_with_period
             (extract_key_sentences_regex (arg_text a) (arg_max_sentences a)))
     else if Str.mem (arg_method a) (strs ["lsa"; "lexrank"; "textrank"]) then
       summary_sentences <-
         extract_summary_sumy (arg_text a) (arg_max_sentences a) (arg_method a) ;;
       Ok (join_with_period summary_sentences)
     else
       extract_case_summary (arg_text a) (Some (arg_title a))
                            (arg_max_sentences a)) ;;
  if Str.eqb (arg_output a) "json" then
    (* [len(summary) / len(args.text)] in the result dictionary *)
    match arg_text a with
    | [] => Raise (Exception "ZeroDivisionError")
    | _ => Ok summary
    end
  else Ok summary.

Definition main (a : Args) : run :=
  match parse_args a with
  | None => UsageError
  | Some a =>
      match main_try a with
      | Ok summary => Printed summary
      | Raise e => Failed e
      end
  end.

End WithSumy.

End Summarizer.

(* ================================================================= *)
(** ** The scrapers: judgment identifiers and judge names *)

(** What the scrapers read from outside: the clock behind
    [datetime.now().isoformat()] and the [judgments] collection with its
    availability. *)
Record Case : Type := {
  case_id : str;
  case_title : str;
  case_court : str;
  case_judges : list str;
  case_date : str;
  case_citation : str;
  case_pdf_url : str;
  case_text : str;
  case_source_url : str;
  case_scraped_at : str
}.

Record World : Type := {
  now_isoformat : str;
  mongo_up : bool;
  judgments : list Case
}.

(** [re.sub(r'[^0-9]', '', date)] *)
Definition digits_of (date : str) : str := filter Char.is_digit date.

(** [re.sub(r'[^a-zA-Z0-9\s]', '', title)] *)
Definition strip_punctuation (title : str) : str :=
  filter (fun c => Char.is_alnum c || Char.is_space c) title.

(** [collection.find_one({"id": id})]: the first document with that id. *)
Definition find_one (id : str) (docs : list Case) : option Case :=
  find (fun c => Str.eqb (case_id c) id) docs.

(** [collection.update_one({"id": id}, {"$set": doc})]: the first document
    with that id takes the fields of [doc]. *)
Fixpoint update_one (id : str) (doc : Case) (docs : list Case) : list Case :=
  match docs with
  | [] => []
  | c :: rest =>
      if Str.eqb (case_id c) id then doc :: rest
      else c :: update_one id doc rest
  end.

(** [re.search(r, s).group()] when [re.search(r, s)] is a match. *)
Definition search_group (r : Re.regex) (s : str) : option str :=
  match Re.scan s r (length s) 0 with
  | Some (i, j, _) => Some (Re.slice s i j)
  | None => None
  end.

(** What [scrape_judgments] reports (the echoed list of judgments is left
    out). *)
Record ScrapeReport : Type := {
  report_status : str;
  total_found : nat;
  inserted_count : nat
}.

Module Unified.

(** The dictionary lookup [{...}.get(court, "court")]. *)
Definition court_prefix (court : str) : str :=
  if Str.eqb court "Supreme Court of India" then "sc"
  else if Str.eqb court "Delhi High Court" then "dhc"
  else if Str.eqb court "Bombay High Court" then "bhc"
  else "court".

Definition id_suffix (title : str) : str :=
  let clean_title := strip_punctuation title in
  let words := firstn 3 (Str.split_ws clean_title) in
  Str.lower (Str.join "_" words).

Definition clean_date (date : str) : str := firstn 8 (digits_of date).

(** [judgment_id = f"{court_prefix}_{id_suffix}_{clean_date}"] *)
Definition judgment_id (court title date : str) : str :=
  court_prefix court ++ "_" ++ id_suffix title ++ "_" ++ clean_date date.

(** The dictionary [case] of [save_case] (the fields computed from [text]
    alone, [summary], [referenced_sections] and [tags], are left out). *)
Definition build_case (w : World) (court title date : str)
           (judges : list str) (pdf_url text : str)
           (citation source_url : option str) : Case :=
  {| case_id := judgment_id court title date;
     case_title := title;
     case_court := court;
     case_judges := judges;
     case_date := date;
     case_citation := match citation with Some c => c | None => [] end;
     case_pdf_url := pdf_url;
     case_text := text;
     case_source_url := match source_url with Some u => u | None => [] end;
     case_scraped_at := now_isoformat w |}.

(** [save_case]: the returned flag and the world afterwards.  A store
    that cannot be reached raises inside the [try], which returns
    [False]. *)
Definition save_case (w : World) (court title date : str)
           (judges : list str) (pdf_url text : str)
           (citation source_url : option str) : bool * World :=
  if negb (mongo_up w) then (false, w)
  else
    let judgment_id := judgment_id court title date in
    if existsb (fun c => Str.eqb (case_id c) judgment_id) (judgments w)
    then (false, w)
    else
      let case := build_case w court title date judges pdf_url text
                             citation source_url in
      (true, {| now_isoformat := now_isoformat w;
                mongo_up := mongo_up w;
                judgments := judgments w ++ [case] |}).

(** [generate_summary] *)
Definition generate_summary (text : str) : str :=
  if negb (Str.truthy text) then "Judgment summary"
  else
    let summary := Str.strip (firstn 200 text) in
    if 200 <? length text then summary ++ "..." else summary.

(** The three patterns of [extract_referenced_sections], used with
    [re.IGNORECASE] (under which [[A-Z]] is any ASCII letter). *)
Definition section_patterns : list Re.regex :=
  [ (* Section\s+[0-9]+[A-Z]*\s+of\s+[A-Z]+ *)
    Re.cat [ Re.lit_i "Section"; Re.Plus Re.space; Re.Plus Re.digit;
             Re.Star Re.alpha; Re.Plus Re.space; Re.lit_i "of";
             Re.Plus Re.space; Re.Plus Re.alpha ];
    (* [A-Z]+\s+Section\s+[0-9]+[A-Z]* *)
    Re.cat [ Re.Plus Re.alpha; Re.Plus Re.space; Re.lit_i "Section";
             Re.Plus Re.space; Re.Plus Re.digit; Re.Star Re.alpha ];
    (* [A-Z]{2,}\s+[0-9]+[A-Z]* *)
    Re.cat [ Re.alpha; Re.alpha; Re.Star Re.alpha; Re.Plus Re.space;
             Re.Plus Re.digit; Re.Star Re.alpha ] ].

Definition extract_referenced_sections (list_of_set : list str -> list str)
           (text : str) : list str :=
  if negb (Str.truthy text) then []
  else
    let sections := flat_map (fun pattern => Re.findall pattern text)
                             section_patterns in
    list_of_set sections.

Definition legal_terms : list str := strs
  [ "bail"; "anticipatory"; "constitutional"; "criminal"; "civil";
    "writ"; "petition"; "appeal"; "revision"; "review";
    "498A"; "IPC"; "CrPC"; "CPC"; "Constitution" ].

(** [generate_tags]: the loop appends every term whose lower case occurs
    in the lower-cased title and text. *)
Definition generate_tags (title text : str) : list str :=
  let combined_text := Str.lower (title ++ " " ++ text) in
  fold_left (fun tags term =>
               if Str.contains (Str.lower term) combined_text
               then tags ++ [term] else tags)
            legal_terms [].

End Unified.

(** The attributes a scraper object is created with. *)
Record Scraper : Type := {
  base_url : str;
  judgments_url : str
}.

(** [list(set(l))]: the distinct elements of [l], in an order the language
    does not fix.  The scrapers take the conversion as a parameter. *)
Definition set_to_list_spec (list_of_set : list str -> list str) : Prop :=
  forall l, NoDup (list_of_set l) /\ forall x, In x (list_of_set l) <-> In x l.

Module BHC.

Import Re.

(** [BHCJudgmentScraper.generate_judgment_id] *)
Definition id_suffix (title : str) : str :=
  let clean_title := strip_punctuation title in
  let words := firstn 3 (Str.split_ws clean_title) in
  Str.lower (Str.join "_" words).

Definition clean_date (date : str) : str := firstn 8 (digits_of date).

Definition generate_judgment_id (self : Scraper) (title date : str) : str :=
  "bhc_" ++ id_suffix title ++ "_" ++ clean_date date.

(** The capturing group shared by the four patterns: [[A-Z][a-z]+]
    followed by any number of [\s+[A-Z][a-z]+].  Under [re.IGNORECASE]
    both classes match any ASCII letter. *)
Definition name_group : regex :=
  Group (cat [ alpha; Plus alpha; Star (cat [ Plus space; alpha; Plus alpha ]) ]).

(** The four patterns of [extract_judges], all used with
    [re.IGNORECASE]. *)
Definition judge_patterns : list regex :=
  [ (* Hon\'?ble\s+(?:Mr\.?\s+)?Justice\s+(...) *)
    cat [ lit_i "Hon"; Opt (chr "'"); lit_i "ble"; Plus space;
          Opt (cat [ lit_i "Mr"; Opt (chr "."); Plus space ]);
          lit_i "Justice"; Plus space; name_group ];
    (* Justice\s+(...) *)
    cat [ lit_i "Justice"; Plus space; name_group ];
    (* J\.\s*(...) *)
    cat [ lit_i "J"; chr "."; Star space; name_group ];
    (* Coram\s*:\s*(...) *)
    cat [ lit_i "Coram"; Star space; chr ":"; Star space; name_group ] ].

Definition placeholder : list str := strs ["Bombay High Court"].

(** [extract_judges], on [soup.get_text()]. *)
Definition extract_judges (list_of_set : list str -> list str)
           (page_text : str) : list str :=
  let judges := flat_map (fun pattern => findall pattern page_text)
                         judge_patterns in
  match judges with
  | [] => placeholder
  | _ => list_of_set judges
  end.

(** [generate_summary] *)
Definition generate_summary (self : Scraper) (text : str) : str :=
  if negb (Str.truthy text) then "Bombay High Court judgment"
  else
    let summary := Str.strip (firstn 200 text) in
    if 200 <? length text then summary ++ "..." else summary.

(** The three patterns of [extract_referenced_sections], used with
    [re.IGNORECASE]. *)
Definition section_patterns : list regex :=
  [ (* Section\s+[0-9]+[A-Z]*\s+of\s+[A-Z]+ *)
    cat [ lit_i "Section"; Plus space; Plus digit; Star alpha; Plus space;
          lit_i "of"; Plus space; Plus alpha ];
    (* [A-Z]+\s+Section\s+[0-9]+[A-Z]* *)
    cat [ Plus alpha; Plus space; lit_i "Section"; Plus space; Plus digit;
          Star alpha ];
    (* [A-Z]{2,}\s+[0-9]+[A-Z]* *)
    cat [ alpha; alpha; Star alpha; Plus space; Plus digit; Star alpha ] ].

Definition extract_referenced_sections (self : Scraper)
           (list_of_set : list str -> list str) (text : str) : list str :=
  if negb (Str.truthy text) then []
  else
    let sections := flat_map (fun pattern => findall pattern text)
                             section_patterns in
    list_of_set sections.

Definition legal_terms : list str := strs
  [ "bail"; "anticipatory"; "constitutional"; "criminal"; "civil";
    "writ"; "petition"; "appeal"; "revision"; "review";
    "498A"; "IPC"; "CrPC"; "CPC"; "Constitution" ].

Definition generate_tags (self : Scraper) (title text : str) : list str :=
  let combined_text := Str.lower (title ++ " " ++ text) in
  fold_left (fun tags term =>
               if Str.contains (Str.lower term) combined_text
               then tags ++ [term] else tags)
            legal_terms [].

(** The five patterns of [extract_citation] (no flags). *)
Definition citation_patterns : list regex :=
  [ (* \([0-9]{4}\)\s*[A-Z]+\s+[0-9]+ *)
    cat [ chr "("; Rep 4 digit; chr ")"; Star space; Plus upper; Plus space;
          Plus digit ];
    (* [A-Z]+\s+[0-9]+\s*\([0-9]{4}\) *)
    cat [ Plus upper; Plus space; Plus digit; Star space; chr "(";
          Rep 4 digit; chr ")" ];
    (* [A-Z]+\s+[0-9]+/[0-9]+ *)
    cat [ Plus upper; Plus space; Plus digit; chr "/"; Plus digit ];
    (* WP\s+[0-9]+/[0-9]+ *)
    cat [ lit "WP"; Plus space; Plus digit; chr "/"; Plus digit ];
    (* CRL\s+[0-9]+/[0-9]+ *)
    cat [ lit "CRL"; Plus space; Plus digit; chr "/"; Plus digit ] ].

(** [for pattern in patterns: matches = re.findall(pattern, page_text);
    if matches: return matches[0]], then [fallback]. *)
Fixpoint first_found (patterns : list regex) (page_text fallback : str) : str :=
  match patterns with
  | [] => fallback
  | pattern :: rest =>
      match findall pattern page_text with
      | m :: _ => m
      | [] => first_found rest page_text fallback
      end
  end.

(** [extract_citation], on [soup.get_text()]. *)
Definition extract_citation (self : Scraper) (page_text : str) : str :=
  first_found citation_patterns page_text [].

Definition slash_or_dash : regex :=
  Cls (fun c => Ascii.eqb c "/" || Ascii.eqb c "-").

(** [(?:Jan|Feb|Mar|Apr|May|Jun|Jul|Aug|Sep|Oct|Nov|Dec)] under
    [re.IGNORECASE]. *)
Definition month : regex :=
  fold_right (fun m r => Alt (lit_i m) r) (lit_i "Dec")
             (strs [ "Jan"; "Feb"; "Mar"; "Apr"; "May"; "Jun"; "Jul"; "Aug";
                     "Sep"; "Oct"; "Nov" ]).

(** The four patterns of [extract_date], used with [re.IGNORECASE]. *)
Definition date_patterns : list regex :=
  [ (* \d{1,2}[/-]\d{1,2}[/-]\d{4} *)
    cat [ digit; RepUpTo 1 digit; slash_or_dash; digit; RepUpTo 1 digit;
          slash_or_dash; Rep 4 digit ];
    (* \d{4}[/-]\d{1,2}[/-]\d{1,2} *)
    cat [ Rep 4 digit; slash_or_dash; digit; RepUpTo 1 digit; slash_or_dash;
          digit; RepUpTo 1 digit ];
    (* \d{1,2}\s+(?:Jan|...|Dec)[a-z]*\s+\d{4} *)
    cat [ digit; RepUpTo 1 digit; Plus space; month; Star alpha; Plus space;
          Rep 4 digit ];
    (* (?:Jan|...|Dec)[a-z]*\s+\d{1,2},?\s+\d{4} *)
    cat [ month; Star alpha; Plus space; digit; RepUpTo 1 digit;
          Opt (chr ","); Plus space; Rep 4 digit ] ].

(** [extract_date], on [soup.get_text()]; [today] is
    [datetime.now().strftime("%Y-%m-%d")]. *)
Definition extract_date (self : Scraper) (today : str) (page_text : str) : str :=
  first_found date_patterns page_text today.

(** [save_to_mongodb]: an identifier that is already stored is skipped. *)
Definition save_to_mongodb (w : World) (judgment_doc : Case) : bool * World :=
  if negb (mongo_up w) then (false, w)
  else
    match find_one (case_id judgment_doc) (judgments w) with
    | Some _ => (false, w)
    | None =>
        (true, {| now_isoformat := now_isoformat w;
                  mongo_up := mongo_up w;
                  judgments := judgments w ++ [judgment_doc] |})
    end.

(** The loop of [scrape_judgments] over the list that
    [get_judgment_list] returned. *)
Fixpoint save_each (w : World) (docs : list Case) (inserted_count : nat)
  : nat * World :=
  match docs with
  | [] => (inserted_count, w)
  | judgment :: rest =>
      let (saved, w') := save_to_mongodb w judgment in
      save_each w' rest (if saved then inserted_count + 1 else inserted_count)
  end.

Definition scrape_judgments (w : World) (fetched : list Case)
  : ScrapeReport * World :=
  let (inserted, w') := save_each w fetched 0 in
  ({| report_status := "success";
      total_found := length fetched;
      inserted_count := inserted |}, w').

End BHC.

Module SC.

Import Re.

(** [re.sub(r'_+', '_', s)]: every run of underscores becomes one. *)
Fixpoint squeeze_underscores (s : str) : str :=
  match s with
  | [] => []
  | c :: s' =>
      if Ascii.eqb c "_"
      then match s' with
           | d :: _ => if Ascii.eqb d "_" then squeeze_underscores s'
                       else c :: squeeze_underscores s'
           | [] => [c]
           end
      else c :: squeeze_underscores s'
  end.

(** [SCJudgmentScraper.generate_judgment_id] *)
Definition generate_judgment_id (self : Scraper) (title date : str) : str :=
  let title_slug :=
    map (fun c => if Char.is_alnum c then c else "_"%char) (Str.lower title) in
  let title_slug := squeeze_underscores title_slug in
  let title_slug := firstn 50 title_slug in
  let date_slug := digits_of date in
  "sc_" ++ title_slug ++ "_" ++ date_slug.

Definition name_word : regex := cat [ upper; Plus lower ].

(** The three patterns of [extract_judges] (no flags, no groups). *)
Definition judge_patterns : list regex :=
  [ (* Justice\s+[A-Z][a-z]+ *)
    cat [ lit "Justice"; Plus space; name_word ];
    (* Hon\'ble\s+Justice\s+[A-Z][a-z]+ *)
    cat [ lit "Hon'ble"; Plus space; lit "Justice"; Plus space; name_word ];
    (* Mr\.\s+Justice\s+[A-Z][a-z]+ *)
    cat [ lit "Mr."; Plus space; lit "Justice"; Plus space; name_word ] ].

Definition placeholder : list str := strs ["Unknown Judge"].

(** [extract_judges], on [soup.get_text()]. *)
Definition extract_judges (list_of_set : list str -> list str)
           (text : str) : list str :=
  let judges := flat_map (fun pattern => findall pattern text)
                         judge_patterns in
  match judges with
  | [] => placeholder
  | _ => list_of_set judges
  end.

(** [generate_summary] *)
Definition generate_summary (self : Scraper) (text : str) : str :=
  if negb (Str.truthy text) then []
  else
    let summary := Str.strip (firstn 500 text) in
    if 500 <? length text then summary ++ "..." else summary.

(** The four patterns of [extract_referenced_sections], used with
    [re.IGNORECASE]. *)
Definition section_patterns : list regex :=
  [ (* Section\s+\d+[A-Z]*\s+of\s+[A-Z]+ *)
    cat [ lit_i "Section"; Plus space; Plus digit; Star alpha; Plus space;
          lit_i "of"; Plus space; Plus alpha ];
    (* Article\s+\d+[A-Z]* *)
    cat [ lit_i "Article"; Plus space; Plus digit; Star alpha ];
    (* [A-Z]+\s+\d+[A-Z]* *)
    cat [ Plus alpha; Plus space; Plus digit; Star alpha ];
    (* Section\s+\d+[A-Z]* *)
    cat [ lit_i "Section"; Plus space; Plus digit; Star alpha ] ].

Definition extract_referenced_sections (self : Scraper)
           (list_of_set : list str -> list str) (text : str) : list str :=
  let sections := flat_map (fun pattern => findall pattern text)
                           section_patterns in
  list_of_set sections.

(** The dictionary [legal_areas], in insertion order. *)
Definition legal_areas : list (str * list str) :=
  [ (list_ascii_of_string "constitutional law",
     strs ["constitution"; "fundamental rights"; "article"]);
    (list_ascii_of_string "criminal law",
     strs ["criminal"; "penal"; "offence"; "punishment"]);
    (list_ascii_of_string "civil law",
     strs ["civil"; "contract"; "tort"; "property"]);
    (list_ascii_of_string "family law",
     strs ["marriage"; "divorce"; "custody"; "family"]);
    (list_ascii_of_string "commercial law",
     strs ["commercial"; "business"; "company"; "corporate"]);
    (list_ascii_of_string "administrative law",
     strs ["administrative"; "government"; "public"]) ].

Definition generate_tags (self : Scraper) (title text : str) : list str :=
  let tags := strs ["supreme court"] in
  let combined_text := Str.lower (title ++ " " ++ text) in
  fold_left (fun tags entry =>
               if existsb (fun keyword => Str.contains keyword combined_text)
                          (snd entry)
               then tags ++ [fst entry] else tags)
            legal_areas tags.

(** The three patterns of [extract_citation] (no flags). *)
Definition citation_patterns : list regex :=
  [ (* \(\d{4}\)\s+\d+\s+[A-Z]+\s+\d+ *)
    cat [ chr "("; Rep 4 digit; chr ")"; Plus space; Plus digit; Plus space;
          Plus upper; Plus space; Plus digit ];
    (* [A-Z]+\s+\d+/\d+ *)
    cat [ Plus upper; Plus space; Plus digit; chr "/"; Plus digit ];
    (* \(\d{4}\)\s+\d+\s+[A-Z]+ *)
    cat [ chr "("; Rep 4 digit; chr ")"; Plus space; Plus digit; Plus space;
          Plus upper ] ].

(** [for pattern in patterns: match = re.search(pattern, text);
    if match: return match.group()], then [fallback]. *)
Fixpoint first_search (patterns : list regex) (text fallback : str) : str :=
  match patterns with
  | [] => fallback
  | pattern :: rest =>
      match search_group pattern text with
      | Some m => m
      | None => first_search rest text fallback
      end
  end.

(** [extract_citation], on [soup.get_text()]. *)
Definition extract_citation (self : Scraper) (text : str) : str :=
  first_search citation_patterns text [].

(** The three patterns of [extract_date] (no flags). *)
Definition date_patterns : list regex :=
  [ (* \d{1,2}-\d{1,2}-\d{4} *)
    cat [ digit; RepUpTo 1 digit; chr "-"; digit; RepUpTo 1 digit; chr "-";
          Rep 4 digit ];
    (* \d{1,2}/\d{1,2}/\d{4} *)
    cat [ digit; RepUpTo 1 digit; chr "/"; digit; RepUpTo 1 digit; chr "/";
          Rep 4 digit ];
    (* \d{4}-\d{2}-\d{2} *)
    cat [ Rep 4 digit; chr "-"; Rep 2 digit; chr "-"; Rep 2 digit ] ].

(** [extract_date], on [soup.get_text()]; [today] is
    [datetime.now().strftime("%Y-%m-%d")]. *)
Definition extract_date (self : Scraper) (today : str) (text : str) : str :=
  first_search date_patterns text today.

(** [save_to_mongodb]: an identifier that is already stored is updated. *)
Definition save_to_mongodb (w : World) (judgment_doc : Case) : bool * World :=
  if negb (mongo_up w) then (false, w)
  else
    let docs :=
      match find_one (case_id judgment_doc) (judgments w) with
      | Some _ => update_one (case_id judgment_doc) judgment_doc (judgments w)
      | None => judgments w ++ [judgment_doc]
      end in
    (true, {| now_isoformat := now_isoformat w;
              mongo_up := mongo_up w;
              judgments := docs |}).

(** The loop of [scrape_judgments] over the list that
    [get_judgment_list] returned. *)
Fixpoint save_each (w : World) (docs : list Case) (inserted_count : nat)
  : nat * World :=
  match docs with
  | [] => (inserted_count, w)
  | judgment :: rest =>
      let (saved, w') := save_to_mongodb w judgment in
      save_each w' rest (if saved then inserted_count + 1 else inserted_count)
  end.

Definition scrape_judgments (w : World) (fetched : list Case)
  : ScrapeReport * World :=
  let (inserted, w') := save_each w fetched 0 in
  ({| report_status := "completed";
      total_found := length fetched;
      inserted_count := inserted |}, w').

End SC.

(** Duplicates removed, first occurrences kept in order: one possible
    [list(set(l))]. *)
Fixpoint distinct (l : list str) : list str :=
  match l with
  | [] => []
  | x :: l' => x :: filter (fun y => negb (Str.eqb x y)) (distinct l')
  end.

(* ================================================================= *)
(** ** The key generator in the words of the specification (section 4.6) *)

Module Spec.

(** Strip the characters that are neither alphanumeric nor the
    white space that delimits tokens, take the first three tokens and
    put each in lower case. *)
Definition title_tokens (title : str) : list str :=
  map Str.lower (firstn 3 (Str.split_ws (strip_punctuation title))).

(** Strip the non-digits, take the first eight digits. *)
Definition date_digits (date : str) : str := firstn 8 (digits_of date).

Definition make_key (court_prefix title date : str) : str :=
  court_prefix ++ "_" ++ Str.join "_" (title_tokens title)
               ++ "_" ++ date_digits date.

(** The characters of a title token: [a-z0-9]. *)
Definition is_key_char (c : ascii) : bool := Char.is_lower c || Char.is_digit c.

End Spec.

(* ================================================================= *)
(** ** Sentences with their position of appearance *)

Module Ranking.

Record placed : Type := {
  position : nat;
  sentence : str;
  heuristic_score : Z
}.

(** The candidate sentences, numbered from [k] in document order. *)
Definition place_from (k : nat) (sentences : list str) : list placed :=
  map (fun ps => {| position := fst ps; sentence := snd ps;
                    heuristic_score := Summarizer.score (snd ps) |})
      (combine (seq k (length sentences)) sentences).

Definition place (sentences : list str) : list placed :=
  place_from 0 sentences.

(** [a] is selected before [b]: a higher score, or the same score and an
    earlier position. *)
Definition before (a b : placed) : Prop :=
  (heuristic_score b < heuristic_score a)%Z
  \/ (heuristic_score a = heuristic_score b /\ position a < position b).

Definition forget (a : placed) : str * Z := (sentence a, heuristic_score a).

End Ranking.

(* ================================================================= *)
(** ** Some behaviours of the [sumy] library, for the examples *)

Module Samples.

Import Summarizer.

(** A document of one sentence: the tokenizer returns the stripped text
    as its only sentence, and every summarizer selects from that. *)
Definition one_sentence_lib : SumyLib :=
  {| init := Ok tt;
     document := str;
     from_string := fun text => Ok (Str.strip text);
     summarize := fun _ doc n => Ok (py_slice_to n [doc]) |}.

(** A summarizer whose decomposition fails. *)
Definition failing_lib : SumyLib :=
  {| init := Ok tt;
     document := str;
     from_string := fun text => Ok text;
     summarize := fun _ _ _ =>
                    Raise (Exception "LinAlgError: SVD did not converge") |}.

(** A tokenizer whose data is missing. *)
Definition untrained_lib : SumyLib :=
  {| init := Ok tt;
     document := str;
     from_string := fun _ => Raise (Exception "LookupError: punkt not found");
     summarize := fun _ doc n => Ok (py_slice_to n [doc]) |}.

(** An installation without the stop words of the language: the
    constructor of the summarizer fails. *)
Definition unconfigured_lib : SumyLib :=
  {| init := Raise (Exception "LookupError: stop words not available");
     document := str;
     from_string := fun text => Ok (Str.strip text);
     summarize := fun _ doc n => Ok (py_slice_to n [doc]) |}.

Definition bail_text : str :=
  "The petitioner sought anticipatory bail in connection with the complaint lodged by his wife under the dowry provisions and the trial court as well as the high court declined to grant him any protection from arrest whatsoever...".

Definition scraper : Scraper :=
  {| base_url := "https://bombayhighcourt.nic.in";
     judgments_url := "https://bombayhighcourt.nic.in/index.php" |}.

Definition morning : World :=
  {| now_isoformat := "2024-01-05T09:00:00"; mongo_up := true; judgments := [] |}.

Definition evening : World :=
  {| now_isoformat := "2024-01-05T21:30:00"; mongo_up := true; judgments := [] |}.

End Samples.

(* ================================================================= *)
(** ** [auto_scraper.py]: class [LegalCaseScraper] *)

Module Auto.

(** The dictionary [case_data] of [scrape_supreme_court]. *)
Record CaseData : Type := {
  data_title : str;
  data_date : str;
  data_court : str;
  data_url : str;
  data_text : str;
  data_judges : list str;
  data_citation : str;
  data_source : str;
  data_scraped_at : str;
  data_summary : str
}.

(** What [extract_case_details] returns when it does not fail. *)
Record CaseDetails : Type := {
  details_text : str;
  details_judges : list str;
  details_citation : str
}.

(** The body of the loop of [scrape_supreme_court] for one list element,
    once its title, date and link have been read: [None] when
    [extract_case_details] returned [None]. *)
Definition case_data (L : Summarizer.SumyLib) (now : str)
           (case_title case_date case_url : str)
           (case_details : option CaseDetails) : outcome (option CaseData) :=
  match case_details with
  | None => Ok None
  | Some d =>
      summary <- Summarizer.extract_case_summary
                   L (details_text d) (Some case_title) 4 ;;
      Ok (Some {| data_title := case_title;
                  data_date := case_date;
                  data_court := "Supreme Court of India";
                  data_url := case_url;
                  data_text := details_text d;
                  data_judges := details_judges d;
                  data_citation := details_citation d;
                  data_source := "Supreme Court Website";
                  data_scraped_at := now;
                  data_summary := summary |})
  end.

(** The stores behind the scraper: the [judgments] collection and the
    search index, each with its availability. [es_accepts] says for which
    documents [es_client.index] succeeds. *)
Record Stores : Type := {
  db_up : bool;
  db_judgments : list CaseData;
  es_accepts : CaseData -> bool;
  es_refresh_ok : bool;
  es_documents : list (CaseData * str)
}.

Definition with_judgments (st : Stores) (docs : list CaseData) : Stores :=
  {| db_up := db_up st; db_judgments := docs; es_accepts := es_accepts st;
     es_refresh_ok := es_refresh_ok st; es_documents := es_documents st |}.

Definition with_documents (st : Stores) (docs : list (CaseData * str)) : Stores :=
  {| db_up := db_up st; db_judgments := db_judgments st;
     es_accepts := es_accepts st; es_refresh_ok := es_refresh_ok st;
     es_documents := docs |}.

(** [save_to_mongodb]: the cases whose title is not stored yet are
    inserted together. *)
Definition save_to_mongodb (st : Stores) (cases : list CaseData)
  : nat * Stores :=
  match cases with
  | [] => (0, st)
  | _ =>
      if negb (db_up st) then (0, st)
      else
        let existing_titles := map data_title (db_judgments st) in
        let new_cases :=
          filter (fun case => negb (Str.mem (data_title case) existing_titles))
                 cases in
        match new_cases with
        | [] => (0, st)
        | _ => (length new_cases,
                with_judgments st (db_judgments st ++ new_cases))
        end
  end.

(** The loop of [index_to_elasticsearch]: a document the index refuses is
    skipped. [now] is the [created_at] stamp. *)
Fixpoint index_each (accepts : CaseData -> bool) (now : str)
         (cases : list CaseData) (indexed_count : nat)
         (docs : list (CaseData * str)) : nat * list (CaseData * str) :=
  match cases with
  | [] => (indexed_count, docs)
  | case :: rest =>
      if accepts case
      then index_each accepts now rest (indexed_count + 1) (docs ++ [(case, now)])
      else index_each accepts now rest indexed_count docs
  end.

(** [index_to_elasticsearch]: a failing refresh makes the call return 0,
    after the documents have been indexed. *)
Definition index_to_elasticsearch (st : Stores) (now : str)
           (cases : list CaseData) : nat * Stores :=
  match cases with
  | [] => (0, st)
  | _ =>
      let (indexed_count, docs) :=
        index_each (es_accepts st) now cases 0 (es_documents st) in
      (if es_refresh_ok st then indexed_count else 0, with_documents st docs)
  end.

(** [run_daily_scraping], from the point where [all_cases] has been
    collected. *)
Definition store_and_index (st : Stores) (now : str)
           (all_cases : list CaseData) : Stores :=
  let (saved_count, st1) := save_to_mongodb st all_cases in
  if 0 <? saved_count
  then snd (index_to_elasticsearch st1 now all_cases)
  else st1.

End Auto.

(* ================================================================= *)
(** * Properties *)

Lemma bind_ok {A B : Type} (x : A) (k : A -> outcome B) : bind (Ok x) k = k x.
Proof. reflexivity. Qed.

(** ** Strings and lists *)

Lemma str_eqb_eq (a b : str) : Str.eqb a b = true <-> a = b.
Proof.
  revert b; induction a as [|x a IH]; intros [|y b]; simpl;
    try (split; [discriminate | discriminate]); try tauto.
  rewrite andb_true_iff, Ascii.eqb_eq, IH.
  split; [intros [-> ->]; reflexivity | intros H; inversion H; auto].
Qed.

Lemma str_eqb_refl (a : str) : Str.eqb a a = true.
Proof. apply str_eqb_eq; reflexivity. Qed.

Lemma str_eqb_neq (a b : str) : Str.eqb a b = false <-> a <> b.
Proof.
  rewrite <- str_eqb_eq. destruct (Str.eqb a b); split; congruence.
Qed.

Lemma str_mem_In (x : str) (l : list str) : Str.mem x l = true <-> In x l.
Proof.
  unfold Str.mem. rewrite existsb_exists. split.
  - intros [y [Hy E]]. apply str_eqb_eq in E. subst; assumption.
  - intros H. exists x. split; [assumption | apply str_eqb_refl].
Qed.

Lemma str_mem_notin (x : str) (l : list str) : Str.mem x l = false <-> ~ In x l.
Proof.
  rewrite <- str_mem_In. destruct (Str.mem x l); split; congruence.
Qed.

Lemma dropwhile_Forall (P : ascii -> Prop) (p : ascii -> bool) (s : str) :
  Forall P s -> Forall P (Str.dropwhile p s).
Proof.
  induction 1 as [|c s Hc Hs IH]; simpl; [constructor|].
  destruct (p c); [assumption | constructor; assumption].
Qed.

Lemma strip_Forall (P : ascii -> Prop) (s : str) :
  Forall P s -> Forall P (Str.strip s).
Proof.
  intros H. unfold Str.strip, Str.rstrip, Str.lstrip.
  apply Forall_rev, dropwhile_Forall, Forall_rev, dropwhile_Forall, H.
Qed.

Lemma py_slice_to_In {A : Type} (n : Z) (l : list A) (x : A) :
  In x (py_slice_to n l) -> In x l.
Proof.
  unfold py_slice_to. intros H.
  assert (F : forall k, In x (firstn k l) -> In x l).
  { intros k Hk. rewrite <- (firstn_skipn k l). apply in_or_app; left; exact Hk. }
  destruct (0 <=? n)%Z; eapply F; exact H.
Qed.

(** ** The sentence splitter *)

Lemma split_terminal_no_terminal (b : bool) (s : str) :
  Forall no_terminal (Segmenter.split_terminal b s).
Proof.
  revert b; induction s as [|c s IH]; intros b; simpl.
  - repeat constructor.
  - destruct (Char.is_terminal c) eqn:Ec.
    + destruct b; [apply IH | constructor; [constructor | apply IH]].
    + specialize (IH false).
      destruct (Segmenter.split_terminal false s) as [|frag rest].
      * repeat constructor; assumption.
      * inversion IH; subst. constructor; [constructor|]; assumption.
Qed.

Lemma split_terminal_concat (b : bool) (s : str) :
  concat (Segmenter.split_terminal b s)
  = filter (fun c => negb (Char.is_terminal c)) s.
Proof.
  revert b; induction s as [|c s IH]; intros b; simpl; [reflexivity|].
  destruct (Char.is_terminal c) eqn:Ec; simpl.
  - destruct b; simpl; apply IH.
  - specialize (IH false).
    destruct (Segmenter.split_terminal false s) as [|frag rest]; simpl in *.
    + rewrite <- IH; reflexivity.
    + rewrite <- IH; reflexivity.
Qed.

Lemma segment_In (m : nat) (text s : str) :
  In s (Segmenter.segment m text) <->
  exists f, In f (Segmenter.re_split_terminal text)
            /\ s = Str.strip f /\ m < length s.
Proof.
  unfold Segmenter.segment. rewrite in_map_iff. split.
  - intros [f [E Hf]]. apply filter_In in Hf as [Hf Hlen].
    apply Nat.ltb_lt in Hlen. exists f. subst s. auto.
  - intros [f [Hf [E Hlen]]]. exists f. split; [auto|].
    apply filter_In. split; [assumption|]. apply Nat.ltb_lt. subst s; assumption.
Qed.

Lemma segment_no_terminal (m : nat) (text s : str) :
  In s (Segmenter.segment m text) -> no_terminal s.
Proof.
  intros H. apply segment_In in H as [f [Hf [-> _]]].
  apply strip_Forall.
  pose proof (split_terminal_no_terminal false text) as HF.
  rewrite Forall_forall in HF. apply HF, Hf.
Qed.

(** C8, as stated, fails: the claim keeps every fragment of at least 20
    characters, while the filter of the source is [len(s.strip()) > 20].
    The text below splits into a fragment of exactly 20 characters, which
    is not among the candidate sentences. *)
Lemma segment_drops_fragment_of_length_20 :
  let text : str := "The appeal is upheld. Costs follow the event in this court." in
  let frag : str := "The appeal is upheld" in
  In frag (map Str.strip (Segmenter.re_split_terminal text))
  /\ 20 <= length frag
  /\ ~ In frag (Segmenter.segment 20 text).
Proof.
  cbv zeta. split; [|split].
  - vm_compute. left; reflexivity.
  - vm_compute. lia.
  - vm_compute. intros [H|[]]. discriminate H.
Qed.

(** C8 (amended): the segmenter splits on runs of [.], [!] and [?], trims
    white space and keeps, in order, exactly the trimmed fragments that are
    strictly longer than the stage minimum (so at least 21 characters for
    the heuristic scorer); no fragment contains terminal punctuation and the
    fragments together are the text without it.  For
    "A. B. This is a proper sentence of reasonable length." the fragments
    "A" and "B" are discarded and the third is retained. *)
Theorem segment_keeps_fragments_longer_than_minimum :
  (forall m text s,
      In s (Segmenter.segment m text) <->
      exists f, In f (Segmenter.re_split_terminal text)
                /\ s = Str.strip f /\ m < length s)
  /\ (forall m text,
         Segmenter.segment m text
         = filter (fun s => m <? length s)
                  (map Str.strip (Segmenter.re_split_terminal text)))
  /\ (forall text, Forall no_terminal (Segmenter.re_split_terminal text))
  /\ (forall text,
         concat (Segmenter.re_split_terminal text)
         = filter (fun c => negb (Char.is_terminal c)) text)
  /\ Segmenter.re_split_terminal
       "A. B. This is a proper sentence of reasonable length."
     = strs ["A"; " B"; " This is a proper sentence of reasonable length"; ""]
  /\ Segmenter.segment 20
       "A. B. This is a proper sentence of reasonable length."
     = strs ["This is a proper sentence of reasonable length"].
Proof.
  split; [exact segment_In|].
  split.
  { intros m text. unfold Segmenter.segment.
    induction (Segmenter.re_split_terminal text) as [|f l IH]; simpl; [reflexivity|].
    destruct (m <? length (Str.strip f)); simpl; rewrite IH; reflexivity. }
  split; [intros text; apply split_terminal_no_terminal|].
  split; [intros text; apply split_terminal_concat|].
  split; vm_compute; reflexivity.
Qed.

(** ** The judgment identifier *)

Lemma lower_app (a b : str) : Str.lower (a ++ b) = Str.lower a ++ Str.lower b.
Proof. apply map_app. Qed.

Lemma lower_join (sep : str) (l : list str) :
  Str.lower (Str.join sep l) = Str.join (Str.lower sep) (map Str.lower l).
Proof.
  induction l as [|x l IH]; [reflexivity|].
  destruct l as [|y l]; [reflexivity|].
  change (Str.join sep (x :: y :: l)) with (x ++ sep ++ Str.join sep (y :: l)).
  rewrite !lower_app, IH. reflexivity.
Qed.

Lemma split_ws_aux_tokens (Q : ascii -> Prop) (s cur : str) :
  (forall c, In c s -> Char.is_space c = false -> Q c) ->
  Forall Q cur ->
  Forall (fun t => t <> [] /\ Forall Q t) (Str.split_ws_aux cur s).
Proof.
  revert cur; induction s as [|c s IH]; intros cur Hs Hcur; simpl.
  - destruct cur as [|d cur]; constructor; [|constructor].
    split.
    + intros E. apply (f_equal (@length ascii)) in E.
      rewrite length_rev in E. discriminate E.
    + apply Forall_rev; assumption.
  - assert (Hs' : forall d, In d s -> Char.is_space d = false -> Q d)
      by (intros d Hd; apply Hs; right; assumption).
    destruct (Char.is_space c) eqn:Ec.
    + destruct cur as [|d cur].
      * apply IH; [assumption | constructor].
      * constructor; [|apply IH; [assumption | constructor]].
        split.
        -- intros E. apply (f_equal (@length ascii)) in E.
           rewrite length_rev in E. discriminate E.
        -- apply Forall_rev; assumption.
    + apply IH; [assumption|].
      constructor; [apply Hs; [left; reflexivity | assumption] | assumption].
Qed.

Lemma firstn_Forall {A : Type} (P : A -> Prop) (n : nat) (l : list A) :
  Forall P l -> Forall P (firstn n l).
Proof.
  intros H. rewrite Forall_forall in *. intros x Hx. apply H.
  rewrite <- (firstn_skipn n l). apply in_or_app; left; exact Hx.
Qed.

Lemma lower_alnum_is_key_char (c : ascii) :
  Char.is_alnum c = true -> Spec.is_key_char (Char.lower c) = true.
Proof.
  destruct c as [[] [] [] [] [] [] [] []]; vm_compute; intros H;
    first [reflexivity | discriminate H].
Qed.

Lemma title_tokens_shape (title : str) :
  length (Spec.title_tokens title) <= 3
  /\ Forall (fun t => t <> [] /\ Forall (fun c => Spec.is_key_char c = true) t)
            (Spec.title_tokens title).
Proof.
  unfold Spec.title_tokens. split.
  - rewrite length_map, length_firstn. lia.
  - apply Forall_map, firstn_Forall.
    assert (H : Forall (fun t => t <> [] /\ Forall (fun c => Char.is_alnum c = true) t)
                       (Str.split_ws (strip_punctuation title))).
    { apply split_ws_aux_tokens; [|constructor].
      intros c Hc Hsp. unfold strip_punctuation in Hc.
      apply filter_In in Hc as [_ Hc]. rewrite Hsp, orb_false_r in Hc. exact Hc. }
    eapply Forall_impl; [|exact H].
    intros t [Hne Hall]. split.
    + destruct t; [congruence | discriminate].
    + unfold Str.lower. apply Forall_map.
      eapply Forall_impl; [|exact Hall].
      intros c. apply lower_alnum_is_key_char.
Qed.

Lemma date_digits_shape (date : str) :
  length (Spec.date_digits date) <= 8
  /\ Forall (fun c => Char.is_digit c = true) (Spec.date_digits date).
Proof.
  unfold Spec.date_digits, digits_of. split.
  - rewrite length_firstn. lia.
  - apply firstn_Forall. rewrite Forall_forall. intros c Hc.
    apply filter_In in Hc. tauto.
Qed.

Lemma unified_id_is_make_key (court title date : str) :
  Unified.judgment_id court title date
  = Spec.make_key (Unified.court_prefix court) title date.
Proof.
  unfold Unified.judgment_id, Spec.make_key, Unified.id_suffix,
    Unified.clean_date, Spec.title_tokens, Spec.date_digits.
  rewrite lower_join. reflexivity.
Qed.

Lemma bhc_id_is_make_key (self : Scraper) (title date : str) :
  BHC.generate_judgment_id self title date = Spec.make_key "bhc" title date.
Proof.
  unfold BHC.generate_judgment_id, Spec.make_key, BHC.id_suffix,
    BHC.clean_date, Spec.title_tokens, Spec.date_digits.
  rewrite lower_join. reflexivity.
Qed.

(** C2: the identifier computed in [save_case] and in the Bombay scraper is
    the key of the specification: the title without its punctuation, its
    first three white-space delimited tokens in lower case joined by
    underscores (at most three non-empty tokens over [a-z0-9]), the first
    eight digits of the date, composed as prefix, tokens and digits with
    underscores between them.  For the Supreme Court, whose prefix is
    "sc", "Arnesh Kumar vs State of Bihar" of "2014-07-02" gets
    "sc_arnesh_kumar_vs_20140702". *)
Theorem judgment_id_follows_make_key :
  (forall court title date,
      Unified.judgment_id court title date
      = Spec.make_key (Unified.court_prefix court) title date)
  /\ (forall self title date,
         BHC.generate_judgment_id self title date = Spec.make_key "bhc" title date)
  /\ (forall title,
         length (Spec.title_tokens title) <= 3
         /\ Forall (fun t => t <> [] /\ Forall (fun c => Spec.is_key_char c = true) t)
                   (Spec.title_tokens title))
  /\ (forall date,
         length (Spec.date_digits date) <= 8
         /\ Forall (fun c => Char.is_digit c = true) (Spec.date_digits date))
  /\ Unified.court_prefix "Supreme Court of India" = "sc"
  /\ Spec.make_key "sc" "Arnesh Kumar vs State of Bihar" "2014-07-02"
     = "sc_arnesh_kumar_vs_20140702"
  /\ Unified.judgment_id "Supreme Court of India"
                         "Arnesh Kumar vs State of Bihar" "2014-07-02"
     = "sc_arnesh_kumar_vs_20140702".
Proof.
  split; [exact unified_id_is_make_key|].
  split; [exact bhc_id_is_make_key|].
  split; [exact title_tokens_shape|].
  split; [exact date_digits_shape|].
  repeat split; vm_compute; reflexivity.
Qed.

(** C10: for every title and date, [save_case] and the Bombay scraper's
    [generate_judgment_id] compute the same title tokens and the same date
    digits, so their identifiers are equal after the court prefix (and
    equal outright for the Bombay High Court). *)
Theorem unified_and_bhc_ids_agree_up_to_prefix :
  forall (court : str) (self : Scraper) (title date : str),
    Unified.id_suffix title = BHC.id_suffix title
    /\ Unified.clean_date date = BHC.clean_date date
    /\ (exists rest,
           Unified.judgment_id court title date = Unified.court_prefix court ++ rest
           /\ BHC.generate_judgment_id self title date = "bhc" ++ rest)
    /\ Unified.judgment_id "Bombay High Court" title date
       = BHC.generate_judgment_id self title date.
Proof.
  intros court self title date.
  split; [reflexivity|]. split; [reflexivity|]. split.
  - exists ("_" ++ BHC.id_suffix title ++ "_" ++ BHC.clean_date date).
    split; reflexivity.
  - reflexivity.
Qed.

(** C3: the identifier depends on nothing but court, title and date.  Two
    runs of [save_case] on the same three values, at any two times and
    against any two states of the store, with any other arguments, build
    records with the same identifier; what [save_case] appends to the
    store carries that identifier; and the scrapers' generators do not
    depend on the scraper object. *)
Theorem judgment_id_is_pure :
  forall court title date : str,
    (forall (w1 w2 : World) (j1 j2 : list str) (p1 p2 t1 t2 : str)
            (c1 c2 u1 u2 : option str),
        case_id (Unified.build_case w1 court title date j1 p1 t1 c1 u1)
        = case_id (Unified.build_case w2 court title date j2 p2 t2 c2 u2))
    /\ (forall (w : World) (j : list str) (p t : str) (c u : option str),
           let r := Unified.save_case w court title date j p t c u in
           (fst r = false /\ snd r = w)
           \/ (fst r = true
               /\ exists doc,
                   judgments (snd r) = judgments w ++ [doc]
                   /\ case_id doc = Unified.judgment_id court title date))
    /\ (forall self1 self2 : Scraper,
           SC.generate_judgment_id self1 title date
           = SC.generate_judgment_id self2 title date)
    /\ (forall self1 self2 : Scraper,
           BHC.generate_judgment_id self1 title date
           = BHC.generate_judgment_id self2 title date).
Proof.
  intros court title date. split; [reflexivity|]. split; [|split; reflexivity].
  intros w j p t c u. unfold Unified.save_case. cbv zeta.
  destruct (mongo_up w); simpl; [|left; auto].
  destruct (existsb _ (judgments w)); simpl; [left; auto|].
  right. split; [reflexivity|]. eexists. split; reflexivity.
Qed.

(** The time of the call does reach the record, in [scraped_at] only. *)
Example clock_reaches_scraped_at_only :
  let a := Unified.build_case Samples.morning "Delhi High Court"
             "State vs Rao" "2020-01-31" [] [] [] None None in
  let b := Unified.build_case Samples.evening "Delhi High Court"
             "State vs Rao" "2020-01-31" [] [] [] None None in
  case_scraped_at a <> case_scraped_at b
  /\ case_id a = case_id b
  /\ case_id a = "dhc_state_vs_rao_20200131".
Proof.
  cbv zeta. split; [|split].
  - vm_compute. discriminate.
  - reflexivity.
  - vm_compute. reflexivity.
Qed.

(** ** Judge names *)

Lemma distinct_In (l : list str) (x : str) : In x (distinct l) <-> In x l.
Proof.
  induction l as [|y l IH]; simpl; [tauto|].
  rewrite filter_In, IH, negb_true_iff, str_eqb_neq.
  destruct (list_eq_dec ascii_dec y x) as [E|N]; [tauto|]. tauto.
Qed.

Lemma distinct_NoDup (l : list str) : NoDup (distinct l).
Proof.
  induction l as [|y l IH]; simpl; constructor.
  - rewrite filter_In, negb_true_iff, str_eqb_neq. tauto.
  - apply NoDup_filter, IH.
Qed.

Lemma distinct_is_set_to_list : set_to_list_spec distinct.
Proof.
  intros l. split; [apply distinct_NoDup | intros x; apply distinct_In].
Qed.

Lemma flat_map_nil {A B : Type} (f : A -> list B) (l : list A) :
  (forall a, In a l -> f a = []) -> flat_map f l = [].
Proof.
  induction l as [|a l IH]; simpl; intros H; [reflexivity|].
  rewrite (H a), IH; auto.
Qed.

Lemma set_to_list_nonempty (list_of_set : list str -> list str) (l : list str) :
  set_to_list_spec list_of_set -> l <> [] -> list_of_set l <> [].
Proof.
  intros Hspec Hl E. destruct l as [|x l]; [congruence|].
  destruct (Hspec (x :: l)) as [_ Hin].
  rewrite E in Hin. apply (Hin x). left; reflexivity.
Qed.

(** C9, as stated, fails for the Bombay scraper: when no pattern matches,
    its [extract_judges] returns the name of the court, not an
    unknown-judge value. *)
Lemma bhc_judges_placeholder_is_the_court :
  let page : str := "Heard the learned counsel for the parties" in
  flat_map (fun p => Re.findall p page) BHC.judge_patterns = []
  /\ BHC.extract_judges distinct page = strs ["Bombay High Court"]
  /\ ~ In (list_ascii_of_string "Unknown Judge") (BHC.extract_judges distinct page).
Proof.
  cbv zeta. split; [vm_compute; reflexivity|]. split; [vm_compute; reflexivity|].
  vm_compute. intros [H|[]]. discriminate H.
Qed.

(** The court name is also a possible match, so in the Bombay scraper the
    placeholder does not tell a miss from a hit. *)
Example bhc_placeholder_can_be_matched :
  BHC.extract_judges distinct "Coram: Bombay High Court"
  = strs ["Bombay High Court"].
Proof. vm_compute. reflexivity. Qed.

Example sc_judges_found :
  SC.extract_judges distinct
    "Before Justice Prasad and Hon'ble Justice Ghose. Justice Prasad delivered the judgment"
  = strs ["Justice Prasad"; "Justice Ghose"; "Hon'ble Justice Ghose"].
Proof. vm_compute. reflexivity. Qed.

(** C9 (amended): when no judge pattern matches, [extract_judges] returns a
    one-element list holding a fixed placeholder, "Unknown Judge" in the
    Supreme Court scraper and the court name "Bombay High Court" in the
    Bombay scraper; in neither scraper is the result ever empty. *)
Theorem extract_judges_placeholder_when_no_match :
  forall (list_of_set : list str -> list str) (text : str),
    ((forall p, In p SC.judge_patterns -> Re.findall p text = []) ->
     SC.extract_judges list_of_set text = strs ["Unknown Judge"])
    /\ ((forall p, In p BHC.judge_patterns -> Re.findall p text = []) ->
        BHC.extract_judges list_of_set text = strs ["Bombay High Court"])
    /\ (set_to_list_spec list_of_set ->
        SC.extract_judges list_of_set text <> []
        /\ BHC.extract_judges list_of_set text <> []).
Proof.
  intros list_of_set text. split; [|split].
  - intros H. unfold SC.extract_judges. cbv zeta.
    rewrite (flat_map_nil _ _ H). reflexivity.
  - intros H. unfold BHC.extract_judges. cbv zeta.
    rewrite (flat_map_nil _ _ H). reflexivity.
  - intros Hspec. unfold SC.extract_judges, BHC.extract_judges. cbv zeta. split.
    + destruct (flat_map _ SC.judge_patterns) eqn:E; [discriminate|].
      apply set_to_list_nonempty; [assumption | discriminate].
    + destruct (flat_map _ BHC.judge_patterns) eqn:E; [discriminate|].
      apply set_to_list_nonempty; [assumption | discriminate].
Qed.

Lemma extract_judges_placeholder_witness :
  let page : str := "Heard the learned counsel for the parties" in
  SC.extract_judges distinct page = strs ["Unknown Judge"]
  /\ BHC.extract_judges distinct page = strs ["Bombay High Court"]
  /\ SC.extract_judges distinct page <> []
  /\ BHC.extract_judges distinct page <> [].
Proof.
  cbv zeta.
  destruct (extract_judges_placeholder_when_no_match
              distinct "Heard the learned counsel for the parties")
    as [Hsc [Hbhc Hne]].
  split; [|split].
  - apply Hsc. intros p Hp. simpl in Hp.
    repeat (destruct Hp as [<-|Hp]; [vm_compute; reflexivity|]). destruct Hp.
  - apply Hbhc. intros p Hp. simpl in Hp.
    repeat (destruct Hp as [<-|Hp]; [vm_compute; reflexivity|]). destruct Hp.
  - apply Hne. exact distinct_is_set_to_list.
Defined.

(** ** The statistical ranker and the command line *)

Lemma extract_summary_sumy_total (L : Summarizer.SumyLib) (text : str) (n : Z)
      (method : str) :
  exists l, Summarizer.extract_summary_sumy L text n method = Ok l.
Proof.
  unfold Summarizer.extract_summary_sumy, try_except.
  destruct (Summarizer.sumy_try L text n method) as [l|e]; eauto.
Qed.

Lemma choose_summarizer_unknown (method : str) :
  ~ In method (strs ["lsa"; "lexrank"; "textrank"]) ->
  Summarizer.choose_summarizer method = Summarizer.Lsa.
Proof.
  intros H. unfold Summarizer.choose_summarizer.
  destruct (Str.eqb method "lsa"); [reflexivity|].
  destruct (Str.eqb method "lexrank") eqn:E1.
  { apply str_eqb_eq in E1. exfalso. apply H. subst. simpl. auto. }
  destruct (Str.eqb method "textrank") eqn:E2.
  { apply str_eqb_eq in E2. exfalso. apply H. subst. simpl. auto. }
  reflexivity.
Qed.

(** C4: whatever the text, the length and the method, and whatever the
    library does, [extract_summary_sumy] returns a list and raises
    nothing; when anything inside its [try] block raises, the list is
    empty. *)
Theorem sumy_failure_yields_empty_list :
  forall (L : Summarizer.SumyLib) (text : str) (n : Z) (method : str),
    (exists l, Summarizer.extract_summary_sumy L text n method = Ok l)
    /\ (forall e, Summarizer.sumy_try L text n method = Raise e ->
                  Summarizer.extract_summary_sumy L text n method = Ok []).
Proof.
  intros L text n method. split; [apply extract_summary_sumy_total|].
  intros e He. unfold Summarizer.extract_summary_sumy. rewrite He. reflexivity.
Qed.

Lemma sumy_failure_yields_empty_list_witness :
  Summarizer.sumy_try Samples.failing_lib Samples.bail_text 4 "lsa"
  = Raise (Exception "LinAlgError: SVD did not converge")
  /\ Summarizer.extract_summary_sumy Samples.failing_lib Samples.bail_text 4 "lsa"
     = Ok [].
Proof.
  assert (H : Summarizer.sumy_try Samples.failing_lib Samples.bail_text 4 "lsa"
              = Raise (Exception "LinAlgError: SVD did not converge"))
    by (vm_compute; reflexivity).
  split; [exact H|].
  exact (proj2 (sumy_failure_yields_empty_list
                  Samples.failing_lib Samples.bail_text 4 "lsa") _ H).
Defined.

Example tokenizer_failure_is_caught :
  Summarizer.extract_summary_sumy Samples.untrained_lib Samples.bail_text 4 "textrank"
  = Ok [].
Proof. vm_compute. reflexivity. Qed.

(** C5, as stated, fails: with a method outside the supported set and a
    negative length, [extract_summary_sumy] raises nothing; the unknown
    method gives what "lsa" gives. *)
Lemma unknown_method_and_negative_length_accepted :
  Summarizer.extract_summary_sumy Samples.one_sentence_lib Samples.bail_text
                                  4 "centroid"
  = Ok [Samples.bail_text]
  /\ Summarizer.extract_summary_sumy Samples.one_sentence_lib Samples.bail_text
                                     4 "lsa"
     = Ok [Samples.bail_text]
  /\ Summarizer.extract_summary_sumy Samples.one_sentence_lib Samples.bail_text
                                     (-1) "centroid"
     = Ok [].
Proof. repeat split; vm_compute; reflexivity. Qed.

(** C5 (amended): an unknown method is rejected only by the argument
    parser of the command line, before anything is summarized;
    [extract_summary_sumy] itself treats every method other than "lexrank"
    and "textrank" as "lsa" and never raises; a negative length is rejected
    nowhere and reaches the ranker unchanged: the run prints the joined
    sentences of the ranker, and the only failure left to it is that of
    the summarizer's constructor, in which method and length play no
    part. *)
Theorem unknown_method_rejected_by_parser_only :
  (forall (L : Summarizer.SumyLib) (text : str) (n : Z) (method : str),
      ~ In method (strs ["lsa"; "lexrank"; "textrank"]) ->
      Summarizer.extract_summary_sumy L text n method
      = Summarizer.extract_summary_sumy L text n "lsa")
  /\ (forall (L : Summarizer.SumyLib) (a : Summarizer.Args),
         ~ In (Summarizer.arg_method a) Summarizer.method_choices ->
         Summarizer.main L a = Summarizer.UsageError)
  /\ (forall (L : Summarizer.SumyLib) (text : str) (n : Z) (method : str),
         exists l, Summarizer.extract_summary_sumy L text n method = Ok l)
  /\ (forall (L : Summarizer.SumyLib) (a : Summarizer.Args),
         In (Summarizer.arg_method a) (strs ["lsa"; "lexrank"; "textrank"]) ->
         In (Summarizer.arg_output a) Summarizer.output_choices ->
         Summarizer.arg_text a <> [] ->
         exists l,
           Summarizer.extract_summary_sumy
             L (Summarizer.arg_text a) (Summarizer.arg_max_sentences a)
             (Summarizer.arg_method a) = Ok l
           /\ Summarizer.main L a
              = match Summarizer.init L with
                | Ok _ => Summarizer.Printed (Summarizer.join_with_period l)
                | Raise e => Summarizer.Failed e
                end).
Proof.
  split; [|split; [|split]].
  - intros L text n method H.
    unfold Summarizer.extract_summary_sumy, Summarizer.sumy_try.
    rewrite (choose_summarizer_unknown method H). reflexivity.
  - intros L a H. unfold Summarizer.main, Summarizer.parse_args.
    apply str_mem_notin in H. rewrite H. reflexivity.
  - apply extract_summary_sumy_total.
  - intros L a Hm Ho Ht.
    destruct (extract_summary_sumy_total L (Summarizer.arg_text a)
                (Summarizer.arg_max_sentences a) (Summarizer.arg_method a))
      as [l Hl].
    exists l. split; [exact Hl|].
    unfold Summarizer.main, Summarizer.parse_args.
    assert (Hm' : Str.mem (Summarizer.arg_method a) Summarizer.method_choices = true).
    { apply str_mem_In. simpl in Hm |- *. tauto. }
    rewrite Hm'. apply str_mem_In in Ho. rewrite Ho. simpl.
    unfold Summarizer.main_try, Summarizer.LegalCaseSummarizer.
    destruct (Summarizer.init L) as [u|e]; [|reflexivity].
    assert (Hr : Str.eqb (Summarizer.arg_method a) "regex" = false).
    { apply str_eqb_neq. intros E. rewrite E in Hm. simpl in Hm.
      destruct Hm as [H|[H|[H|[]]]]; discriminate H. }
    rewrite bind_ok.
    rewrite Hr. apply str_mem_In in Hm. rewrite Hm, Hl. simpl.
    destruct (Summarizer.arg_text a); [congruence|].
    destruct (Str.eqb (Summarizer.arg_output a) _); reflexivity.
Qed.

Lemma unknown_method_rejected_by_parser_only_witness :
  let a := {| Summarizer.arg_text := Samples.bail_text;
              Summarizer.arg_title := [];
              Summarizer.arg_method := "centroid";
              Summarizer.arg_max_sentences := 4;
              Summarizer.arg_output := "json" |} in
  let b := {| Summarizer.arg_text := Samples.bail_text;
              Summarizer.arg_title := [];
              Summarizer.arg_method := "lsa";
              Summarizer.arg_max_sentences := -1;
              Summarizer.arg_output := "text" |} in
  Summarizer.extract_summary_sumy Samples.one_sentence_lib Samples.bail_text
                                  4 "centroid"
  = Summarizer.extract_summary_sumy Samples.one_sentence_lib Samples.bail_text
                                    4 "lsa"
  /\ Summarizer.main Samples.one_sentence_lib a = Summarizer.UsageError
  /\ (exists l,
         Summarizer.extract_summary_sumy
           Samples.one_sentence_lib Samples.bail_text (-1) "lsa" = Ok l
         /\ Summarizer.main Samples.one_sentence_lib b
            = Summarizer.Printed (Summarizer.join_with_period l))
  /\ Summarizer.main Samples.unconfigured_lib b
     = Summarizer.Failed (Exception "LookupError: stop words not available").
Proof.
  cbv zeta.
  destruct unknown_method_rejected_by_parser_only as [H1 [H2 [_ H4]]].
  split; [|split; [|split]].
  - apply H1. simpl. intros [H|[H|[H|[]]]]; discriminate H.
  - apply H2. simpl. intros [H|[H|[H|[H|[H|[]]]]]]; discriminate H.
  - apply (H4 Samples.one_sentence_lib
              {| Summarizer.arg_text := Samples.bail_text;
                 Summarizer.arg_title := [];
                 Summarizer.arg_method := "lsa";
                 Summarizer.arg_max_sentences := -1;
                 Summarizer.arg_output := "text" |}).
    + simpl. left; reflexivity.
    + simpl. right; left; reflexivity.
    + discriminate.
  - destruct (H4 Samples.unconfigured_lib
                 {| Summarizer.arg_text := Samples.bail_text;
                    Summarizer.arg_title := [];
                    Summarizer.arg_method := "lsa";
                    Summarizer.arg_max_sentences := -1;
                    Summarizer.arg_output := "text" |}) as [l [_ Hmain]].
    + simpl. left; reflexivity.
    + simpl. right; left; reflexivity.
    + discriminate.
    + exact Hmain.
Defined.

(** ** The heuristic score *)

(** C7: the sentence of scenario 1 scores 3 for the verdict keyword "held"
    and 2 for the statutory keyword "section", 5 in all, with or without
    its final period; so its score is at least 5. *)
Theorem score_of_bail_sentence_at_least_5 :
  let s : str :=
    "The court held that the appellant is entitled to anticipatory bail under Section 438." in
  let fragment : str :=
    "The court held that the appellant is entitled to anticipatory bail under Section 438" in
  (5 <= Summarizer.score s)%Z
  /\ Summarizer.score s = 5%Z
  /\ Summarizer.score fragment = 5%Z
  /\ In (list_ascii_of_string "held") Summarizer.legal_keywords
  /\ In (list_ascii_of_string "section") Summarizer.section_keywords
  /\ Summarizer.add_keywords 3 Summarizer.legal_keywords (Str.lower s) 0 = 3%Z
  /\ Summarizer.add_keywords 2 Summarizer.section_keywords (Str.lower s) 0 = 2%Z
  /\ Segmenter.segment 20 s = [fragment].
Proof.
  cbv zeta. split; [vm_compute; discriminate|].
  split; [vm_compute; reflexivity|].
  split; [vm_compute; reflexivity|].
  split; [vm_compute; tauto|].
  split; [vm_compute; tauto|].
  repeat split; vm_compute; reflexivity.
Qed.

(** ** The stable sort and the selection of the top sentences *)

Section SortFacts.

Context {A : Type} (key : A -> Z).

Lemma insert_desc_perm (x : A) (l : list A) :
  Permutation (insert_desc key x l) (x :: l).
Proof.
  induction l as [|y l IH]; simpl; [reflexivity|].
  destruct (key x <? key y)%Z; [|reflexivity].
  rewrite IH. apply perm_swap.
Qed.

Lemma sort_desc_perm (l : list A) : Permutation (sort_desc key l) l.
Proof.
  induction l as [|x l IH]; simpl; [reflexivity|].
  rewrite insert_desc_perm. constructor. exact IH.
Qed.

Lemma sort_desc_In (l : list A) (x : A) : In x (sort_desc key l) <-> In x l.
Proof.
  split; apply Permutation_in;
    [apply sort_desc_perm | symmetry; apply sort_desc_perm].
Qed.

End SortFacts.

Lemma insert_desc_map {A B : Type} (f : B -> A) (keyA : A -> Z) (keyB : B -> Z)
      (x : B) (l : list B) :
  (forall b, keyA (f b) = keyB b) ->
  map f (insert_desc keyB x l) = insert_desc keyA (f x) (map f l).
Proof.
  intros H. induction l as [|y l IH]; simpl; [reflexivity|].
  rewrite !H. destruct (keyB x <? keyB y)%Z; simpl; [rewrite IH|]; reflexivity.
Qed.

Lemma sort_desc_map {A B : Type} (f : B -> A) (keyA : A -> Z) (keyB : B -> Z)
      (l : list B) :
  (forall b, keyA (f b) = keyB b) ->
  map f (sort_desc keyB l) = sort_desc keyA (map f l).
Proof.
  intros H. induction l as [|x l IH]; simpl; [reflexivity|].
  rewrite (insert_desc_map f keyA keyB _ _ H), IH. reflexivity.
Qed.

Lemma py_slice_to_map {A B : Type} (f : A -> B) (n : Z) (l : list A) :
  map f (py_slice_to n l) = py_slice_to n (map f l).
Proof.
  unfold py_slice_to. rewrite length_map.
  destruct (0 <=? n)%Z; symmetry; apply firstn_map.
Qed.

Lemma insert_desc_before (x : Ranking.placed) (l : list Ranking.placed) :
  StronglySorted Ranking.before l ->
  Forall (fun y => Ranking.position x < Ranking.position y) l ->
  StronglySorted Ranking.before (insert_desc Ranking.heuristic_score x l).
Proof.
  induction 1 as [|y l Hs IH Hy]; intros Hpos; simpl.
  - repeat constructor.
  - inversion Hpos as [|? ? Hxy Hxl]; subst.
    destruct (Ranking.heuristic_score x <? Ranking.heuristic_score y)%Z eqn:E.
    + apply Z.ltb_lt in E. constructor; [apply IH; assumption|].
      eapply Permutation_Forall;
        [symmetry; apply insert_desc_perm|].
      constructor; [left; assumption | assumption].
    + apply Z.ltb_ge in E. constructor; [constructor; assumption|].
      constructor.
      * unfold Ranking.before.
        destruct (Z.eq_dec (Ranking.heuristic_score x) (Ranking.heuristic_score y));
          [right; split; assumption | left; lia].
      * rewrite Forall_forall in *. intros z Hz.
        specialize (Hy z Hz). specialize (Hxl z Hz). unfold Ranking.before in *.
        destruct (Z.eq_dec (Ranking.heuristic_score x) (Ranking.heuristic_score z));
          [right; split; assumption | left; lia].
Qed.

Lemma sort_desc_before (l : list Ranking.placed) :
  StronglySorted (fun a b => Ranking.position a < Ranking.position b) l ->
  StronglySorted Ranking.before (sort_desc Ranking.heuristic_score l).
Proof.
  induction 1 as [|x l Hs IH Hx]; simpl; [constructor|].
  apply insert_desc_before; [exact IH|].
  eapply Permutation_Forall; [symmetry; apply sort_desc_perm | exact Hx].
Qed.

Lemma place_from_positions (sentences : list str) (k : nat) :
  StronglySorted (fun a b => Ranking.position a < Ranking.position b)
                 (Ranking.place_from k sentences)
  /\ Forall (fun a => k <= Ranking.position a) (Ranking.place_from k sentences).
Proof.
  revert k; induction sentences as [|s l IH]; intros k.
  - split; constructor.
  - destruct (IH (S k)) as [Hs Hk].
    change (Ranking.place_from k (s :: l))
      with ({| Ranking.position := k; Ranking.sentence := s;
               Ranking.heuristic_score := Summarizer.score s |}
              :: Ranking.place_from (S k) l).
    split.
    + constructor; [exact Hs|].
      eapply Forall_impl; [|exact Hk]. simpl. intros a Ha. lia.
    + constructor; [simpl; lia|].
      eapply Forall_impl; [|exact Hk]. simpl. intros a Ha. lia.
Qed.

Lemma place_from_forget (sentences : list str) (k : nat) :
  map Ranking.forget (Ranking.place_from k sentences)
  = map (fun s => (s, Summarizer.score s)) sentences.
Proof.
  revert k; induction sentences as [|s l IH]; intros k; [reflexivity|].
  change (Ranking.place_from k (s :: l))
    with ({| Ranking.position := k; Ranking.sentence := s;
             Ranking.heuristic_score := Summarizer.score s |}
            :: Ranking.place_from (S k) l).
  simpl. rewrite IH. reflexivity.
Qed.

Lemma place_from_length (sentences : list str) (k : nat) :
  length (Ranking.place_from k sentences) = length sentences.
Proof.
  unfold Ranking.place_from.
  rewrite length_map, length_combine, length_seq. apply Nat.min_id.
Qed.

Lemma before_asymmetric (a b : Ranking.placed) :
  Ranking.before a b -> Ranking.before b a -> False.
Proof. unfold Ranking.before. lia. Qed.

(** There is one arrangement of a list in which every element is
    [before] all the later ones. *)
Lemma sorted_before_unique (l1 l2 : list Ranking.placed) :
  StronglySorted Ranking.before l1 ->
  StronglySorted Ranking.before l2 ->
  Permutation l1 l2 -> l1 = l2.
Proof.
  intros H1; revert l2; induction H1 as [|x l1 Hs1 IH Hx]; intros l2 H2 Hp.
  - apply Permutation_nil in Hp. symmetry; exact Hp.
  - destruct H2 as [|y l2 Hs2 Hy].
    + apply Permutation_sym, Permutation_nil in Hp. discriminate Hp.
    + assert (E : x = y).
      { assert (Hxin : In x (y :: l2))
          by (eapply Permutation_in; [exact Hp | left; reflexivity]).
        assert (Hyin : In y (x :: l1))
          by (eapply Permutation_in;
              [symmetry; exact Hp | left; reflexivity]).
        destruct Hxin as [E|Hxin]; [symmetry; exact E|].
        destruct Hyin as [E|Hyin]; [exact E|].
        rewrite Forall_forall in Hx, Hy.
        exfalso. exact (before_asymmetric x y (Hx y Hyin) (Hy x Hxin)). }
      subst y. f_equal. apply IH; [exact Hs2|].
      eapply Permutation_cons_inv. exact Hp.
Qed.

Lemma sorted_before_split (l : list Ranking.placed) (n : nat)
      (a b : Ranking.placed) :
  StronglySorted Ranking.before l ->
  In a (firstn n l) -> In b (skipn n l) -> Ranking.before a b.
Proof.
  intros Hs; revert n; induction Hs as [|x l Hs IH Hx]; intros n Ha Hb.
  - rewrite firstn_nil in Ha. destruct Ha.
  - destruct n as [|n]; [destruct Ha|]. simpl in Ha, Hb.
    destruct Ha as [<-|Ha]; [|exact (IH n Ha Hb)].
    rewrite Forall_forall in Hx. apply Hx.
    rewrite <- (firstn_skipn n l). apply in_or_app. right; exact Hb.
Qed.

(** C6: number the candidate sentences in document order and sort them as
    the scorer does.  The result is the scorer's ranking; it is a
    rearrangement of the candidates in which, of any two sentences, the
    earlier one has the higher score or, at equal score, the earlier
    position in the document, and it is the only such rearrangement; every
    sentence among its first [n] comes before every sentence left out.
    [extract_key_sentences_regex] returns nothing when the text is empty
    or shorter than 100 characters once stripped; otherwise it returns the
    sentences of the first [max_sentences] entries of that ranking (for a
    negative [max_sentences], of all but the last [- max_sentences]). *)
Theorem ranking_is_stable_by_score_then_position :
  forall sentences : list str,
    let ranked := sort_desc Ranking.heuristic_score (Ranking.place sentences) in
    map Ranking.forget ranked = Summarizer.rank_sentences sentences
    /\ Permutation ranked (Ranking.place sentences)
    /\ StronglySorted Ranking.before ranked
    /\ (forall other : list Ranking.placed,
           Permutation other (Ranking.place sentences) ->
           StronglySorted Ranking.before other ->
           other = ranked)
    /\ (forall (n : nat) (a b : Ranking.placed),
           In a (firstn n ranked) -> In b (skipn n ranked) ->
           Ranking.before a b)
    /\ (forall (text : str) (max_sentences : Z),
           sentences = Segmenter.segment 20 text ->
           (text = [] \/ length (Str.strip text) < 100 ->
            Summarizer.extract_key_sentences_regex text max_sentences = [])
           /\ (text <> [] -> 100 <= length (Str.strip text) ->
               (0 <= max_sentences)%Z ->
               Summarizer.extract_key_sentences_regex text max_sentences
               = map Ranking.sentence (firstn (Z.to_nat max_sentences) ranked))
           /\ (text <> [] -> 100 <= length (Str.strip text) ->
               (max_sentences < 0)%Z ->
               Summarizer.extract_key_sentences_regex text max_sentences
               = map Ranking.sentence
                     (firstn (length sentences - Z.to_nat (- max_sentences))
                             ranked))).
Proof.
  intros sentences ranked.
  assert (Hrank : map Ranking.forget ranked = Summarizer.rank_sentences sentences).
  { unfold ranked, Summarizer.rank_sentences.
    rewrite (sort_desc_map Ranking.forget snd Ranking.heuristic_score)
      by reflexivity.
    change (Ranking.place sentences) with (Ranking.place_from 0 sentences).
    rewrite place_from_forget. reflexivity. }
  assert (Hperm : Permutation ranked (Ranking.place sentences))
    by apply sort_desc_perm.
  assert (Hsorted : StronglySorted Ranking.before ranked).
  { apply sort_desc_before.
    change (Ranking.place sentences) with (Ranking.place_from 0 sentences).
    apply place_from_positions. }
  assert (Hlen : length ranked = length sentences).
  { rewrite (Permutation_length Hperm). apply place_from_length. }
  assert (Htop : forall n : nat,
             map fst (firstn n (Summarizer.rank_sentences sentences))
             = map Ranking.sentence (firstn n ranked)).
  { intros n. rewrite <- Hrank, firstn_map, map_map. reflexivity. }
  split; [exact Hrank|]. split; [exact Hperm|]. split; [exact Hsorted|].
  split; [|split].
  - intros other Hp Hs. apply sorted_before_unique; [exact Hs | exact Hsorted|].
    rewrite Hp. symmetry; exact Hperm.
  - intros n a b. apply sorted_before_split. exact Hsorted.
  - intros text n Hseg. unfold Summarizer.extract_key_sentences_regex.
    rewrite <- Hseg. cbv zeta. split; [|split].
    + intros [->|Hshort]; [reflexivity|].
      apply Nat.ltb_lt in Hshort. rewrite Hshort, orb_true_r. reflexivity.
    + intros Htext Hlong Hn.
      destruct text as [|c text]; [contradiction Htext; reflexivity|].
      apply Nat.ltb_ge in Hlong. rewrite Hlong. simpl orb. cbv iota.
      unfold py_slice_to. apply Z.leb_le in Hn. rewrite Hn. apply Htop.
    + intros Htext Hlong Hn.
      destruct text as [|c text]; [contradiction Htext; reflexivity|].
      apply Nat.ltb_ge in Hlong. rewrite Hlong. simpl orb. cbv iota.
      unfold py_slice_to. apply Z.leb_gt in Hn. rewrite Hn.
      rewrite <- Hlen, <- (length_map Ranking.forget ranked), Hrank.
      rewrite Htop. reflexivity.
Qed.

Lemma ranking_is_stable_witness :
  let text : str :=
    "The first plain sentence comes here. The bench dismissed the appeal today. A second plain sentence comes here. The petition was allowed by the bench." in
  let plain : str := "The first plain sentence comes here" in
  let dismissed : str := "The bench dismissed the appeal today" in
  let ranked (sentences : list str) :=
    sort_desc Ranking.heuristic_score (Ranking.place sentences) in
  (Summarizer.extract_key_sentences_regex text 3
   = map Ranking.sentence (firstn 3 (ranked (Segmenter.segment 20 text)))
   /\ Summarizer.extract_key_sentences_regex text (-1)
      = map Ranking.sentence
            (firstn (length (Segmenter.segment 20 text) - 1)
                    (ranked (Segmenter.segment 20 text))))
  /\ Summarizer.extract_key_sentences_regex
       "The bench dismissed the appeal today. A plain sentence comes here." 3
     = []
  /\ [ {| Ranking.position := 1; Ranking.sentence := dismissed;
          Ranking.heuristic_score := 3 |};
       {| Ranking.position := 0; Ranking.sentence := plain;
          Ranking.heuristic_score := 0 |} ]
     = ranked [plain; dismissed]
  /\ Ranking.before
       {| Ranking.position := 1; Ranking.sentence := dismissed;
          Ranking.heuristic_score := 3 |}
       {| Ranking.position := 0; Ranking.sentence := plain;
          Ranking.heuristic_score := 0 |}.
Proof.
  cbv zeta. split; [split|split; [|split]].
  - destruct (ranking_is_stable_by_score_then_position
                (Segmenter.segment 20
                   "The first plain sentence comes here. The bench dismissed the appeal today. A second plain sentence comes here. The petition was allowed by the bench."))
      as [_ [_ [_ [_ [_ H]]]]].
    apply (H _ 3%Z eq_refl); [discriminate | vm_compute; lia | lia].
  - destruct (ranking_is_stable_by_score_then_position
                (Segmenter.segment 20
                   "The first plain sentence comes here. The bench dismissed the appeal today. A second plain sentence comes here. The petition was allowed by the bench."))
      as [_ [_ [_ [_ [_ H]]]]].
    apply (H _ (-1)%Z eq_refl); [discriminate | vm_compute; lia | lia].
  - destruct (ranking_is_stable_by_score_then_position
                (Segmenter.segment 20
                   "The bench dismissed the appeal today. A plain sentence comes here."))
      as [_ [_ [_ [_ [_ H]]]]].
    apply (H _ 3%Z eq_refl). right. vm_compute. lia.
  - destruct (ranking_is_stable_by_score_then_position
                (strs ["The first plain sentence comes here";
                       "The bench dismissed the appeal today"]))
      as [_ [_ [_ [H _]]]].
    apply H.
    + vm_compute. apply perm_swap.
    + apply SSorted_cons; [apply SSorted_cons; constructor|].
      apply Forall_cons; [left; vm_compute; reflexivity | apply Forall_nil].
  - destruct (ranking_is_stable_by_score_then_position
                (strs ["The first plain sentence comes here";
                       "The bench dismissed the appeal today"]))
      as [_ [_ [_ [_ [H _]]]]].
    apply (H 1); vm_compute; left; reflexivity.
Defined.

Example ranking_keeps_document_order_on_ties :
  Summarizer.extract_key_sentences_regex
    "The first plain sentence comes here. The bench dismissed the appeal today. A second plain sentence comes here. The petition was allowed by the bench. A third plain sentence comes here."
    4
  = strs [ "The bench dismissed the appeal today";
           "The petition was allowed by the bench";
           "The first plain sentence comes here";
           "A second plain sentence comes here" ].
Proof. vm_compute. reflexivity. Qed.

(** ** The composed summary *)

Lemma endswith_dot_rev (s : str) :
  Str.endswith s "."
  = match rev s with c :: _ => Ascii.eqb "." c | [] => false end.
Proof.
  unfold Str.endswith. change (rev (list_ascii_of_string ".")) with ["."%char].
  destruct (rev s) as [|c t]; simpl; [reflexivity|].
  destruct t; apply andb_true_r.
Qed.

Lemma endswith_dots_rev (s : str) :
  Str.endswith s ".."
  = match rev s with
    | c :: d :: _ => Ascii.eqb "." c && Ascii.eqb "." d
    | _ => false
    end.
Proof.
  unfold Str.endswith.
  change (rev (list_ascii_of_string "..")) with ["."%char; "."%char].
  destruct (rev s) as [|c [|d t]]; simpl; try reflexivity.
  - apply andb_false_r.
  - destruct t; rewrite andb_true_r; reflexivity.
Qed.

Lemma rev_after_space (a r : str) :
  rev (a ++ " "%char :: r) = rev r ++ " "%char :: rev a.
Proof.
  rewrite rev_app_distr. simpl. rewrite <- app_assoc. reflexivity.
Qed.

Lemma endswith_dot_after_space (a r : str) :
  Str.endswith (a ++ " "%char :: r) "." = Str.endswith r ".".
Proof.
  rewrite !endswith_dot_rev, rev_after_space.
  destruct (rev r); reflexivity.
Qed.

Lemma endswith_dots_after_space (a r : str) :
  r <> [] -> Str.endswith r ".." = false ->
  Str.endswith (a ++ " "%char :: r) ".." = false.
Proof.
  intros Hne H. rewrite endswith_dots_rev in *. rewrite rev_after_space.
  destruct (rev r) as [|c [|d t]] eqn:E; simpl.
  - apply (f_equal (@rev ascii)) in E. rewrite rev_involutive in E.
    simpl in E. congruence.
  - apply andb_false_r.
  - exact H.
Qed.

Lemma no_terminal_no_final_dots (s : str) :
  no_terminal s -> Str.endswith s ".." = false.
Proof.
  intros H. rewrite endswith_dots_rev.
  apply Forall_rev in H. destruct (rev s) as [|c [|d t]]; try reflexivity.
  inversion H as [|? ? Hc _]; subst.
  destruct (Ascii.eqb "." c) eqn:E; [|reflexivity].
  apply Ascii.eqb_eq in E. subst c. discriminate Hc.
Qed.

Lemma join_with_period_nonempty (l : list str) :
  Summarizer.join_with_period l <> []
  /\ Str.endswith (Summarizer.join_with_period l) "." = true.
Proof.
  unfold Summarizer.join_with_period. cbv zeta.
  destruct (Str.endswith (Str.join ". " l) ".") eqn:E.
  - split; [|exact E]. intros H. rewrite H in E. discriminate E.
  - split.
    + intros H. apply app_eq_nil in H as [_ H]. discriminate H.
    + rewrite endswith_dot_rev, rev_app_distr. reflexivity.
Qed.

Lemma join_with_period_cons (x y : str) (l : list str) :
  Summarizer.join_with_period (x :: y :: l)
  = (x ++ ".") ++ " "%char :: Summarizer.join_with_period (y :: l).
Proof.
  unfold Summarizer.join_with_period. cbv zeta.
  change (Str.join ". " (x :: y :: l))
    with (x ++ list_ascii_of_string ". " ++ Str.join ". " (y :: l)).
  set (b := Str.join ". " (y :: l)).
  assert (E : x ++ list_ascii_of_string ". " ++ b = (x ++ ".") ++ " "%char :: b).
  { rewrite <- app_assoc. reflexivity. }
  rewrite E, endswith_dot_after_space.
  destruct (Str.endswith b "."); [reflexivity|].
  rewrite <- app_assoc. reflexivity.
Qed.

Lemma join_with_period_single_dot (l : list str) :
  Forall (fun s => Str.endswith s ".." = false) l ->
  Str.endswith (Summarizer.join_with_period l) ".." = false.
Proof.
  induction l as [|x l IH]; intros H; [reflexivity|].
  inversion H as [|? ? Hx Hl]; subst.
  destruct l as [|y l].
  - unfold Summarizer.join_with_period. cbv zeta. simpl Str.join.
    destruct (Str.endswith x ".") eqn:E; [exact Hx|].
    rewrite endswith_dot_rev in E.
    rewrite endswith_dots_rev, rev_app_distr. simpl.
    destruct (rev x) as [|c t]; simpl; [reflexivity | exact E].
  - rewrite join_with_period_cons.
    apply endswith_dots_after_space; [|apply IH; exact Hl].
    apply join_with_period_nonempty.
Qed.

Lemma add_new_In (n : Z) (new all : list str) (s : str) :
  In s (Summarizer.add_new n all new) -> In s all \/ In s new.
Proof.
  unfold Summarizer.add_new. revert all.
  induction new as [|x new IH]; intros all H; simpl in *; [auto|].
  apply IH in H as [H|H]; [|auto].
  destruct (negb (Str.mem x all) && (Z.of_nat (length all) <? n)%Z); [|auto].
  apply in_app_or in H as [H|[H|[]]]; auto.
Qed.

Lemma key_sentences_are_segments (text : str) (n : Z) (s : str) :
  In s (Summarizer.extract_key_sentences_regex text n) ->
  In s (Segmenter.segment 20 text).
Proof.
  unfold Summarizer.extract_key_sentences_regex.
  destruct (negb (Str.truthy text) || (length (Str.strip text) <? 100));
    [intros []|].
  cbv zeta. intros H. apply in_map_iff in H as [[s' z] [E H]]. simpl in E. subst s'.
  apply py_slice_to_In in H. unfold Summarizer.rank_sentences in H.
  apply sort_desc_In in H. apply in_map_iff in H as [s' [E H]].
  inversion E; subst. exact H.
Qed.

Lemma hybrid_sentences (L : Summarizer.SumyLib) (text : str) (n : Z) :
  exists l sumy,
    Summarizer.extract_summary_sumy L text n "lsa" = Ok sumy
    /\ Summarizer.extract_hybrid_summary L text n = Ok l
    /\ forall s, In s l ->
                 In s sumy \/ exists m, In s (Segmenter.segment m text).
Proof.
  destruct (extract_summary_sumy_total L text n "lsa") as [sumy Hs].
  unfold Summarizer.extract_hybrid_summary, Summarizer.hybrid_try.
  rewrite Hs. simpl. eexists. exists sumy. split; [reflexivity|].
  split; [reflexivity|].
  assert (Hbase : forall s,
             In s (Summarizer.add_new n
                     (Summarizer.add_new n []
                        (Summarizer.extract_key_sentences_regex text n)) sumy) ->
             In s sumy \/ exists m, In s (Segmenter.segment m text)).
  { intros s H. apply add_new_In in H as [H|H]; [|auto].
    apply add_new_In in H as [[]|H].
    right. exists 20. apply key_sentences_are_segments with (n := n). exact H. }
  intros s H.
  destruct (Z.of_nat (length _) <? n)%Z; [|apply Hbase; exact H].
  apply add_new_In in H as [H|H]; [apply Hbase; exact H|].
  right. exists 50. exact H.
Qed.

Lemma short_text_has_no_sumy_sentences (L : Summarizer.SumyLib) (text : str)
      (n : Z) (method : str) :
  length (Str.strip text) < 200 ->
  Summarizer.extract_summary_sumy L text n method = Ok [].
Proof.
  intros H. unfold Summarizer.extract_summary_sumy, Summarizer.sumy_try.
  apply Nat.ltb_lt in H. rewrite H, orb_true_r. reflexivity.
Qed.

Lemma titled_summary_ends_alike (t r : str) :
  r <> [] ->
  Str.endswith (t ++ list_ascii_of_string ": " ++ r) "." = Str.endswith r "."
  /\ (Str.endswith r ".." = false ->
      Str.endswith (t ++ list_ascii_of_string ": " ++ r) ".." = false).
Proof.
  intros Hne.
  assert (E : t ++ list_ascii_of_string ": " ++ r = (t ++ ":") ++ " "%char :: r).
  { rewrite <- app_assoc. reflexivity. }
  rewrite E. split.
  - apply endswith_dot_after_space.
  - apply endswith_dots_after_space. exact Hne.
Qed.

(** C1, as stated, fails: the sentences of the statistical ranker enter the
    summary as the library returns them.  With a library that returns the
    text as its one sentence, a text of 227 characters that ends in an
    ellipsis gets a summary that ends in three periods. *)
Lemma summary_may_end_with_several_periods :
  Samples.bail_text <> []
  /\ exists r,
      Summarizer.extract_case_summary Samples.one_sentence_lib
                                      Samples.bail_text None 4 = Ok r
      /\ Str.endswith r "." = true
      /\ Str.endswith r ".." = true
      /\ Str.endswith r "..." = true.
Proof.
  split; [discriminate|].
  eexists. split; [vm_compute; reflexivity|].
  repeat split; vm_compute; reflexivity.
Qed.

(** C1 (amended): for every non-empty text (any title, any length
    argument, any behaviour of the library) [extract_case_summary] returns
    a non-empty string that ends with a period; the period is single
    whenever no sentence contributed by the statistical ranker ends with
    two periods, in particular for every text of fewer than 200 characters
    after trimming, where the ranker contributes nothing. *)
Theorem case_summary_ends_with_a_period :
  forall (L : Summarizer.SumyLib) (text : str) (title : option str) (n : Z),
    text <> [] ->
    exists r,
      Summarizer.extract_case_summary L text title n = Ok r
      /\ r <> []
      /\ Str.endswith r "." = true
      /\ ((forall l, Summarizer.extract_summary_sumy L text n "lsa" = Ok l ->
                     Forall (fun s => Str.endswith s ".." = false) l) ->
          Str.endswith r ".." = false)
      /\ (length (Str.strip text) < 200 -> Str.endswith r ".." = false).
Proof.
  intros L text title n Htext.
  destruct (hybrid_sentences L text n) as [l [sumy [Hsumy [Hhyb Hin]]]].
  unfold Summarizer.extract_case_summary, Summarizer.case_summary_try.
  destruct text as [|c0 text0]; [congruence|]. set (text := c0 :: text0) in *.
  simpl Str.truthy. simpl negb. cbv iota.
  rewrite Hhyb. simpl bind. cbv zeta.
  set (ss1 := if Summarizer.is_empty l
              then Summarizer.extract_key_sentences_regex text n else l).
  set (ss := if Summarizer.is_empty ss1
             then py_slice_to n (Segmenter.segment 30 text) else ss1).
  assert (Hss : forall s, In s ss ->
                          In s sumy \/ exists m, In s (Segmenter.segment m text)).
  { intros s H. unfold ss, ss1 in H.
    destruct (Summarizer.is_empty l).
    - destruct (Summarizer.is_empty _).
      + right. exists 30. eapply py_slice_to_In. exact H.
      + right. exists 20. eapply key_sentences_are_segments. exact H.
    - destruct (Summarizer.is_empty l); [|apply Hin; exact H].
      right. exists 30. eapply py_slice_to_In. exact H. }
  assert (Hdots : Forall (fun s => Str.endswith s ".." = false) sumy ->
                  Str.endswith (Summarizer.join_with_period ss) ".." = false).
  { intros Hs. apply join_with_period_single_dot.
    rewrite Forall_forall in *. intros s H.
    destruct (Hss s H) as [H1|[m H1]]; [apply Hs; exact H1|].
    apply no_terminal_no_final_dots. eapply segment_no_terminal. exact H1. }
  destruct (join_with_period_nonempty ss) as [Hne Hdot].
  set (summary := Summarizer.join_with_period ss) in *.
  assert (Hshort : length (Str.strip text) < 200 ->
                   Str.endswith summary ".." = false).
  { intros Hlen. apply Hdots.
    rewrite (short_text_has_no_sumy_sentences L text n "lsa" Hlen) in Hsumy.
    inversion Hsumy. constructor. }
  assert (Hcond : (forall l0, Summarizer.extract_summary_sumy L text n "lsa" = Ok l0 ->
                              Forall (fun s => Str.endswith s ".." = false) l0) ->
                  Str.endswith summary ".." = false).
  { intros H. apply Hdots. apply H. exact Hsumy. }
  unfold try_except.
  destruct title as [t|]; [destruct (Str.truthy t)|].
  - destruct (titled_summary_ends_alike t summary Hne) as [E1 E2].
    exists (t ++ list_ascii_of_string ": " ++ summary).
    split; [reflexivity|]. split.
    { intros H. apply app_eq_nil in H as [_ H]. discriminate H. }
    split; [rewrite E1; exact Hdot|]. split; intros H; apply E2; auto.
  - eexists. split; [reflexivity|]. auto.
  - eexists. split; [reflexivity|]. auto.
Qed.

Lemma case_summary_ends_with_a_period_witness :
  exists r,
    Summarizer.extract_case_summary
      Samples.failing_lib Samples.bail_text (Some (list_ascii_of_string "Arnesh Kumar")) 4
    = Ok r
    /\ r <> []
    /\ Str.endswith r "." = true
    /\ ((forall l, Summarizer.extract_summary_sumy
                     Samples.failing_lib Samples.bail_text 4 "lsa" = Ok l ->
                   Forall (fun s => Str.endswith s ".." = false) l) ->
        Str.endswith r ".." = false)
    /\ (length (Str.strip Samples.bail_text) < 200 ->
        Str.endswith r ".." = false).
Proof.
  apply (case_summary_ends_with_a_period
           Samples.failing_lib Samples.bail_text
           (Some (list_ascii_of_string "Arnesh Kumar")) 4).
  discriminate.
Defined.

Example summary_of_bail_text_without_ranker :
  Summarizer.extract_case_summary
    Samples.failing_lib Samples.bail_text (Some (list_ascii_of_string "Arnesh Kumar")) 4
  = Ok (list_ascii_of_string
          "Arnesh Kumar: The petitioner sought anticipatory bail in connection with the complaint lodged by his wife under the dowry provisions and the trial court as well as the high court declined to grant him any protection from arrest whatsoever.").
Proof. vm_compute. reflexivity. Qed.

Example summary_of_punctuation_only :
  Summarizer.extract_case_summary Samples.failing_lib "?!" None 4
  = Ok (list_ascii_of_string ".").
Proof. vm_compute. reflexivity. Qed.

(** ** The patterns on sample inputs *)

Example citation_pattern_samples :
  Re.search Summarizer.citation_re "reported in (2014) 8 SCC 273 and followed" = true
  /\ Re.search Summarizer.citation_re "reported in (2014) 8 scc 273" = false
  /\ Re.search Summarizer.citation_re "reported in (201) 8 SCC 273" = false.
Proof. repeat split; vm_compute; reflexivity. Qed.

Example versus_pattern_samples :
  Re.search Summarizer.versus_re "Arnesh Kumar VS State of Bihar" = true
  /\ Re.search Summarizer.versus_re "Arnesh Kumar versus State" = true
  /\ Re.search Summarizer.versus_re "Kumar v.State" = true
  /\ Re.search Summarizer.versus_re "Kumar v. State" = false
  /\ Re.search Summarizer.versus_re "canvas and verses" = false.
Proof. repeat split; vm_compute; reflexivity. Qed.

Example justice_and_date_pattern_samples :
  Re.search Summarizer.justice_re "Justice  Prasad" = true
  /\ Re.search Summarizer.justice_re "justice Prasad" = false
  /\ Re.search Summarizer.date_re "on 2-7-2014 the court" = true
  /\ Re.search Summarizer.date_re "on 2014-07-02 the court" = false.
Proof. repeat split; vm_compute; reflexivity. Qed.

Example bhc_judges_found :
  BHC.extract_judges distinct
    "CORAM : A S Oka. Hon'ble Mr. Justice Abhay Oka and justice Riyaz Chagla"
  = strs ["Abhay Oka and justice Riyaz Chagla"].
Proof. vm_compute. reflexivity. Qed.

Example sc_slug_differs_from_unified_key :
  SC.generate_judgment_id Samples.scraper
    "Arnesh Kumar vs State of Bihar" "2014-07-02"
  = "sc_arnesh_kumar_vs_state_of_bihar_20140702".
Proof. vm_compute. reflexivity. Qed.

(* ================================================================= *)
(** * Further properties of the sources *)

(** ** Substrings *)

Lemma startswith_iff (p s : str) :
  Str.startswith s p = true <-> exists post, s = p ++ post.
Proof.
  revert s; induction p as [|x p IH]; intros s.
  - split; [intros _; exists s; reflexivity | intros _; destruct s; reflexivity].
  - destruct s as [|y s]; simpl.
    + split; [discriminate | intros [post H]; discriminate H].
    + rewrite andb_true_iff, Ascii.eqb_eq, IH. split.
      * intros [-> [post ->]]. exists post. reflexivity.
      * intros [post H]. inversion H; subst. split; [reflexivity|].
        exists post. reflexivity.
Qed.

Lemma contains_iff (sub s : str) :
  Str.contains sub s = true <-> exists pre post, s = pre ++ sub ++ post.
Proof.
  induction s as [|c s IH].
  - change (Str.contains sub []) with (Str.startswith [] sub || false).
    rewrite orb_false_r, startswith_iff. split.
    + intros [post H]. exists [], post. exact H.
    + intros [pre [post H]]. destruct pre; [|discriminate H].
      exists post. exact H.
  - change (Str.contains sub (c :: s))
      with (Str.startswith (c :: s) sub || Str.contains sub s).
    rewrite orb_true_iff, startswith_iff, IH. split.
    + intros [[post H]|[pre [post H]]].
      * exists [], post. exact H.
      * exists (c :: pre), post. rewrite H. reflexivity.
    + intros [pre [post H]]. destruct pre as [|d pre].
      * left. exists post. exact H.
      * right. inversion H; subst. exists pre, post. reflexivity.
Qed.

Lemma contains_trans (a b s : str) :
  Str.contains a b = true -> Str.contains b s = true -> Str.contains a s = true.
Proof.
  rewrite !contains_iff. intros [p1 [q1 ->]] [p2 [q2 ->]].
  exists (p2 ++ p1), (q1 ++ q2). rewrite <- !app_assoc. reflexivity.
Qed.

Lemma contains_app_l (sub a b : str) :
  Str.contains sub a = true -> Str.contains sub (a ++ b) = true.
Proof.
  rewrite !contains_iff. intros [p [q ->]].
  exists p, (q ++ b). rewrite <- !app_assoc. reflexivity.
Qed.

Lemma contains_app_r (sub a b : str) :
  Str.contains sub b = true -> Str.contains sub (a ++ b) = true.
Proof.
  rewrite !contains_iff. intros [p [q ->]].
  exists (a ++ p), q. rewrite <- !app_assoc. reflexivity.
Qed.

Lemma slice_contains (s : str) (i j : nat) :
  Str.contains (Re.slice s i j) s = true.
Proof.
  apply contains_iff. unfold Re.slice.
  exists (firstn i s), (skipn (j - i) (skipn i s)).
  rewrite firstn_skipn, firstn_skipn. reflexivity.
Qed.

(** ** Trimming *)

Lemma dropwhile_length (p : ascii -> bool) (s : str) :
  length (Str.dropwhile p s) <= length s.
Proof.
  induction s as [|c s IH]; simpl; [lia|]. destruct (p c); simpl; lia.
Qed.

Lemma strip_length (s : str) : length (Str.strip s) <= length s.
Proof.
  unfold Str.strip, Str.rstrip, Str.lstrip.
  rewrite length_rev.
  etransitivity; [apply dropwhile_length|]. rewrite length_rev.
  apply dropwhile_length.
Qed.

Lemma dropwhile_head (p : ascii -> bool) (s : str) (c : ascii) :
  hd_error (Str.dropwhile p s) = Some c -> p c = false.
Proof.
  induction s as [|d s IH]; simpl; [discriminate|].
  destruct (p d) eqn:E; [exact IH|]. simpl. intros H. inversion H; subst. exact E.
Qed.

Lemma dropwhile_app_stop (p : ascii -> bool) (l : str) (c : ascii) :
  p c = false -> exists y, Str.dropwhile p (l ++ [c]) = y ++ [c].
Proof.
  intros Hc. induction l as [|d l IH]; simpl.
  - rewrite Hc. exists []. reflexivity.
  - destruct (p d); [exact IH|]. exists (d :: l). reflexivity.
Qed.

Lemma strip_ends (s : str) :
  (forall c, hd_error (Str.strip s) = Some c -> Char.is_space c = false)
  /\ (forall c, hd_error (rev (Str.strip s)) = Some c -> Char.is_space c = false).
Proof.
  unfold Str.strip, Str.rstrip, Str.lstrip. split.
  - intros c H.
    destruct (Str.dropwhile Char.is_space s) as [|d t] eqn:E; [discriminate H|].
    assert (Hd : Char.is_space d = false)
      by (apply (dropwhile_head _ s); rewrite E; reflexivity).
    simpl rev in H.
    destruct (dropwhile_app_stop Char.is_space (rev t) d Hd) as [y Hy].
    rewrite Hy, rev_app_distr in H. simpl in H. inversion H; subst. exact Hd.
  - intros c H. rewrite rev_involutive in H. eapply dropwhile_head. exact H.
Qed.

Lemma strip_nil_length (text : str) :
  Str.truthy text = false -> length (Str.strip text) = 0.
Proof. destruct text; [reflexivity | discriminate]. Qed.

(** ** The key sentences *)

Lemma key_sentences_guard (text : str) :
  100 <= length (Str.strip text) ->
  negb (Str.truthy text) || (length (Str.strip text) <? 100) = false.
Proof.
  intros H. destruct (Str.truthy text) eqn:E.
  - simpl. apply Nat.ltb_ge. exact H.
  - apply strip_nil_length in E. lia.
Qed.

(** X1: every sentence that [extract_key_sentences_regex] returns is a
    trimmed fragment of the text between terminal punctuation, has more
    than 20 characters, contains no terminal punctuation and neither
    begins nor ends with white space; and sentences are only returned for
    texts of at least 100 characters after trimming. *)
Theorem key_sentences_are_trimmed_fragments :
  forall (text : str) (n : Z) (s : str),
    In s (Summarizer.extract_key_sentences_regex text n) ->
    100 <= length (Str.strip text)
    /\ (exists f, In f (Segmenter.re_split_terminal text) /\ s = Str.strip f)
    /\ 20 < length s
    /\ no_terminal s
    /\ (forall c, hd_error s = Some c -> Char.is_space c = false)
    /\ (forall c, hd_error (rev s) = Some c -> Char.is_space c = false).
Proof.
  intros text n s H.
  assert (Hg : 100 <= length (Str.strip text)).
  { unfold Summarizer.extract_key_sentences_regex in H.
    destruct (Str.truthy text); simpl in H; [|destruct H].
    destruct (length (Str.strip text) <? 100) eqn:E; [destruct H|].
    apply Nat.ltb_ge in E. exact E. }
  split; [exact Hg|].
  pose proof (key_sentences_are_segments text n s H) as Hseg.
  pose proof (segment_no_terminal _ _ _ Hseg) as Hnt.
  apply segment_In in Hseg as [f [Hf [E Hlen]]].
  split; [exists f; auto|]. split; [exact Hlen|]. split; [exact Hnt|].
  subst s. apply strip_ends.
Qed.

Lemma key_sentences_are_trimmed_fragments_witness :
  let text : str :=
    "The first plain sentence comes here. The bench dismissed the appeal today. A second plain sentence comes here. The petition was allowed by the bench." in
  let s : str := "The bench dismissed the appeal today" in
  100 <= length (Str.strip text)
  /\ (exists f, In f (Segmenter.re_split_terminal text) /\ s = Str.strip f)
  /\ 20 < length s
  /\ no_terminal s
  /\ (forall c, hd_error s = Some c -> Char.is_space c = false)
  /\ (forall c, hd_error (rev s) = Some c -> Char.is_space c = false).
Proof.
  cbv zeta.
  apply (key_sentences_are_trimmed_fragments _ 2).
  vm_compute. left; reflexivity.
Defined.

(** X2: how many sentences [extract_key_sentences_regex] returns: none
    for a text of fewer than 100 characters after trimming; otherwise the
    smaller of [max_sentences] and the number of candidates when
    [max_sentences] is not negative, and all candidates but the
    [-max_sentences] lowest ranked when it is negative. *)
Theorem key_sentences_count :
  forall (text : str) (n : Z),
    (length (Str.strip text) < 100 ->
     Summarizer.extract_key_sentences_regex text n = [])
    /\ (100 <= length (Str.strip text) -> (0 <= n)%Z ->
        length (Summarizer.extract_key_sentences_regex text n)
        = Nat.min (Z.to_nat n) (length (Segmenter.segment 20 text)))
    /\ (100 <= length (Str.strip text) -> (n < 0)%Z ->
        length (Summarizer.extract_key_sentences_regex text n)
        = length (Segmenter.segment 20 text) - Z.to_nat (- n)).
Proof.
  intros text n.
  assert (Hlen : length (Summarizer.rank_sentences (Segmenter.segment 20 text))
                 = length (Segmenter.segment 20 text)).
  { unfold Summarizer.rank_sentences.
    rewrite (Permutation_length (sort_desc_perm _ _)). apply length_map. }
  split; [|split].
  - intros H. unfold Summarizer.extract_key_sentences_regex.
    apply Nat.ltb_lt in H. rewrite H, orb_true_r. reflexivity.
  - intros Hg Hn. unfold Summarizer.extract_key_sentences_regex.
    rewrite (key_sentences_guard text Hg). cbv zeta.
    rewrite length_map. unfold py_slice_to.
    apply Z.leb_le in Hn. rewrite Hn, length_firstn, Hlen. reflexivity.
  - intros Hg Hn. unfold Summarizer.extract_key_sentences_regex.
    rewrite (key_sentences_guard text Hg). cbv zeta.
    rewrite length_map. unfold py_slice_to.
    assert (E : (0 <=? n)%Z = false) by (apply Z.leb_gt; exact Hn).
    rewrite E, length_firstn, Hlen. lia.
Qed.

Lemma key_sentences_count_witness :
  let text : str :=
    "The first plain sentence comes here. The bench dismissed the appeal today. A second plain sentence comes here. The petition was allowed by the bench." in
  Summarizer.extract_key_sentences_regex "Bail is granted to the appellant. The appeal is allowed." 4 = []
  /\ length (Summarizer.extract_key_sentences_regex text 3)
     = Nat.min (Z.to_nat 3) (length (Segmenter.segment 20 text))
  /\ length (Summarizer.extract_key_sentences_regex text (-1))
     = length (Segmenter.segment 20 text) - Z.to_nat (- (-1)).
Proof.
  cbv zeta. split; [|split].
  - apply (proj1 (key_sentences_count _ 4)). vm_compute. lia.
  - apply (proj1 (proj2 (key_sentences_count _ 3))); vm_compute;
      [lia | discriminate].
  - apply (proj2 (proj2 (key_sentences_count _ (-1)))); vm_compute;
      [lia | reflexivity].
Defined.

(** ** The heuristic score, in general *)

Lemma add_keywords_count (w : Z) (kws : list str) (sl : str) (sc : Z) :
  Summarizer.add_keywords w kws sl sc
  = (sc + w * Z.of_nat (length (filter (fun kw => Str.contains kw sl) kws)))%Z.
Proof.
  unfold Summarizer.add_keywords. revert sc.
  induction kws as [|k kws IH]; intros sc; simpl; [lia|].
  rewrite IH. destruct (Str.contains k sl); simpl length; lia.
Qed.

Lemma filter_length_le {A : Type} (f : A -> bool) (l : list A) :
  length (filter f l) <= length l.
Proof.
  induction l as [|x l IH]; simpl; [lia|]. destruct (f x); simpl; lia.
Qed.

Lemma filter_length_one {A : Type} (f : A -> bool) (l : list A) (k : A) :
  In k l -> f k = true -> 1 <= length (filter f l).
Proof.
  intros Hin Hf.
  assert (H : In k (filter f l)) by (apply filter_In; auto).
  destruct (filter f l); [destruct H | simpl; lia].
Qed.

Lemma filter_length_two {A : Type} (f : A -> bool) (l1 l2 l3 : list A)
      (k1 k2 : A) :
  f k1 = true -> f k2 = true ->
  2 <= length (filter f (l1 ++ k1 :: l2 ++ k2 :: l3)).
Proof.
  intros H1 H2. rewrite filter_app. simpl. rewrite H1, filter_app. simpl.
  rewrite H2, length_app. simpl. rewrite length_app. simpl. lia.
Qed.

Lemma bonus_bounds (b : bool) (w sc : Z) :
  (0 <= w)%Z -> (sc <= Summarizer.bonus b w sc <= sc + w)%Z.
Proof. intros Hw. unfold Summarizer.bonus. destruct b; lia. Qed.

Lemma score_decomposition (s : str) :
  exists extra : Z,
    (0 <= extra <= 9)%Z
    /\ Summarizer.score s
       = (3 * Z.of_nat (length (filter (fun kw => Str.contains kw (Str.lower s))
                                       Summarizer.legal_keywords))
          + 2 * Z.of_nat (length (filter (fun kw => Str.contains kw (Str.lower s))
                                         Summarizer.court_keywords))
          + 2 * Z.of_nat (length (filter (fun kw => Str.contains kw (Str.lower s))
                                         Summarizer.section_keywords))
          + extra)%Z.
Proof.
  unfold Summarizer.score. cbv zeta. rewrite !add_keywords_count.
  set (a := Z.of_nat (length (filter _ Summarizer.legal_keywords))).
  set (b := Z.of_nat (length (filter _ Summarizer.court_keywords))).
  set (c := Z.of_nat (length (filter _ Summarizer.section_keywords))).
  set (base := (0 + 3 * a + 2 * b + 2 * c)%Z).
  pose proof (bonus_bounds (Re.search Summarizer.citation_re s) 3 base) as B1.
  set (s1 := Summarizer.bonus (Re.search Summarizer.citation_re s) 3 base) in *.
  pose proof (bonus_bounds (Re.search Summarizer.versus_re s) 2 s1) as B2.
  set (s2 := Summarizer.bonus (Re.search Summarizer.versus_re s) 2 s1) in *.
  pose proof (bonus_bounds (Re.search Summarizer.justice_re s) 2 s2) as B3.
  set (s3 := Summarizer.bonus (Re.search Summarizer.justice_re s) 2 s2) in *.
  pose proof (bonus_bounds (Re.search Summarizer.date_re s) 1 s3) as B4.
  set (s4 := Summarizer.bonus (Re.search Summarizer.date_re s) 1 s3) in *.
  pose proof (bonus_bounds (100 <? length s) 1 s4) as B5.
  set (s5 := Summarizer.bonus (100 <? length s) 1 s4) in *.
  exists (s5 - base)%Z. unfold base in *. lia.
Qed.

(** X3: the heuristic score of a sentence is never negative and never
    above 153 (36 verdict keywords at 3, 8 court and 10 statutory keywords
    at 2, and 9 for the five pattern and length signals). *)
Theorem score_bounds :
  forall s : str, (0 <= Summarizer.score s <= 153)%Z.
Proof.
  intros s. destruct (score_decomposition s) as [extra [He ->]].
  pose proof (filter_length_le (fun kw => Str.contains kw (Str.lower s))
                               Summarizer.legal_keywords) as H1.
  pose proof (filter_length_le (fun kw => Str.contains kw (Str.lower s))
                               Summarizer.court_keywords) as H2.
  pose proof (filter_length_le (fun kw => Str.contains kw (Str.lower s))
                               Summarizer.section_keywords) as H3.
  change (length Summarizer.legal_keywords) with 36 in H1.
  change (length Summarizer.court_keywords) with 8 in H2.
  change (length Summarizer.section_keywords) with 10 in H3.
  lia.
Qed.

Lemma legal_keywords_split_ruled :
  exists l1 l2 l3,
    Summarizer.legal_keywords
    = l1 ++ list_ascii_of_string "ruled" :: l2
         ++ list_ascii_of_string "overruled" :: l3.
Proof.
  exists (firstn 4 Summarizer.legal_keywords),
         (firstn 16 (skipn 5 Summarizer.legal_keywords)),
         (skipn 22 Summarizer.legal_keywords).
  vm_compute. reflexivity.
Qed.

Lemma legal_keywords_split_approved :
  exists l1 l2 l3,
    Summarizer.legal_keywords
    = l1 ++ list_ascii_of_string "approved" :: l2
         ++ list_ascii_of_string "disapproved" :: l3.
Proof.
  exists (firstn 23 Summarizer.legal_keywords), [],
         (skipn 25 Summarizer.legal_keywords).
  vm_compute. reflexivity.
Qed.

Lemma section_keywords_split :
  exists l1 l2 l3,
    Summarizer.section_keywords
    = l1 ++ list_ascii_of_string "section" :: l2
         ++ list_ascii_of_string "sub-section" :: l3.
Proof.
  exists [], (firstn 2 (skipn 1 Summarizer.section_keywords)),
         (skipn 4 Summarizer.section_keywords).
  vm_compute. reflexivity.
Qed.

(** X4: keywords that contain other keywords are counted for each of
    them.  A sentence with "overruled" scores at least 8 ("overruled" and
    "ruled" at 3 each, "rule" at 2), one with "ruled" at least 5, one with
    "disapproved" at least 6 and one with "sub-section" at least 4. *)
Theorem overlapping_keywords_are_counted_each :
  forall s : str,
    (Str.contains "overruled" (Str.lower s) = true -> (8 <= Summarizer.score s)%Z)
    /\ (Str.contains "ruled" (Str.lower s) = true -> (5 <= Summarizer.score s)%Z)
    /\ (Str.contains "disapproved" (Str.lower s) = true ->
        (6 <= Summarizer.score s)%Z)
    /\ (Str.contains "sub-section" (Str.lower s) = true ->
        (4 <= Summarizer.score s)%Z).
Proof.
  intros s. destruct (score_decomposition s) as [extra [He ->]].
  set (f := fun kw => Str.contains kw (Str.lower s)).
  assert (Hrule : Str.contains "ruled" (Str.lower s) = true ->
                  1 <= length (filter f Summarizer.section_keywords)).
  { intros H. apply (filter_length_one f _ (list_ascii_of_string "rule")).
    - vm_compute. tauto.
    - unfold f. eapply contains_trans; [|exact H]. vm_compute. reflexivity. }
  split; [|split; [|split]]; intros H.
  - assert (H' : Str.contains "ruled" (Str.lower s) = true).
    { eapply contains_trans; [|exact H]. vm_compute. reflexivity. }
    specialize (Hrule H').
    destruct legal_keywords_split_ruled as [l1 [l2 [l3 E]]].
    pose proof (filter_length_two f l1 l2 l3 _ _ H' H) as H2.
    rewrite <- E in H2. lia.
  - specialize (Hrule H).
    assert (H1 : 1 <= length (filter f Summarizer.legal_keywords)).
    { apply (filter_length_one f _ (list_ascii_of_string "ruled"));
        [vm_compute; tauto | exact H]. }
    lia.
  - assert (H' : Str.contains "approved" (Str.lower s) = true).
    { eapply contains_trans; [|exact H]. vm_compute. reflexivity. }
    destruct legal_keywords_split_approved as [l1 [l2 [l3 E]]].
    pose proof (filter_length_two f l1 l2 l3 _ _ H' H) as H2.
    rewrite <- E in H2. lia.
  - assert (H' : Str.contains "section" (Str.lower s) = true).
    { eapply contains_trans; [|exact H]. vm_compute. reflexivity. }
    destruct section_keywords_split as [l1 [l2 [l3 E]]].
    pose proof (filter_length_two f l1 l2 l3 _ _ H' H) as H2.
    rewrite <- E in H2. lia.
Qed.

Lemma overlapping_keywords_are_counted_each_witness :
  (8 <= Summarizer.score "The earlier view was Overruled by the larger bench")%Z
  /\ (5 <= Summarizer.score "The bench ruled in favour of the tenant")%Z
  /\ (6 <= Summarizer.score "The scheme was disapproved by the bench")%Z
  /\ (4 <= Summarizer.score "See sub-section (2) for the exception")%Z.
Proof.
  split; [|split; [|split]].
  - apply (proj1 (overlapping_keywords_are_counted_each _)).
    vm_compute. reflexivity.
  - apply (proj1 (proj2 (overlapping_keywords_are_counted_each _))).
    vm_compute. reflexivity.
  - apply (proj1 (proj2 (proj2 (overlapping_keywords_are_counted_each _)))).
    vm_compute. reflexivity.
  - apply (proj2 (proj2 (proj2 (overlapping_keywords_are_counted_each _)))).
    vm_compute. reflexivity.
Defined.

(** ** The hybrid summary *)



(** ** The case summary *)

Lemma segment_threshold_mono (m : nat) (text s : str) :
  In s (Segmenter.segment m text) -> 20 <= m -> In s (Segmenter.segment 20 text).
Proof.
  intros H Hm. apply segment_In in H as [f [Hf [E Hlen]]].
  apply segment_In. exists f. split; [exact Hf|]. split; [exact E | lia].
Qed.

Lemma hybrid_sentences_origin (L : Summarizer.SumyLib) (text : str) (n : Z) :
  exists l sumy,
    Summarizer.extract_summary_sumy L text n "lsa" = Ok sumy
    /\ Summarizer.extract_hybrid_summary L text n = Ok l
    /\ forall s, In s l -> In s sumy \/ In s (Segmenter.segment 20 text).
Proof.
  destruct (extract_summary_sumy_total L text n "lsa") as [sumy Hs].
  unfold Summarizer.extract_hybrid_summary, Summarizer.hybrid_try.
  rewrite Hs. simpl. eexists. exists sumy. split; [reflexivity|].
  split; [reflexivity|].
  assert (Hbase : forall s,
             In s (Summarizer.add_new n
                     (Summarizer.add_new n []
                        (Summarizer.extract_key_sentences_regex text n)) sumy) ->
             In s sumy \/ In s (Segmenter.segment 20 text)).
  { intros s H. apply add_new_In in H as [H|H]; [|auto].
    apply add_new_In in H as [[]|H].
    right. apply key_sentences_are_segments with (n := n). exact H. }
  intros s H.
  destruct (Z.of_nat (length _) <? n)%Z; [|apply Hbase; exact H].
  apply add_new_In in H as [H|H]; [apply Hbase; exact H|].
  right. apply (segment_threshold_mono 50); [exact H | lia].
Qed.

Lemma case_summary_sentences (L : Summarizer.SumyLib) (text : str)
      (title : option str) (n : Z) :
  text <> [] ->
  exists ss sumy,
    Summarizer.extract_summary_sumy L text n "lsa" = Ok sumy
    /\ Summarizer.extract_case_summary L text title n
       = Ok (match title with
             | Some t => if Str.truthy t
                         then t ++ list_ascii_of_string ": "
                                ++ Summarizer.join_with_period ss
                         else Summarizer.join_with_period ss
             | None => Summarizer.join_with_period ss
             end)
    /\ (forall s, In s ss -> In s sumy \/ In s (Segmenter.segment 20 text)).
Proof.
  intros Htext.
  destruct (hybrid_sentences_origin L text n) as [l [sumy [Hsumy [Hhyb Hin]]]].
  unfold Summarizer.extract_case_summary, Summarizer.case_summary_try.
  destruct text as [|c0 text0]; [congruence|]. set (text := c0 :: text0) in *.
  simpl Str.truthy. simpl negb. cbv iota.
  rewrite Hhyb. simpl bind. cbv zeta. unfold try_except.
  set (ss1 := if Summarizer.is_empty l
              then Summarizer.extract_key_sentences_regex text n else l).
  set (ss := if Summarizer.is_empty ss1
             then py_slice_to n (Segmenter.segment 30 text) else ss1).
  exists ss, sumy. split; [exact Hsumy|]. split.
  { destruct title as [t|]; [destruct (Str.truthy t)|]; reflexivity. }
  intros s H. unfold ss, ss1 in H.
  assert (H30 : In s (py_slice_to n (Segmenter.segment 30 text)) ->
                In s (Segmenter.segment 20 text)).
  { intros H1. apply py_slice_to_In in H1.
    apply (segment_threshold_mono 30); [exact H1 | lia]. }
  destruct (Summarizer.is_empty l).
  - destruct (Summarizer.is_empty _).
    + right. apply H30. exact H.
    + right. eapply key_sentences_are_segments. exact H.
  - destruct (Summarizer.is_empty l); [right; apply H30; exact H|].
    apply Hin. exact H.
Qed.

(** X6: the summary is extractive.  For a non-empty text the result of
    [extract_case_summary] is the joined list of its selected sentences,
    and each of them is either a sentence the statistical ranker returned
    or a trimmed fragment of the text of more than 20 characters; for a
    text of fewer than 200 characters after trimming, every one is such a
    fragment. *)
Theorem case_summary_is_extractive :
  forall (L : Summarizer.SumyLib) (text : str) (n : Z),
    text <> [] ->
    exists ss sumy,
      Summarizer.extract_summary_sumy L text n "lsa" = Ok sumy
      /\ Summarizer.extract_case_summary L text None n
         = Ok (Summarizer.join_with_period ss)
      /\ (forall s, In s ss ->
            In s sumy
            \/ exists f, In f (Segmenter.re_split_terminal text)
                         /\ s = Str.strip f /\ 20 < length s)
      /\ (length (Str.strip text) < 200 -> sumy = []).
Proof.
  intros L text n Htext.
  destruct (case_summary_sentences L text None n Htext)
    as [ss [sumy [Hsumy [Hres Hin]]]].
  exists ss, sumy. split; [exact Hsumy|]. split; [exact Hres|]. split.
  - intros s H. destruct (Hin s H) as [H1|H1]; [left; exact H1|].
    right. apply segment_In. exact H1.
  - intros Hlen.
    rewrite (short_text_has_no_sumy_sentences L text n "lsa" Hlen) in Hsumy.
    inversion Hsumy. reflexivity.
Qed.

Lemma case_summary_is_extractive_witness :
  exists ss sumy,
    Summarizer.extract_summary_sumy
      Samples.one_sentence_lib "The appeal is allowed with costs throughout." 4 "lsa"
    = Ok sumy
    /\ Summarizer.extract_case_summary
         Samples.one_sentence_lib "The appeal is allowed with costs throughout." None 4
       = Ok (Summarizer.join_with_period ss)
    /\ (forall s, In s ss ->
          In s sumy
          \/ exists f,
              In f (Segmenter.re_split_terminal
                      "The appeal is allowed with costs throughout.")
              /\ s = Str.strip f /\ 20 < length s)
    /\ (length (Str.strip "The appeal is allowed with costs throughout.") < 200 ->
        sumy = []).
Proof.
  apply (case_summary_is_extractive Samples.one_sentence_lib
           "The appeal is allowed with costs throughout." 4).
  discriminate.
Defined.

Lemma add_new_zero (all new : list str) :
  Summarizer.add_new 0 all new = all.
Proof.
  unfold Summarizer.add_new. induction new as [|x new IH]; simpl; [reflexivity|].
  assert (E : (Z.of_nat (length all) <? 0)%Z = false) by (apply Z.ltb_ge; lia).
  rewrite E, andb_false_r. exact IH.
Qed.

Lemma key_sentences_zero (text : str) :
  Summarizer.extract_key_sentences_regex text 0 = [].
Proof.
  unfold Summarizer.extract_key_sentences_regex.
  destruct (negb (Str.truthy text) || (length (Str.strip text) <? 100));
    reflexivity.
Qed.

(** X7: the two degenerate calls of [extract_case_summary].  An empty
    text gives the empty string, whatever the title; a non-empty text with
    [max_sentences] 0 gives a lone period, behind the title if there is
    one. *)
Theorem case_summary_degenerate_calls :
  forall (L : Summarizer.SumyLib) (title : option str) (n : Z) (text t : str),
    Summarizer.extract_case_summary L [] title n = Ok []
    /\ (text <> [] ->
        Summarizer.extract_case_summary L text None 0
        = Ok (list_ascii_of_string ".")
        /\ (t <> [] ->
            Summarizer.extract_case_summary L text (Some t) 0
            = Ok (t ++ list_ascii_of_string ": ."))).
Proof.
  intros L title n text t. split; [reflexivity|].
  intros Htext.
  assert (Hhyb : Summarizer.extract_hybrid_summary L text 0 = Ok []).
  { destruct (extract_summary_sumy_total L text 0 "lsa") as [sumy Hs].
    unfold Summarizer.extract_hybrid_summary, Summarizer.hybrid_try.
    rewrite Hs. simpl bind. cbv zeta. rewrite !add_new_zero. reflexivity. }
  unfold Summarizer.extract_case_summary, Summarizer.case_summary_try.
  destruct text as [|c0 text0]; [congruence|].
  simpl Str.truthy. simpl negb. cbv iota.
  rewrite Hhyb. simpl bind. cbv zeta.
  rewrite key_sentences_zero. simpl.
  split; [reflexivity|]. intros Ht. destruct t; [congruence|]. reflexivity.
Qed.

Lemma case_summary_degenerate_calls_witness :
  Summarizer.extract_case_summary Samples.failing_lib Samples.bail_text None 0
  = Ok (list_ascii_of_string ".")
  /\ Summarizer.extract_case_summary
       Samples.failing_lib Samples.bail_text
       (Some (list_ascii_of_string "Arnesh Kumar")) 0
     = Ok (list_ascii_of_string "Arnesh Kumar: .").
Proof.
  destruct (proj2 (case_summary_degenerate_calls
                     Samples.failing_lib None 0 Samples.bail_text
                     (list_ascii_of_string "Arnesh Kumar"))) as [H1 H2].
  - discriminate.
  - split; [exact H1 | apply H2; discriminate].
Defined.

(** X8: the title is only ever a prefix.  For a non-empty text and a
    non-empty title, the titled summary is the title, a colon and a space,
    followed by exactly the summary of the untitled call. *)
Theorem case_summary_title_is_a_prefix :
  forall (L : Summarizer.SumyLib) (text t : str) (n : Z),
    text <> [] -> t <> [] ->
    exists r,
      Summarizer.extract_case_summary L text None n = Ok r
      /\ Summarizer.extract_case_summary L text (Some []) n = Ok r
      /\ Summarizer.extract_case_summary L text (Some t) n
         = Ok (t ++ list_ascii_of_string ": " ++ r).
Proof.
  intros L text t n Htext Ht.
  destruct (hybrid_sentences_origin L text n) as [l [sumy [_ [Hhyb _]]]].
  unfold Summarizer.extract_case_summary, Summarizer.case_summary_try.
  destruct text as [|c0 text0]; [congruence|].
  simpl Str.truthy. simpl negb. cbv iota.
  rewrite Hhyb. simpl bind. cbv zeta. unfold try_except.
  destruct t as [|c1 t]; [congruence|]. simpl Str.truthy. cbv iota.
  eexists. split; [reflexivity|]. split; reflexivity.
Qed.

Lemma case_summary_title_is_a_prefix_witness :
  exists r,
    Summarizer.extract_case_summary Samples.failing_lib Samples.bail_text None 4
    = Ok r
    /\ Summarizer.extract_case_summary
         Samples.failing_lib Samples.bail_text (Some []) 4 = Ok r
    /\ Summarizer.extract_case_summary
         Samples.failing_lib Samples.bail_text
         (Some (list_ascii_of_string "Arnesh Kumar")) 4
       = Ok (list_ascii_of_string "Arnesh Kumar" ++ list_ascii_of_string ": " ++ r).
Proof.
  apply (case_summary_title_is_a_prefix Samples.failing_lib Samples.bail_text
           (list_ascii_of_string "Arnesh Kumar") 4); discriminate.
Defined.

(** ** The command line *)





Example construction_failure_precedes_the_method :
  forall method : str,
    In method Summarizer.method_choices ->
    Summarizer.main Samples.unconfigured_lib
      {| Summarizer.arg_text := Samples.bail_text;
         Summarizer.arg_title := [];
         Summarizer.arg_method := method;
         Summarizer.arg_max_sentences := 4;
         Summarizer.arg_output := "json" |}
    = Summarizer.Failed (Exception "LookupError: stop words not available").
Proof.
  intros method H. simpl in H.
  destruct H as [<-|[<-|[<-|[<-|[<-|[]]]]]]; vm_compute; reflexivity.
Qed.

(** ** The judgment store *)

Lemma find_one_some (id : str) (l : list Case) (c : Case) :
  find_one id l = Some c -> In c l /\ case_id c = id.
Proof.
  unfold find_one. intros H. apply find_some in H as [H1 H2].
  apply str_eqb_eq in H2. auto.
Qed.

Lemma find_one_none (id : str) (l : list Case) :
  find_one id l = None <-> ~ In id (map case_id l).
Proof.
  unfold find_one. induction l as [|c l IH]; simpl; [tauto|].
  destruct (Str.eqb (case_id c) id) eqn:E.
  - apply str_eqb_eq in E. split; [discriminate | intros H; exfalso; auto].
  - apply str_eqb_neq in E. rewrite IH. tauto.
Qed.

Lemma find_one_existsb (id : str) (l : list Case) :
  existsb (fun c => Str.eqb (case_id c) id) l
  = match find_one id l with Some _ => true | None => false end.
Proof.
  unfold find_one. induction l as [|c l IH]; simpl; [reflexivity|].
  destruct (Str.eqb (case_id c) id); [reflexivity | exact IH].
Qed.

Lemma find_one_app (id : str) (l l' : list Case) :
  find_one id (l ++ l')
  = match find_one id l with Some c => Some c | None => find_one id l' end.
Proof.
  unfold find_one. induction l as [|c l IH]; simpl; [reflexivity|].
  destruct (Str.eqb (case_id c) id); [reflexivity | exact IH].
Qed.

Lemma find_one_single (d : Case) : find_one (case_id d) [d] = Some d.
Proof. unfold find_one. simpl. rewrite str_eqb_refl. reflexivity. Qed.

Lemma update_one_ids (doc : Case) (l : list Case) :
  map case_id (update_one (case_id doc) doc l) = map case_id l.
Proof.
  induction l as [|c l IH]; simpl; [reflexivity|].
  destruct (Str.eqb (case_id c) (case_id doc)) eqn:E; simpl.
  - apply str_eqb_eq in E. rewrite E. reflexivity.
  - rewrite IH. reflexivity.
Qed.

Lemma update_one_find (doc old : Case) (l : list Case) :
  find_one (case_id doc) l = Some old ->
  find_one (case_id doc) (update_one (case_id doc) doc l) = Some doc.
Proof.
  unfold find_one. induction l as [|c l IH]; simpl; [discriminate|].
  destruct (Str.eqb (case_id c) (case_id doc)) eqn:E; simpl.
  - intros _. rewrite str_eqb_refl. reflexivity.
  - rewrite E. exact IH.
Qed.

Lemma update_one_other (doc : Case) (id : str) (l : list Case) :
  id <> case_id doc ->
  find_one id (update_one (case_id doc) doc l) = find_one id l.
Proof.
  intros Hne. unfold find_one. induction l as [|c l IH]; simpl; [reflexivity|].
  destruct (Str.eqb (case_id c) (case_id doc)) eqn:E; simpl.
  - apply str_eqb_eq in E.
    assert (E1 : Str.eqb (case_id doc) id = false)
      by (apply str_eqb_neq; congruence).
    assert (E2 : Str.eqb (case_id c) id = false)
      by (apply str_eqb_neq; congruence).
    rewrite E1, E2. reflexivity.
  - destruct (Str.eqb (case_id c) id); [reflexivity | exact IH].
Qed.

Lemma update_one_twice (doc : Case) (l : list Case) :
  update_one (case_id doc) doc (update_one (case_id doc) doc l)
  = update_one (case_id doc) doc l.
Proof.
  induction l as [|c l IH]; simpl; [reflexivity|].
  destruct (Str.eqb (case_id c) (case_id doc)) eqn:E; simpl.
  - rewrite str_eqb_refl. reflexivity.
  - rewrite E, IH. reflexivity.
Qed.

Lemma update_one_length (id : str) (doc : Case) (l : list Case) :
  length (update_one id doc l) = length l.
Proof.
  induction l as [|c l IH]; simpl; [reflexivity|].
  destruct (Str.eqb (case_id c) id); simpl; [|rewrite IH]; reflexivity.
Qed.

Lemma ids_unique_after_append (l : list Case) (d : Case) :
  NoDup (map case_id l) -> find_one (case_id d) l = None ->
  NoDup (map case_id (l ++ [d])).
Proof.
  intros Hnd Hf. rewrite map_app. simpl.
  apply NoDup_app; [exact Hnd | repeat constructor; intros [] |].
  intros id Hin [<-|[]]. apply find_one_none in Hf. exact (Hf Hin).
Qed.

(** X10: [save_case] is idempotent on a reachable store.  After a call,
    the identifier of the case is in the store, and the record found under
    it is the one that was there before, if any, else the new one; a
    second call for the same court, title and date, at any time and with
    any other arguments, returns [False] and leaves the store as it is. *)
Theorem save_case_is_idempotent :
  forall (w : World) (court title date : str) (j : list str) (p t : str)
         (c u : option str),
    mongo_up w = true ->
    let id := Unified.judgment_id court title date in
    let w1 := snd (Unified.save_case w court title date j p t c u) in
    find_one id (judgments w1)
    = Some (match find_one id (judgments w) with
            | Some old => old
            | None => Unified.build_case w court title date j p t c u
            end)
    /\ forall (now' : str) (j' : list str) (p' t' : str) (c' u' : option str),
        let w2 := {| now_isoformat := now'; mongo_up := mongo_up w1;
                     judgments := judgments w1 |} in
        Unified.save_case w2 court title date j' p' t' c' u' = (false, w2).
Proof.
  intros w court title date j p t c u Hup id w1.
  assert (Hfound : find_one id (judgments w1)
                   = Some (match find_one id (judgments w) with
                           | Some old => old
                           | None => Unified.build_case w court title date j p t c u
                           end)).
  { unfold w1, Unified.save_case. rewrite Hup. simpl negb. cbv iota zeta.
    fold id. rewrite find_one_existsb.
    destruct (find_one id (judgments w)) eqn:E; simpl; [exact E|].
    rewrite find_one_app, E. apply find_one_single. }
  split; [exact Hfound|].
  intros now' j' p' t' c' u' w2.
  assert (Hup1 : mongo_up w1 = true).
  { unfold w1, Unified.save_case. rewrite Hup. simpl negb. cbv iota zeta.
    destruct (existsb _ _); simpl; first [exact Hup | reflexivity]. }
  unfold Unified.save_case. unfold w2 at 1 2. simpl mongo_up. simpl judgments.
  rewrite Hup1. simpl negb. cbv iota zeta. fold id.
  rewrite find_one_existsb, Hfound. reflexivity.
Qed.

Lemma save_case_is_idempotent_witness :
  let w1 := snd (Unified.save_case Samples.morning "Delhi High Court"
                   "State vs Rao" "2020-01-31" [] [] [] None None) in
  find_one (Unified.judgment_id "Delhi High Court" "State vs Rao" "2020-01-31")
           (judgments w1)
  = Some (Unified.build_case Samples.morning "Delhi High Court"
            "State vs Rao" "2020-01-31" [] [] [] None None)
  /\ Unified.save_case
       {| now_isoformat := now_isoformat Samples.evening;
          mongo_up := mongo_up w1; judgments := judgments w1 |}
       "Delhi High Court" "State vs Rao" "2020-01-31"
       (strs ["Justice Rao"]) [] "Another text" None None
     = (false, {| now_isoformat := now_isoformat Samples.evening;
                  mongo_up := mongo_up w1; judgments := judgments w1 |}).
Proof.
  cbv zeta.
  destruct (save_case_is_idempotent Samples.morning "Delhi High Court"
              "State vs Rao" "2020-01-31" [] [] [] None None eq_refl)
    as [H1 H2].
  split; [exact H1|].
  exact (H2 (now_isoformat Samples.evening) (strs ["Justice Rao"]) []
            (list_ascii_of_string "Another text") None None).
Defined.

Lemma bhc_save_ids_unique (w : World) (doc : Case) :
  NoDup (map case_id (judgments w)) ->
  NoDup (map case_id (judgments (snd (BHC.save_to_mongodb w doc)))).
Proof.
  intros H. unfold BHC.save_to_mongodb.
  destruct (mongo_up w); simpl; [|exact H].
  destruct (find_one (case_id doc) (judgments w)) eqn:E; simpl; [exact H|].
  apply ids_unique_after_append; assumption.
Qed.

Lemma sc_save_ids_unique (w : World) (doc : Case) :
  NoDup (map case_id (judgments w)) ->
  NoDup (map case_id (judgments (snd (SC.save_to_mongodb w doc)))).
Proof.
  intros H. unfold SC.save_to_mongodb.
  destruct (mongo_up w); simpl; [|exact H].
  destruct (find_one (case_id doc) (judgments w)) eqn:E.
  - rewrite update_one_ids. exact H.
  - apply ids_unique_after_append; assumption.
Qed.

Lemma bhc_save_each_ids_unique (docs : list Case) (w : World) (k : nat) :
  NoDup (map case_id (judgments w)) ->
  NoDup (map case_id (judgments (snd (BHC.save_each w docs k)))).
Proof.
  revert w k; induction docs as [|d docs IH]; intros w k H; simpl; [exact H|].
  pose proof (bhc_save_ids_unique w d H) as H1.
  destruct (BHC.save_to_mongodb w d) as [saved w']. apply IH. exact H1.
Qed.

Lemma sc_save_each_ids_unique (docs : list Case) (w : World) (k : nat) :
  NoDup (map case_id (judgments w)) ->
  NoDup (map case_id (judgments (snd (SC.save_each w docs k)))).
Proof.
  revert w k; induction docs as [|d docs IH]; intros w k H; simpl; [exact H|].
  pose proof (sc_save_ids_unique w d H) as H1.
  destruct (SC.save_to_mongodb w d) as [saved w']. apply IH. exact H1.
Qed.

(** X11: no path stores an identifier twice.  If the identifiers in the
    store are pairwise distinct, they still are after [save_case], after
    either scraper's [save_to_mongodb] and after either scraper's
    [scrape_judgments] over any list of fetched judgments, repeated
    identifiers in that list included. *)
Theorem stored_ids_stay_distinct :
  forall w : World,
    NoDup (map case_id (judgments w)) ->
    (forall court title date j p t c u,
        NoDup (map case_id
                   (judgments (snd (Unified.save_case w court title date
                                                      j p t c u)))))
    /\ (forall doc,
           NoDup (map case_id (judgments (snd (BHC.save_to_mongodb w doc)))))
    /\ (forall doc,
           NoDup (map case_id (judgments (snd (SC.save_to_mongodb w doc)))))
    /\ (forall fetched,
           NoDup (map case_id (judgments (snd (BHC.scrape_judgments w fetched)))))
    /\ (forall fetched,
           NoDup (map case_id (judgments (snd (SC.scrape_judgments w fetched))))).
Proof.
  intros w H. split; [|split; [|split; [|split]]].
  - intros court title date j p t c u. unfold Unified.save_case.
    destruct (mongo_up w); simpl; [|exact H].
    rewrite find_one_existsb.
    destruct (find_one _ (judgments w)) eqn:E; simpl; [exact H|].
    apply (ids_unique_after_append (judgments w)
             (Unified.build_case w court title date j p t c u) H E).
  - intros doc. apply bhc_save_ids_unique. exact H.
  - intros doc. apply sc_save_ids_unique. exact H.
  - intros fetched. unfold BHC.scrape_judgments.
    pose proof (bhc_save_each_ids_unique fetched w 0 H) as H1.
    destruct (BHC.save_each w fetched 0). exact H1.
  - intros fetched. unfold SC.scrape_judgments.
    pose proof (sc_save_each_ids_unique fetched w 0 H) as H1.
    destruct (SC.save_each w fetched 0). exact H1.
Qed.

Lemma stored_ids_stay_distinct_witness :
  let doc := Unified.build_case Samples.morning "Bombay High Court"
               "State vs Rao" "2020-01-31" [] [] [] None None in
  NoDup (map case_id (judgments (snd (BHC.scrape_judgments Samples.morning
                                        [doc; doc]))))
  /\ NoDup (map case_id (judgments (snd (SC.scrape_judgments Samples.morning
                                           [doc; doc])))).
Proof.
  cbv zeta.
  destruct (stored_ids_stay_distinct Samples.morning (NoDup_nil _))
    as [_ [_ [_ [H1 H2]]]].
  split; [apply H1 | apply H2].
Defined.

(** X12: the two scrapers resolve a repeated identifier in opposite ways.
    On a reachable store that already holds the identifier, the Bombay
    scraper's [save_to_mongodb] returns [False] and changes nothing (the
    first record stays), while the Supreme Court scraper's returns [True]
    and replaces the record in place: the new record is found under the
    identifier, the number of records is the same, the records under other
    identifiers are untouched, and saving it again changes nothing
    more. *)
Theorem scrapers_resolve_duplicates_differently :
  forall (w : World) (doc old : Case),
    mongo_up w = true ->
    find_one (case_id doc) (judgments w) = Some old ->
    BHC.save_to_mongodb w doc = (false, w)
    /\ fst (SC.save_to_mongodb w doc) = true
    /\ find_one (case_id doc) (judgments (snd (SC.save_to_mongodb w doc)))
       = Some doc
    /\ length (judgments (snd (SC.save_to_mongodb w doc)))
       = length (judgments w)
    /\ (forall id, id <> case_id doc ->
                   find_one id (judgments (snd (SC.save_to_mongodb w doc)))
                   = find_one id (judgments w))
    /\ SC.save_to_mongodb (snd (SC.save_to_mongodb w doc)) doc
       = SC.save_to_mongodb w doc.
Proof.
  intros w doc old Hup Hf.
  unfold BHC.save_to_mongodb, SC.save_to_mongodb.
  rewrite Hup, Hf. simpl negb. cbv iota zeta. simpl.
  split; [reflexivity|]. split; [reflexivity|].
  split; [apply (update_one_find doc old); exact Hf|].
  split; [apply update_one_length|].
  split; [intros id Hne; apply update_one_other; exact Hne|].
  rewrite (update_one_find doc old _ Hf), update_one_twice. reflexivity.
Qed.

Lemma scrapers_resolve_duplicates_differently_witness :
  let old := Unified.build_case Samples.morning "Bombay High Court"
               "State vs Rao" "2020-01-31" [] [] "first text" None None in
  let doc := Unified.build_case Samples.evening "Bombay High Court"
               "State vs Rao" "2020-01-31" [] [] "second text" None None in
  let w := {| now_isoformat := now_isoformat Samples.evening;
              mongo_up := true; judgments := [old] |} in
  BHC.save_to_mongodb w doc = (false, w)
  /\ fst (SC.save_to_mongodb w doc) = true
  /\ find_one (case_id doc) (judgments (snd (SC.save_to_mongodb w doc)))
     = Some doc
  /\ length (judgments (snd (SC.save_to_mongodb w doc))) = length (judgments w)
  /\ (forall id, id <> case_id doc ->
                 find_one id (judgments (snd (SC.save_to_mongodb w doc)))
                 = find_one id (judgments w))
  /\ SC.save_to_mongodb (snd (SC.save_to_mongodb w doc)) doc
     = SC.save_to_mongodb w doc.
Proof.
  cbv zeta.
  apply (scrapers_resolve_duplicates_differently
           {| now_isoformat := now_isoformat Samples.evening;
              mongo_up := true;
              judgments := [Unified.build_case Samples.morning "Bombay High Court"
                              "State vs Rao" "2020-01-31" [] [] "first text"
                              None None] |}
           (Unified.build_case Samples.evening "Bombay High Court"
              "State vs Rao" "2020-01-31" [] [] "second text" None None)
           (Unified.build_case Samples.morning "Bombay High Court"
              "State vs Rao" "2020-01-31" [] [] "first text" None None)).
  - reflexivity.
  - vm_compute. reflexivity.
Defined.

(** ** Counting in [scrape_judgments] *)

Lemma bhc_save_facts (w : World) (d : Case) :
  let r := BHC.save_to_mongodb w d in
  mongo_up (snd r) = mongo_up w
  /\ length (judgments (snd r))
     = length (judgments w) + (if fst r then 1 else 0)
  /\ (forall id c, find_one id (judgments w) = Some c ->
                   find_one id (judgments (snd r)) = Some c)
  /\ (mongo_up w = true -> find_one (case_id d) (judgments (snd r)) <> None)
  /\ (mongo_up w = false -> r = (false, w))
  /\ (find_one (case_id d) (judgments w) <> None -> r = (false, w)).
Proof.
  unfold BHC.save_to_mongodb. cbv zeta.
  destruct (mongo_up w) eqn:Hup; simpl.
  - destruct (find_one (case_id d) (judgments w)) eqn:E; simpl.
    + repeat split; auto; try lia; congruence.
    + split; [reflexivity|]. split; [rewrite length_app; reflexivity|].
      split; [intros id c H; rewrite find_one_app, H; reflexivity|].
      split; [intros _; rewrite find_one_app, E, find_one_single; discriminate|].
      split; [discriminate | congruence].
  - repeat split; auto; try lia; try discriminate.
Qed.

Lemma bhc_save_each_counts (docs : list Case) (w : World) (k : nat) :
  let r := BHC.save_each w docs k in
  k <= fst r /\ fst r <= k + length docs
  /\ length (judgments (snd r)) + k = length (judgments w) + fst r
  /\ mongo_up (snd r) = mongo_up w
  /\ (forall id c, find_one id (judgments w) = Some c ->
                   find_one id (judgments (snd r)) = Some c)
  /\ (mongo_up w = true ->
      forall d, In d docs -> find_one (case_id d) (judgments (snd r)) <> None).
Proof.
  revert w k; induction docs as [|d docs IH]; intros w k; simpl.
  - repeat split; auto; try lia; try (intros _ d []).
  - destruct (bhc_save_facts w d) as [F1 [F2 [F3 [F4 _]]]].
    destruct (BHC.save_to_mongodb w d) as [saved w'] eqn:E. simpl in F1, F2, F3, F4.
    specialize (IH w' (if saved then k + 1 else k)).
    destruct IH as [I1 [I2 [I3 [I4 [I5 I6]]]]].
    split; [destruct saved; lia|]. split; [destruct saved; lia|].
    split; [destruct saved; lia|]. split; [congruence|].
    split; [intros id c H; apply I5, F3, H|].
    intros Hup x [<-|Hx].
    + specialize (F4 Hup).
      destruct (find_one (case_id d) (judgments w')) eqn:Ef; [|congruence].
      rewrite (I5 _ _ Ef). discriminate.
    + apply I6; [congruence | exact Hx].
Qed.

Lemma bhc_save_each_nothing_new (docs : list Case) (w : World) (k : nat) :
  (mongo_up w = false
   \/ forall d, In d docs -> find_one (case_id d) (judgments w) <> None) ->
  BHC.save_each w docs k = (k, w).
Proof.
  revert k; induction docs as [|d docs IH]; intros k H; simpl; [reflexivity|].
  destruct (bhc_save_facts w d) as [_ [_ [_ [_ [F5 F6]]]]].
  assert (E : BHC.save_to_mongodb w d = (false, w)).
  { destruct H as [H|H]; [apply F5; exact H | apply F6, H; left; reflexivity]. }
  rewrite E. apply IH.
  destruct H as [H|H]; [left; exact H | right; intros x Hx; apply H; right; exact Hx].
Qed.

Lemma sc_save_facts (w : World) (d : Case) :
  let r := SC.save_to_mongodb w d in
  mongo_up (snd r) = mongo_up w
  /\ fst r = mongo_up w
  /\ incl (map case_id (judgments w)) (map case_id (judgments (snd r)))
  /\ (mongo_up w = true -> In (case_id d) (map case_id (judgments (snd r))))
  /\ (In (case_id d) (map case_id (judgments w)) ->
      map case_id (judgments (snd r)) = map case_id (judgments w))
  /\ (mongo_up w = false -> snd r = w).
Proof.
  unfold SC.save_to_mongodb. cbv zeta.
  destruct (mongo_up w) eqn:Hup; simpl.
  - destruct (find_one (case_id d) (judgments w)) eqn:E.
    + rewrite update_one_ids. apply find_one_some in E as [Hin Hid].
      repeat split; auto; try apply incl_refl; try discriminate.
      intros _. rewrite <- Hid. apply in_map. exact Hin.
    + rewrite map_app. simpl.
      repeat split; auto; try discriminate.
      * apply incl_appl, incl_refl.
      * intros _. apply in_or_app. right. left. reflexivity.
      * intros Hin. apply find_one_none in E. contradiction.
  - repeat split; auto; try apply incl_refl; discriminate.
Qed.

Lemma sc_save_each_counts (docs : list Case) (w : World) (k : nat) :
  let r := SC.save_each w docs k in
  (mongo_up w = true -> fst r = k + length docs)
  /\ (mongo_up w = false -> r = (k, w))
  /\ mongo_up (snd r) = mongo_up w
  /\ incl (map case_id (judgments w)) (map case_id (judgments (snd r)))
  /\ (mongo_up w = true ->
      forall d, In d docs -> In (case_id d) (map case_id (judgments (snd r))))
  /\ ((forall d, In d docs -> In (case_id d) (map case_id (judgments w))) ->
      map case_id (judgments (snd r)) = map case_id (judgments w)).
Proof.
  revert w k; induction docs as [|d docs IH]; intros w k; simpl.
  - repeat split; auto; try lia; try apply incl_refl; try (intros _ d []).
  - destruct (sc_save_facts w d) as [F1 [F2 [F3 [F4 [F5 F6]]]]].
    destruct (SC.save_to_mongodb w d) as [saved w'] eqn:E.
    simpl in F1, F2, F3, F4, F5, F6.
    specialize (IH w' (if saved then k + 1 else k)).
    destruct IH as [I1 [I2 [I3 [I4 [I5 I6]]]]].
    split; [intros Hup; rewrite I1 by congruence; rewrite F2, Hup; lia|].
    split.
    { intros Hdown. rewrite I2 by congruence.
      rewrite F2, Hdown, (F6 Hdown). reflexivity. }
    split; [congruence|].
    split; [eapply incl_tran; eassumption|].
    split.
    { intros Hup x [<-|Hx]; [apply I4, F4, Hup | apply I5; [congruence | exact Hx]]. }
    intros Hall. rewrite I6.
    + apply F5, Hall. left; reflexivity.
    + intros x Hx. apply F3, Hall. right; exact Hx.
Qed.

(** X13: what [scrape_judgments] counts.  In the Bombay scraper
    [inserted_count] is the number of records added to the store, at most
    [total_found], and scraping the same list again adds and counts
    nothing.  In the Supreme Court scraper, on a reachable store,
    [inserted_count] always equals [total_found], updates included: a
    second scrape of the same list reports every judgment as inserted
    while the stored identifiers stay the same.  With the store down both
    count 0 and change nothing. *)
Theorem scrape_judgments_counts :
  forall (w : World) (fetched : list Case),
    let rb := BHC.scrape_judgments w fetched in
    let rs := SC.scrape_judgments w fetched in
    total_found (fst rb) = length fetched
    /\ inserted_count (fst rb) <= length fetched
    /\ length (judgments (snd rb))
       = length (judgments w) + inserted_count (fst rb)
    /\ inserted_count (fst (BHC.scrape_judgments (snd rb) fetched)) = 0
    /\ snd (BHC.scrape_judgments (snd rb) fetched) = snd rb
    /\ (mongo_up w = true ->
        inserted_count (fst rs) = length fetched
        /\ inserted_count (fst (SC.scrape_judgments (snd rs) fetched))
           = length fetched
        /\ map case_id (judgments (snd (SC.scrape_judgments (snd rs) fetched)))
           = map case_id (judgments (snd rs)))
    /\ (mongo_up w = false ->
        inserted_count (fst rb) = 0 /\ inserted_count (fst rs) = 0
        /\ snd rb = w /\ snd rs = w).
Proof.
  intros w fetched rb rs.
  destruct (bhc_save_each_counts fetched w 0) as [B1 [B2 [B3 [B4 [B5 B6]]]]].
  destruct (sc_save_each_counts fetched w 0) as [S1 [S2 [S3 [S4 [S5 S6]]]]].
  unfold rb, rs, BHC.scrape_judgments, SC.scrape_judgments.
  destruct (BHC.save_each w fetched 0) as [kb wb] eqn:Eb.
  destruct (SC.save_each w fetched 0) as [ks ws] eqn:Es.
  simpl in *.
  assert (Hagain : BHC.save_each wb fetched 0 = (0, wb)).
  { apply bhc_save_each_nothing_new.
    destruct (mongo_up w) eqn:Hup; [right | left; congruence].
    intros d Hd. apply B6; [reflexivity | exact Hd]. }
  rewrite Hagain. simpl.
  split; [reflexivity|]. split; [lia|]. split; [lia|].
  split; [reflexivity|]. split; [reflexivity|]. split.
  - intros Hup.
    destruct (sc_save_each_counts fetched ws 0) as [T1 [_ [_ [_ [_ T6]]]]].
    destruct (SC.save_each ws fetched 0) as [ks2 ws2] eqn:Es2. simpl in *.
    split; [apply S1; exact Hup|].
    split; [apply T1; congruence|].
    apply T6. intros d Hd. apply S5; [exact Hup | exact Hd].
  - intros Hdown.
    rewrite (bhc_save_each_nothing_new fetched w 0 (or_introl Hdown)) in Eb.
    inversion Eb; subst. specialize (S2 Hdown). inversion S2; subst.
    auto.
Qed.

Lemma scrape_judgments_counts_witness :
  let doc := Unified.build_case Samples.morning "Bombay High Court"
               "State vs Rao" "2020-01-31" [] [] [] None None in
  let down := {| now_isoformat := now_isoformat Samples.morning;
                 mongo_up := false; judgments := [] |} in
  let rs := SC.scrape_judgments Samples.morning [doc; doc] in
  (inserted_count (fst rs) = 2
   /\ inserted_count (fst (SC.scrape_judgments (snd rs) [doc; doc])) = 2
   /\ map case_id (judgments (snd (SC.scrape_judgments (snd rs) [doc; doc])))
      = map case_id (judgments (snd rs)))
  /\ (inserted_count (fst (BHC.scrape_judgments down [doc; doc])) = 0
      /\ inserted_count (fst (SC.scrape_judgments down [doc; doc])) = 0
      /\ snd (BHC.scrape_judgments down [doc; doc]) = down
      /\ snd (SC.scrape_judgments down [doc; doc]) = down).
Proof.
  cbv zeta. split.
  - refine (proj1 (proj2 (proj2 (proj2 (proj2 (proj2
              (scrape_judgments_counts Samples.morning _)))))) _).
    reflexivity.
  - refine (proj2 (proj2 (proj2 (proj2 (proj2 (proj2
              (scrape_judgments_counts
                 {| now_isoformat := now_isoformat Samples.morning;
                    mongo_up := false; judgments := [] |} _)))))) _).
    reflexivity.
Defined.

Example scrape_twice_inserts_once_in_bombay :
  let doc := Unified.build_case Samples.morning "Bombay High Court"
               "State vs Rao" "2020-01-31" [] [] [] None None in
  inserted_count (fst (BHC.scrape_judgments Samples.morning [doc; doc])) = 1
  /\ inserted_count (fst (SC.scrape_judgments Samples.morning [doc; doc])) = 2
  /\ length (judgments (snd (SC.scrape_judgments Samples.morning [doc; doc]))) = 1.
Proof. cbv zeta. repeat split; vm_compute; reflexivity. Qed.

(** ** Leading-text summaries of the scrapers *)

Lemma endswith_app_self (a p : str) : Str.endswith (a ++ p) p = true.
Proof.
  unfold Str.endswith. rewrite rev_app_distr. apply startswith_iff.
  exists (rev a). reflexivity.
Qed.

Lemma leading_summary_length (limit : nat) (text : str) :
  length (if limit <? length text
          then Str.strip (firstn limit text) ++ list_ascii_of_string "..."
          else Str.strip (firstn limit text))
  <= limit + 3.
Proof.
  pose proof (strip_length (firstn limit text)) as H.
  rewrite length_firstn in H.
  destruct (limit <? length text); [rewrite length_app; simpl|]; lia.
Qed.

(** X14: the leading-text summaries of the three save paths.  A summary
    never exceeds the limit by more than the three periods of the ellipsis
    (203 characters in [unified_scraper] and the Bombay scraper, 503 in
    the Supreme Court scraper); a text longer than the limit gives the
    trimmed first [limit] characters followed by "...", and a non-empty
    text within the limit gives the trimmed text itself, in all three
    alike. *)
Theorem leading_summaries_are_bounded :
  forall (self : Scraper) (text : str),
    length (Unified.generate_summary text) <= 203
    /\ length (BHC.generate_summary self text) <= 203
    /\ length (SC.generate_summary self text) <= 503
    /\ (200 < length text ->
        Unified.generate_summary text
        = Str.strip (firstn 200 text) ++ list_ascii_of_string "..."
        /\ BHC.generate_summary self text = Unified.generate_summary text
        /\ Str.endswith (Unified.generate_summary text) "..." = true)
    /\ (500 < length text ->
        SC.generate_summary self text
        = Str.strip (firstn 500 text) ++ list_ascii_of_string "..."
        /\ Str.endswith (SC.generate_summary self text) "..." = true)
    /\ (text <> [] -> length text <= 200 ->
        Unified.generate_summary text = Str.strip text
        /\ BHC.generate_summary self text = Str.strip text
        /\ SC.generate_summary self text = Str.strip text).
Proof.
  intros self text.
  unfold Unified.generate_summary, BHC.generate_summary, SC.generate_summary.
  cbv zeta.
  destruct text as [|c0 text0]; simpl Str.truthy; simpl negb; cbv iota.
  - simpl. repeat split; try lia; try congruence.
  - set (text := c0 :: text0).
    split; [apply leading_summary_length|].
    split; [apply leading_summary_length|].
    split; [apply leading_summary_length|].
    split; [|split].
    + intros H. apply Nat.ltb_lt in H. rewrite H.
      repeat split. apply endswith_app_self.
    + intros H. apply Nat.ltb_lt in H. rewrite H.
      split; [reflexivity | apply endswith_app_self].
    + intros _ H.
      assert (E2 : (200 <? length text) = false) by (apply Nat.ltb_ge; lia).
      assert (E5 : (500 <? length text) = false) by (apply Nat.ltb_ge; lia).
      rewrite E2, E5, !firstn_all2 by lia. repeat split.
Qed.

Lemma leading_summaries_are_bounded_witness :
  let text : str := Samples.bail_text in
  let long : str := Samples.bail_text ++ Samples.bail_text ++ Samples.bail_text in
  let short : str := "  Bail is granted.  " in
  (Unified.generate_summary text
   = Str.strip (firstn 200 text) ++ list_ascii_of_string "..."
   /\ BHC.generate_summary Samples.scraper text = Unified.generate_summary text
   /\ Str.endswith (Unified.generate_summary text) "..." = true)
  /\ (SC.generate_summary Samples.scraper long
      = Str.strip (firstn 500 long) ++ list_ascii_of_string "..."
      /\ Str.endswith (SC.generate_summary Samples.scraper long) "..." = true)
  /\ (Unified.generate_summary short = Str.strip short
      /\ BHC.generate_summary Samples.scraper short = Str.strip short
      /\ SC.generate_summary Samples.scraper short = Str.strip short).
Proof.
  cbv zeta. split; [|split].
  - apply (proj1 (proj2 (proj2 (proj2
             (leading_summaries_are_bounded Samples.scraper Samples.bail_text))))).
    vm_compute. lia.
  - apply (proj1 (proj2 (proj2 (proj2 (proj2
             (leading_summaries_are_bounded Samples.scraper
                (Samples.bail_text ++ Samples.bail_text ++ Samples.bail_text))))))).
    vm_compute. lia.
  - apply (proj2 (proj2 (proj2 (proj2 (proj2
             (leading_summaries_are_bounded Samples.scraper
                "  Bail is granted.  ")))))).
    + discriminate.
    + vm_compute. lia.
Defined.

(** ** Tags *)

Lemma fold_append_filter {A : Type} (f : A -> bool) (l acc : list A) :
  fold_left (fun tags x => if f x then tags ++ [x] else tags) l acc
  = acc ++ filter f l.
Proof.
  revert acc; induction l as [|x l IH]; intros acc; simpl.
  - rewrite app_nil_r. reflexivity.
  - rewrite IH. destruct (f x); [rewrite <- app_assoc|]; reflexivity.
Qed.

Lemma char_lower_idempotent (c : ascii) :
  Char.lower (Char.lower c) = Char.lower c.
Proof.
  destruct c as [[] [] [] [] [] [] [] []]; vm_compute; reflexivity.
Qed.

Lemma lower_idempotent (s : str) : Str.lower (Str.lower s) = Str.lower s.
Proof.
  unfold Str.lower. rewrite map_map. apply map_ext. apply char_lower_idempotent.
Qed.

Lemma lower_combined (title text : str) :
  Str.lower (Str.lower title ++ list_ascii_of_string " " ++ Str.lower text)
  = Str.lower (title ++ list_ascii_of_string " " ++ text).
Proof.
  rewrite !lower_app, !lower_idempotent. reflexivity.
Qed.

Lemma unified_tags_filter (title text : str) :
  Unified.generate_tags title text
  = filter (fun term =>
              Str.contains (Str.lower term)
                           (Str.lower (title ++ list_ascii_of_string " " ++ text)))
           Unified.legal_terms.
Proof.
  unfold Unified.generate_tags. cbv zeta.
  rewrite (fold_append_filter
             (fun term => Str.contains (Str.lower term)
                            (Str.lower (title ++ list_ascii_of_string " " ++ text)))).
  reflexivity.
Qed.

Lemma legal_terms_distinct : NoDup Unified.legal_terms.
Proof.
  assert (E : Unified.legal_terms = distinct Unified.legal_terms)
    by (vm_compute; reflexivity).
  rewrite E. apply distinct_NoDup.
Qed.

(** X15: the tags of [unified_scraper] and of the Bombay scraper.  The
    two functions agree; the tags are the vocabulary terms, in vocabulary
    order and without repetition, whose lower case occurs in the
    lower-cased title and text; letter case of title and text makes no
    difference; a term found in the title is tagged whatever the text; and
    "constitutional" is never tagged without "Constitution". *)
Theorem vocabulary_tags :
  forall (self : Scraper) (title text : str),
    BHC.generate_tags self title text = Unified.generate_tags title text
    /\ Unified.generate_tags title text
       = filter (fun term =>
                   Str.contains (Str.lower term)
                     (Str.lower (title ++ list_ascii_of_string " " ++ text)))
                Unified.legal_terms
    /\ NoDup (Unified.generate_tags title text)
    /\ Unified.generate_tags (Str.lower title) (Str.lower text)
       = Unified.generate_tags title text
    /\ (forall term,
           In term Unified.legal_terms ->
           Str.contains (Str.lower term) (Str.lower title) = true ->
           In term (Unified.generate_tags title text))
    /\ (In (list_ascii_of_string "constitutional") (Unified.generate_tags title text) ->
        In (list_ascii_of_string "Constitution") (Unified.generate_tags title text)).
Proof.
  intros self title text.
  split; [reflexivity|]. split; [apply unified_tags_filter|].
  split; [rewrite unified_tags_filter; apply NoDup_filter, legal_terms_distinct|].
  split; [rewrite !unified_tags_filter, lower_combined; reflexivity|].
  split.
  - intros term Hin Hc. rewrite unified_tags_filter. apply filter_In.
    split; [exact Hin|]. rewrite lower_app. apply contains_app_l. exact Hc.
  - rewrite unified_tags_filter, !filter_In. intros [_ H]. split.
    + vm_compute. tauto.
    + eapply contains_trans; [|exact H]. vm_compute. reflexivity.
Qed.

Lemma vocabulary_tags_witness :
  In (list_ascii_of_string "bail")
     (Unified.generate_tags "Anticipatory BAIL application" "The Constitutional bench sat")
  /\ In (list_ascii_of_string "Constitution")
        (Unified.generate_tags "Anticipatory BAIL application" "The Constitutional bench sat").
Proof.
  destruct (vocabulary_tags Samples.scraper "Anticipatory BAIL application"
              "The Constitutional bench sat") as [_ [_ [_ [_ [H1 H2]]]]].
  split.
  - apply H1; [vm_compute; tauto | vm_compute; reflexivity].
  - apply H2. vm_compute. tauto.
Defined.

Lemma filter_nil_when_all_false {A : Type} (f : A -> bool) (l : list A) :
  (forall x, In x l -> f x = false) -> filter f l = [].
Proof.
  induction l as [|x l IH]; intros H; simpl; [reflexivity|].
  rewrite (H x (or_introl eq_refl)). apply IH. intros y Hy. apply H. right; exact Hy.
Qed.

Lemma map_fst_filter_NoDup {A B : Type} (f : A * B -> bool) (l : list (A * B)) :
  NoDup (map fst l) -> NoDup (map fst (filter f l)).
Proof.
  induction l as [|e l IH]; simpl; intros H; [constructor|].
  inversion H as [|? ? Hn Hl]; subst.
  destruct (f e); simpl; [|apply IH; exact Hl].
  constructor; [|apply IH; exact Hl].
  intros Hin. apply Hn. apply in_map_iff in Hin as [e' [E He']].
  apply filter_In in He' as [He' _]. apply in_map_iff. exists e'. auto.
Qed.

Lemma sc_tags_filter (self : Scraper) (title text : str) :
  SC.generate_tags self title text
  = list_ascii_of_string "supreme court"
      :: map fst
           (filter (fun entry =>
                      existsb (fun keyword =>
                                 Str.contains keyword
                                   (Str.lower (title ++ list_ascii_of_string " " ++ text)))
                              (snd entry))
                   SC.legal_areas).
Proof.
  unfold SC.generate_tags. cbv zeta.
  set (f := fun entry : str * list str =>
              existsb (fun keyword =>
                         Str.contains keyword
                           (Str.lower (title ++ list_ascii_of_string " " ++ text)))
                      (snd entry)).
  assert (G : forall l acc,
             fold_left (fun tags entry =>
                          if f entry then tags ++ [fst entry] else tags) l acc
             = acc ++ map fst (filter f l)).
  { induction l as [|x l IH]; intros acc; simpl.
    - rewrite app_nil_r. reflexivity.
    - rewrite IH. destruct (f x); simpl; [rewrite <- app_assoc|]; reflexivity. }
  rewrite (G SC.legal_areas). reflexivity.
Qed.

(** X16: the tags of the Supreme Court scraper.  They are "supreme
    court" followed by exactly the legal areas that have a keyword
    occurring in the lower-cased title and text, in the order of the
    dictionary: an area is tagged if and only if one of its keywords
    occurs.  So there are between one and seven tags, all different;
    letter case of title and text makes no difference; and a text without
    any keyword gets the court tag alone. *)
Theorem supreme_court_tags :
  forall (self : Scraper) (title text : str),
    let combined_text := Str.lower (title ++ list_ascii_of_string " " ++ text) in
    SC.generate_tags self title text
    = list_ascii_of_string "supreme court"
        :: map fst
             (filter (fun entry =>
                        existsb (fun keyword => Str.contains keyword combined_text)
                                (snd entry))
                     SC.legal_areas)
    /\ (forall area : str,
           In area (SC.generate_tags self title text)
           <-> area = list_ascii_of_string "supreme court"
               \/ exists keywords keyword,
                    In (area, keywords) SC.legal_areas
                    /\ In keyword keywords
                    /\ Str.contains keyword combined_text = true)
    /\ 1 <= length (SC.generate_tags self title text) <= 7
    /\ NoDup (SC.generate_tags self title text)
    /\ SC.generate_tags self (Str.lower title) (Str.lower text)
       = SC.generate_tags self title text
    /\ ((forall keywords keyword,
            In keywords (map snd SC.legal_areas) -> In keyword keywords ->
            Str.contains keyword combined_text = false) ->
        SC.generate_tags self title text = strs ["supreme court"]).
Proof.
  intros self title text combined_text.
  rewrite !sc_tags_filter, lower_combined. fold combined_text.
  set (f := fun entry : str * list str =>
              existsb (fun keyword => Str.contains keyword combined_text)
                      (snd entry)).
  split; [reflexivity|]. split; [|split; [|split; [|split]]].
  - intros area. split.
    + intros [E|Hin]; [left; symmetry; exact E|]. right.
      apply in_map_iff in Hin as [[a keywords] [E He]]. simpl in E. subst a.
      apply filter_In in He as [He Hf]. unfold f in Hf. simpl in Hf.
      apply existsb_exists in Hf as [keyword [Hk Hc]].
      exists keywords, keyword. auto.
    + intros [->|[keywords [keyword [He [Hk Hc]]]]]; [left; reflexivity|].
      right. apply in_map_iff. exists (area, keywords). split; [reflexivity|].
      apply filter_In. split; [exact He|]. unfold f. simpl.
      apply existsb_exists. exists keyword. auto.
  - pose proof (filter_length_le f SC.legal_areas) as H.
    change (length SC.legal_areas) with 6 in H.
    change (length (list_ascii_of_string "supreme court"
                      :: map fst (filter f SC.legal_areas)))
      with (S (length (map fst (filter f SC.legal_areas)))).
    rewrite length_map. lia.
  - assert (Hall : NoDup (list_ascii_of_string "supreme court"
                            :: map fst SC.legal_areas)).
    { assert (E : list_ascii_of_string "supreme court" :: map fst SC.legal_areas
                  = distinct (list_ascii_of_string "supreme court"
                                :: map fst SC.legal_areas))
        by (vm_compute; reflexivity).
      exact (eq_ind_r (@NoDup str) (distinct_NoDup _) E). }
    apply NoDup_cons_iff in Hall as [Hnot Hnd]. constructor.
    + intros Hin. apply Hnot. apply in_map_iff in Hin as [e [E He]].
      apply filter_In in He as [He _]. apply in_map_iff. exists e. auto.
    + apply map_fst_filter_NoDup. exact Hnd.
  - reflexivity.
  - intros Hnone. rewrite filter_nil_when_all_false; [reflexivity|].
    intros entry He. unfold f.
    destruct (existsb _ (snd entry)) eqn:E; [|reflexivity].
    apply existsb_exists in E as [keyword [Hk Hc]].
    rewrite (Hnone (snd entry) keyword) in Hc;
      [discriminate Hc | apply in_map; exact He | exact Hk].
Qed.

Lemma supreme_court_tags_witness :
  (In (list_ascii_of_string "constitutional law")
      (SC.generate_tags Samples.scraper "Maneka Gandhi" "Scope of Article 21")
   /\ ~ In (list_ascii_of_string "family law")
        (SC.generate_tags Samples.scraper "Maneka Gandhi" "Scope of Article 21"))
  /\ SC.generate_tags Samples.scraper "Maneka Gandhi" "Passport impounded"
     = strs ["supreme court"].
Proof.
  split; [split|].
  - destruct (supreme_court_tags Samples.scraper "Maneka Gandhi" "Scope of Article 21")
      as [_ [H _]].
    apply H. right.
    exists (strs ["constitution"; "fundamental rights"; "article"]),
           (list_ascii_of_string "article").
    split; [vm_compute; tauto|]. split; [vm_compute; tauto|].
    vm_compute. reflexivity.
  - destruct (supreme_court_tags Samples.scraper "Maneka Gandhi" "Scope of Article 21")
      as [_ [H _]].
    intros Hin. apply H in Hin as [E|[keywords [keyword [He [Hk Hc]]]]];
      [discriminate E|].
    vm_compute in He.
    destruct He as [E|[E|[E|[E|[E|[E|[]]]]]]]; try discriminate E.
    injection E as <-. vm_compute in Hk.
    destruct Hk as [<-|[<-|[<-|[<-|[]]]]]; vm_compute in Hc; discriminate Hc.
  - destruct (supreme_court_tags Samples.scraper "Maneka Gandhi" "Passport impounded")
      as [_ [_ [_ [_ [_ H]]]]].
    apply H. intros keywords keyword Hks Hk. vm_compute in Hks.
    destruct Hks as [<-|[<-|[<-|[<-|[<-|[<-|[]]]]]]]; vm_compute in Hk;
      repeat (destruct Hk as [<-|Hk]; [vm_compute; reflexivity|]);
      destruct Hk.
Defined.

(** ** What the pattern extractors return *)

Lemma findall_from_reported (s : str) (r : Re.regex) (fuel i : nat) (x : str) :
  In x (Re.findall_from s r fuel i) ->
  exists i' j g, Re.match_at s r i' = Some (j, g) /\ x = Re.reported s r i' j g.
Proof.
  revert i; induction fuel as [|fuel IH]; intros i; simpl; [intros []|].
  destruct (length s <? i); [intros []|].
  destruct (Re.match_at s r i) as [[j g]|] eqn:E.
  - intros [<-|H]; [exists i, j, g; auto | apply IH in H; exact H].
  - apply IH.
Qed.

Lemma contains_nil (s : str) : Str.contains [] s = true.
Proof. apply contains_iff. exists [], s. reflexivity. Qed.

Lemma reported_contains (s : str) (r : Re.regex) (i j : nat) (g : Re.capture) :
  Str.contains (Re.reported s r i j g) s = true.
Proof.
  unfold Re.reported. destruct (Re.has_group r); [|apply slice_contains].
  destruct g as [[a b]|]; [apply slice_contains | apply contains_nil].
Qed.

Lemma findall_contains (r : Re.regex) (s x : str) :
  In x (Re.findall r s) -> Str.contains x s = true.
Proof.
  unfold Re.findall. intros H.
  apply findall_from_reported in H as [i [j [g [_ ->]]]].
  apply reported_contains.
Qed.

Lemma flat_findall_contains (patterns : list Re.regex) (s x : str) :
  In x (flat_map (fun p => Re.findall p s) patterns) ->
  Str.contains x s = true.
Proof.
  intros H. apply in_flat_map in H as [p [_ H]].
  apply findall_contains in H. exact H.
Qed.

Lemma search_group_contains (r : Re.regex) (s m : str) :
  search_group r s = Some m -> Str.contains m s = true.
Proof.
  unfold search_group.
  destruct (Re.scan s r (length s) 0) as [[[i j] g]|]; [|discriminate].
  intros H. inversion H; subst. apply slice_contains.
Qed.

Lemma set_to_list_In (list_of_set : list str -> list str) (l : list str) (x : str) :
  set_to_list_spec list_of_set -> In x (list_of_set l) -> In x l.
Proof. intros H. apply (proj2 (H l) x). Qed.

Lemma set_to_list_nil (list_of_set : list str -> list str) :
  set_to_list_spec list_of_set -> list_of_set [] = [].
Proof.
  intros H. destruct (H []) as [_ Hin].
  destruct (list_of_set []) as [|x l]; [reflexivity|].
  exfalso. apply (Hin x). left; reflexivity.
Qed.

(** X17: the referenced sections.  Whatever order [list(set(...))]
    yields, the sections returned by [unified_scraper], by the Bombay
    scraper (which agree) and by the Supreme Court scraper are pairwise
    different and each occurs verbatim in the text; an empty text has no
    sections. *)
Theorem referenced_sections_occur_in_text :
  forall (list_of_set : list str -> list str) (self : Scraper) (text : str),
    set_to_list_spec list_of_set ->
    NoDup (Unified.extract_referenced_sections list_of_set text)
    /\ (forall x, In x (Unified.extract_referenced_sections list_of_set text) ->
                  Str.contains x text = true)
    /\ BHC.extract_referenced_sections self list_of_set text
       = Unified.extract_referenced_sections list_of_set text
    /\ NoDup (SC.extract_referenced_sections self list_of_set text)
    /\ (forall x, In x (SC.extract_referenced_sections self list_of_set text) ->
                  Str.contains x text = true)
    /\ Unified.extract_referenced_sections list_of_set [] = []
    /\ SC.extract_referenced_sections self list_of_set [] = [].
Proof.
  intros los self text Hspec.
  unfold Unified.extract_referenced_sections, BHC.extract_referenced_sections,
    SC.extract_referenced_sections. cbv zeta.
  split; [|split; [|split; [|split; [|split; [|split]]]]].
  - destruct (negb (Str.truthy text)); [constructor | apply Hspec].
  - intros x H. destruct (negb (Str.truthy text)); [destruct H|].
    apply (set_to_list_In _ _ _ Hspec) in H. eapply flat_findall_contains. exact H.
  - reflexivity.
  - apply Hspec.
  - intros x H. apply (set_to_list_In _ _ _ Hspec) in H. eapply flat_findall_contains. exact H.
  - reflexivity.
  - change (flat_map (fun pattern => Re.findall pattern []) SC.section_patterns)
      with (@nil str).
    apply set_to_list_nil. exact Hspec.
Qed.

Lemma referenced_sections_occur_in_text_witness :
  let text : str := "convicted under Section 498A of IPC read with Article 21" in
  NoDup (SC.extract_referenced_sections Samples.scraper distinct text)
  /\ (forall x, In x (SC.extract_referenced_sections Samples.scraper distinct text) ->
                Str.contains x text = true).
Proof.
  cbv zeta.
  destruct (referenced_sections_occur_in_text distinct Samples.scraper
              "convicted under Section 498A of IPC read with Article 21"
              distinct_is_set_to_list) as [_ [_ [_ [H1 [H2 _]]]]].
  split; [exact H1 | exact H2].
Defined.

Example referenced_sections_sample :
  SC.extract_referenced_sections Samples.scraper distinct
    "convicted under Section 498A of IPC read with Article 21"
  = strs ["Section 498A of IPC"; "Article 21"; "Section 498A"].
Proof. vm_compute. reflexivity. Qed.

Lemma match_at_first_char (s : str) (p : ascii -> bool) (r1 r2 : Re.regex)
      (i j : nat) (g : Re.capture) :
  Re.match_at s (Re.Cat (Re.Cat (Re.Cls p) r1) r2) i = Some (j, g) ->
  exists c, nth_error s i = Some c /\ p c = true.
Proof.
  unfold Re.match_at. simpl.
  destruct (nth_error s i) as [c|]; [|discriminate].
  destruct (p c) eqn:E; [|discriminate].
  intros _. exists c. auto.
Qed.

Lemma slice_first_char (s : str) (i j : nat) (c : ascii) :
  nth_error s i = Some c ->
  Re.slice s i j = [] \/ exists rest, Re.slice s i j = c :: rest.
Proof.
  intros H. unfold Re.slice.
  assert (E : exists rest, skipn i s = c :: rest).
  { revert i H. induction s as [|d s IH]; intros [|i] H; simpl in *;
      try discriminate.
    - inversion H; subst. exists s. reflexivity.
    - apply IH. exact H. }
  destruct E as [rest ->].
  destruct (j - i); [left; reflexivity | right; simpl; eauto].
Qed.

Lemma sc_judge_pattern_shape (r : Re.regex) :
  In r SC.judge_patterns ->
  Re.has_group r = false
  /\ exists c r1 r2,
      r = Re.Cat (Re.Cat (Re.Cls (Ascii.eqb c)) r1) r2
      /\ c <> "U"%char.
Proof.
  intros H. simpl in H.
  destruct H as [<-|[<-|[<-|[]]]]; (split; [reflexivity|]);
    do 3 eexists; (split; [reflexivity | discriminate]).
Qed.

Lemma sc_match_is_not_the_placeholder (text x : str) :
  In x (flat_map (fun p => Re.findall p text) SC.judge_patterns) ->
  x <> list_ascii_of_string "Unknown Judge".
Proof.
  intros H. apply in_flat_map in H as [r [Hr H]].
  destruct (sc_judge_pattern_shape r Hr) as [Hg [c [r1 [r2 [-> Hc]]]]].
  unfold Re.findall in H.
  apply findall_from_reported in H as [i [j [g [Hm ->]]]].
  unfold Re.reported. rewrite Hg.
  apply match_at_first_char in Hm as [d [Hd Hp]].
  apply Ascii.eqb_eq in Hp. subst d.
  destruct (slice_first_char text i j c Hd) as [E|[rest E]]; rewrite E.
  - discriminate.
  - intros H. inversion H. congruence.
Qed.

(** X18: the judges returned.  In both scrapers the names are pairwise
    different and each one other than the placeholder occurs verbatim in
    the page text.  In the Supreme Court scraper every match begins with
    "J", "H" or "M", so "Unknown Judge" is returned exactly when no
    pattern matches: there the placeholder cannot be mistaken for a
    name. *)
Theorem judges_occur_in_text :
  forall (list_of_set : list str -> list str) (text : str),
    set_to_list_spec list_of_set ->
    (In (list_ascii_of_string "Unknown Judge") (SC.extract_judges list_of_set text)
     <-> flat_map (fun p => Re.findall p text) SC.judge_patterns = [])
    /\ (forall x, In x (SC.extract_judges list_of_set text) ->
                  x = list_ascii_of_string "Unknown Judge"
                  \/ Str.contains x text = true)
    /\ (forall x, In x (BHC.extract_judges list_of_set text) ->
                  x = list_ascii_of_string "Bombay High Court"
                  \/ Str.contains x text = true)
    /\ NoDup (SC.extract_judges list_of_set text)
    /\ NoDup (BHC.extract_judges list_of_set text).
Proof.
  intros los text Hspec.
  unfold SC.extract_judges, BHC.extract_judges. cbv zeta.
  split; [|split; [|split; [|split]]].
  - destruct (flat_map _ SC.judge_patterns) as [|y l] eqn:E.
    + split; [reflexivity | intros _; left; reflexivity].
    + split; [|discriminate]. intros H. exfalso.
      apply (set_to_list_In _ _ _ Hspec) in H. rewrite <- E in H.
      exact (sc_match_is_not_the_placeholder text _ H eq_refl).
  - intros x H. destruct (flat_map _ SC.judge_patterns) as [|y l] eqn:E.
    + destruct H as [<-|[]]. left; reflexivity.
    + right. apply (set_to_list_In _ _ _ Hspec) in H. rewrite <- E in H.
      eapply flat_findall_contains. exact H.
  - intros x H. destruct (flat_map _ BHC.judge_patterns) as [|y l] eqn:E.
    + destruct H as [<-|[]]. left; reflexivity.
    + right. apply (set_to_list_In _ _ _ Hspec) in H. rewrite <- E in H.
      eapply flat_findall_contains. exact H.
  - destruct (flat_map _ SC.judge_patterns); [|apply Hspec].
    repeat constructor. intros [].
  - destruct (flat_map _ BHC.judge_patterns); [|apply Hspec].
    repeat constructor. intros [].
Qed.

Lemma judges_occur_in_text_witness :
  let text : str := "Before Justice Prasad and Justice Ghose" in
  ~ In (list_ascii_of_string "Unknown Judge") (SC.extract_judges distinct text)
  /\ (forall x, In x (SC.extract_judges distinct text) ->
                x = list_ascii_of_string "Unknown Judge"
                \/ Str.contains x text = true).
Proof.
  cbv zeta.
  destruct (judges_occur_in_text distinct "Before Justice Prasad and Justice Ghose"
              distinct_is_set_to_list) as [H1 [H2 _]].
  split; [|exact H2].
  intros H. apply H1 in H. vm_compute in H. discriminate H.
Defined.

Lemma first_found_origin (patterns : list Re.regex) (text fallback : str) :
  BHC.first_found patterns text fallback = fallback
  \/ Str.contains (BHC.first_found patterns text fallback) text = true.
Proof.
  induction patterns as [|p ps IH]; simpl; [left; reflexivity|].
  destruct (Re.findall p text) as [|m l] eqn:E; [exact IH|].
  right. apply (findall_contains p). rewrite E. left; reflexivity.
Qed.

Lemma first_search_origin (patterns : list Re.regex) (text fallback : str) :
  SC.first_search patterns text fallback = fallback
  \/ Str.contains (SC.first_search patterns text fallback) text = true.
Proof.
  induction patterns as [|p ps IH]; simpl; [left; reflexivity|].
  destruct (search_group p text) as [m|] eqn:E; [|exact IH].
  right. eapply search_group_contains. exact E.
Qed.

(** X19: citations and dates are never made up.  In both scrapers the
    citation returned occurs verbatim in the page text (it is empty when
    no pattern matches), and the date returned either occurs verbatim in
    the page text or is the date of the day of scraping, which is what is
    returned when no date pattern matches. *)
Theorem citation_and_date_occur_in_text :
  forall (self : Scraper) (today text : str),
    Str.contains (BHC.extract_citation self text) text = true
    /\ Str.contains (SC.extract_citation self text) text = true
    /\ (BHC.extract_date self today text = today
        \/ Str.contains (BHC.extract_date self today text) text = true)
    /\ (SC.extract_date self today text = today
        \/ Str.contains (SC.extract_date self today text) text = true)
    /\ ((forall p, In p BHC.date_patterns -> Re.findall p text = []) ->
        BHC.extract_date self today text = today)
    /\ ((forall p, In p SC.date_patterns -> search_group p text = None) ->
        SC.extract_date self today text = today).
Proof.
  intros self today text.
  unfold BHC.extract_citation, SC.extract_citation, BHC.extract_date,
    SC.extract_date.
  split; [|split; [|split; [|split; [|split]]]].
  - destruct (first_found_origin BHC.citation_patterns text []) as [->|H];
      [apply contains_nil | exact H].
  - destruct (first_search_origin SC.citation_patterns text []) as [->|H];
      [apply contains_nil | exact H].
  - apply first_found_origin.
  - apply first_search_origin.
  - induction BHC.date_patterns as [|p ps IH]; simpl; intros H; [reflexivity|].
    rewrite (H p (or_introl eq_refl)). apply IH. intros q Hq. apply H. right; exact Hq.
  - induction SC.date_patterns as [|p ps IH]; simpl; intros H; [reflexivity|].
    rewrite (H p (or_introl eq_refl)). apply IH. intros q Hq. apply H. right; exact Hq.
Qed.

Lemma citation_and_date_occur_in_text_witness :
  BHC.extract_date Samples.scraper "2024-01-05" "Heard the learned counsel"
  = list_ascii_of_string "2024-01-05"
  /\ SC.extract_date Samples.scraper "2024-01-05" "Heard the learned counsel"
     = list_ascii_of_string "2024-01-05".
Proof.
  destruct (citation_and_date_occur_in_text Samples.scraper "2024-01-05"
              "Heard the learned counsel") as [_ [_ [_ [_ [H1 H2]]]]].
  split.
  - apply H1. intros p Hp. simpl in Hp.
    repeat (destruct Hp as [<-|Hp]; [vm_compute; reflexivity|]). destruct Hp.
  - apply H2. intros p Hp. simpl in Hp.
    repeat (destruct Hp as [<-|Hp]; [vm_compute; reflexivity|]). destruct Hp.
Defined.

Example citation_and_date_samples :
  SC.extract_citation Samples.scraper "reported in (2014) 8 SCC 273 on 02-07-2014"
  = "(2014) 8 SCC 273"
  /\ BHC.extract_citation Samples.scraper "WP 123/2014 decided on 2 July 2014"
     = "WP 123/2014"
  /\ SC.extract_date Samples.scraper "2024-01-05" "reported in (2014) 8 SCC 273 on 02-07-2014"
     = "02-07-2014"
  /\ BHC.extract_date Samples.scraper "2024-01-05" "WP 123/2014 decided on 2 July 2014"
     = "2 July 2014".
Proof. repeat split; vm_compute; reflexivity. Qed.

(** ** The shape of the Supreme Court identifier *)

Lemma squeeze_head (s : str) :
  hd_error (SC.squeeze_underscores s) = hd_error s.
Proof.
  induction s as [|c s IH]; [reflexivity|]. simpl.
  destruct (Ascii.eqb c "_") eqn:Ec; [|reflexivity].
  destruct s as [|d s']; [reflexivity|].
  destruct (Ascii.eqb d "_") eqn:Ed; [|reflexivity].
  rewrite IH. simpl. apply Ascii.eqb_eq in Ec, Ed. congruence.
Qed.

Lemma squeeze_In (s : str) (x : ascii) :
  In x (SC.squeeze_underscores s) -> In x s.
Proof.
  induction s as [|c s IH]; [intros []|]. simpl.
  destruct (Ascii.eqb c "_") eqn:Ec.
  - destruct s as [|d s']; [intros H; exact H|].
    destruct (Ascii.eqb d "_").
    + intros H. right. apply IH. exact H.
    + intros [<-|H]; [left; reflexivity | right; apply IH; exact H].
  - intros [<-|H]; [left; reflexivity | right; apply IH; exact H].
Qed.

Lemma startswith_two_underscores (c : ascii) (t : str) :
  Str.startswith (c :: t) "__" = true ->
  c = "_"%char /\ hd_error t = Some "_"%char.
Proof.
  intros H. apply startswith_iff in H as [post H].
  inversion H; subst. split; reflexivity.
Qed.

Lemma squeeze_no_double (s : str) :
  Str.contains "__" (SC.squeeze_underscores s) = false.
Proof.
  induction s as [|c s IH]; [reflexivity|].
  assert (Hcons : forall t,
             hd_error t = hd_error s \/ c <> "_"%char ->
             (c = "_"%char -> hd_error s <> Some "_"%char) ->
             Str.contains "__" t = false ->
             Str.contains "__" (c :: t) = false).
  { intros t Hhd Hc Ht.
    change (Str.contains "__" (c :: t))
      with (Str.startswith (c :: t) "__" || Str.contains "__" t).
    rewrite Ht, orb_false_r.
    destruct (Str.startswith (c :: t) "__") eqn:E; [|reflexivity].
    apply startswith_two_underscores in E as [E1 E2].
    destruct Hhd as [Hhd|Hne]; [|contradiction].
    exfalso. apply (Hc E1). rewrite <- Hhd. exact E2. }
  simpl. destruct (Ascii.eqb c "_") eqn:Ec.
  - destruct s as [|d s'];
      [apply Hcons; [left; reflexivity | intros _; discriminate | reflexivity]|].
    destruct (Ascii.eqb d "_") eqn:Ed; [exact IH|].
    apply Hcons; [left; apply squeeze_head | | exact IH].
    intros _ H. simpl in H. inversion H; subst. discriminate Ed.
  - apply Hcons; [right | | exact IH].
    + intros ->. discriminate Ec.
    + intros ->. discriminate Ec.
Qed.

Lemma lower_alnum_key_char (c : ascii) :
  Char.is_alnum (Char.lower c) = true ->
  Spec.is_key_char (Char.lower c) = true.
Proof.
  destruct c as [[] [] [] [] [] [] [] []]; vm_compute; intros H;
    first [reflexivity | discriminate H].
Qed.

(** X20: the shape of the Supreme Court scraper's identifier.  It is
    "sc_", a slug, an underscore and all the digits of the date; the slug
    has at most 50 characters, each a lower-case letter, a digit or an
    underscore, and never two underscores in a row.  The digits are not
    cut at eight as in the other key. *)
Theorem sc_judgment_id_shape :
  forall (self : Scraper) (title date : str),
    exists slug,
      SC.generate_judgment_id self title date
      = list_ascii_of_string "sc_" ++ slug ++ list_ascii_of_string "_"
          ++ digits_of date
      /\ length slug <= 50
      /\ Forall (fun c => Spec.is_key_char c = true \/ c = "_"%char) slug
      /\ Str.contains "__" slug = false
      /\ Forall (fun c => Char.is_digit c = true) (digits_of date).
Proof.
  intros self title date. unfold SC.generate_judgment_id. cbv zeta.
  set (mapped := map (fun c => if Char.is_alnum c then c else "_"%char)
                     (Str.lower title)).
  exists (firstn 50 (SC.squeeze_underscores mapped)).
  split; [reflexivity|]. split; [rewrite length_firstn; lia|].
  split; [|split].
  - apply firstn_Forall. rewrite Forall_forall. intros x Hx.
    apply squeeze_In in Hx. unfold mapped, Str.lower in Hx.
    rewrite map_map in Hx. apply in_map_iff in Hx as [c [<- _]].
    destruct (Char.is_alnum (Char.lower c)) eqn:E; [left | right; reflexivity].
    apply lower_alnum_key_char. exact E.
  - destruct (Str.contains "__" (firstn 50 (SC.squeeze_underscores mapped)))
      eqn:E; [|reflexivity].
    apply (contains_app_l _ _ (skipn 50 (SC.squeeze_underscores mapped))) in E.
    rewrite firstn_skipn, squeeze_no_double in E. discriminate E.
  - unfold digits_of. rewrite Forall_forall. intros c Hc.
    apply filter_In in Hc. tauto.
Qed.

(** ** What the identifiers ignore *)

Lemma char_class_lower (c : ascii) :
  Char.is_space (Char.lower c) = Char.is_space c
  /\ Char.is_alnum (Char.lower c) || Char.is_space (Char.lower c)
     = Char.is_alnum c || Char.is_space c.
Proof.
  destruct c as [[] [] [] [] [] [] [] []]; vm_compute; split; reflexivity.
Qed.

Lemma strip_punctuation_lower (t : str) :
  strip_punctuation (Str.lower t) = Str.lower (strip_punctuation t).
Proof.
  unfold strip_punctuation, Str.lower.
  induction t as [|c t IH]; [reflexivity|]. simpl.
  rewrite (proj2 (char_class_lower c)).
  destruct (Char.is_alnum c || Char.is_space c); simpl; rewrite IH; reflexivity.
Qed.

Lemma split_ws_aux_lower (s cur : str) :
  Str.split_ws_aux (Str.lower cur) (Str.lower s)
  = map Str.lower (Str.split_ws_aux cur s).
Proof.
  unfold Str.lower. revert cur; induction s as [|c s IH]; intros cur; simpl.
  - destruct cur as [|d cur]; [reflexivity|]. simpl.
    rewrite <- map_rev. simpl. rewrite map_app. reflexivity.
  - rewrite (proj1 (char_class_lower c)).
    destruct (Char.is_space c).
    + destruct cur as [|d cur]; simpl.
      * apply (IH []).
      * rewrite <- map_rev. simpl. rewrite map_app. simpl.
        f_equal. apply (IH []).
    + apply (IH (c :: cur)).
Qed.

Lemma id_suffix_lower (title : str) :
  Unified.id_suffix (Str.lower title) = Unified.id_suffix title.
Proof.
  unfold Unified.id_suffix. cbv zeta.
  rewrite strip_punctuation_lower. unfold Str.split_ws.
  change (@nil ascii) with (Str.lower []) at 1.
  rewrite split_ws_aux_lower, firstn_map.
  set (words := firstn 3 (Str.split_ws_aux [] (strip_punctuation title))).
  assert (E : Str.join "_" (map Str.lower words) = Str.lower (Str.join "_" words))
    by (rewrite lower_join; reflexivity).
  rewrite E, lower_idempotent. reflexivity.
Qed.

Lemma filter_idempotent {A : Type} (f : A -> bool) (l : list A) :
  filter f (filter f l) = filter f l.
Proof.
  induction l as [|x l IH]; simpl; [reflexivity|].
  destruct (f x) eqn:E; simpl; [rewrite E, IH|]; auto.
Qed.

(** X21: what the identifiers ignore.  For a title of ASCII characters
    the three identifiers are the same as for its lower case, so two such
    titles that differ only in letter case get the same identifier.  (The
    restriction is needed: outside ASCII, [lower()] can produce a letter
    of [a-z] from a character that the key would strip.)  For every title,
    the key of [save_case] and of the Bombay scraper ignores the
    characters that are neither alphanumeric nor white space; and every
    identifier depends on the date through its digits only. *)
Theorem identifiers_ignore_case_and_punctuation :
  forall (court : str) (self : Scraper) (title date : str),
    (Str.isascii title = true ->
     Unified.judgment_id court (Str.lower title) date
     = Unified.judgment_id court title date
     /\ BHC.generate_judgment_id self (Str.lower title) date
        = BHC.generate_judgment_id self title date
     /\ SC.generate_judgment_id self (Str.lower title) date
        = SC.generate_judgment_id self title date)
    /\ (forall other : str,
           Str.isascii title = true -> Str.isascii other = true ->
           Str.lower other = Str.lower title ->
           Unified.judgment_id court other date
           = Unified.judgment_id court title date
           /\ BHC.generate_judgment_id self other date
              = BHC.generate_judgment_id self title date
           /\ SC.generate_judgment_id self other date
              = SC.generate_judgment_id self title date)
    /\ Unified.judgment_id court (strip_punctuation title) date
       = Unified.judgment_id court title date
    /\ BHC.generate_judgment_id self (strip_punctuation title) date
       = BHC.generate_judgment_id self title date
    /\ Unified.judgment_id court title (digits_of date)
       = Unified.judgment_id court title date
    /\ BHC.generate_judgment_id self title (digits_of date)
       = BHC.generate_judgment_id self title date
    /\ SC.generate_judgment_id self title (digits_of date)
       = SC.generate_judgment_id self title date.
Proof.
  intros court self title date.
  assert (Hp : Unified.id_suffix (strip_punctuation title) = Unified.id_suffix title).
  { unfold Unified.id_suffix, strip_punctuation. cbv zeta.
    rewrite filter_idempotent. reflexivity. }
  assert (Hd : Unified.clean_date (digits_of date) = Unified.clean_date date).
  { unfold Unified.clean_date, digits_of. rewrite filter_idempotent. reflexivity. }
  assert (Hsc : forall t, SC.generate_judgment_id self (Str.lower t) date
                          = SC.generate_judgment_id self t date).
  { intros t. unfold SC.generate_judgment_id. cbv zeta.
    rewrite lower_idempotent. reflexivity. }
  assert (Hlow : forall t,
             Unified.judgment_id court (Str.lower t) date
             = Unified.judgment_id court t date
             /\ BHC.generate_judgment_id self (Str.lower t) date
                = BHC.generate_judgment_id self t date
             /\ SC.generate_judgment_id self (Str.lower t) date
                = SC.generate_judgment_id self t date).
  { intros t. unfold Unified.judgment_id, BHC.generate_judgment_id.
    change BHC.id_suffix with Unified.id_suffix.
    rewrite id_suffix_lower. repeat split. apply Hsc. }
  split; [intros _; apply Hlow|]. split.
  - intros other _ _ E.
    destruct (Hlow other) as [U1 [B1 S1]]. destruct (Hlow title) as [U2 [B2 S2]].
    rewrite <- U1, <- B1, <- S1, <- U2, <- B2, <- S2, E. repeat split.
  - unfold Unified.judgment_id, BHC.generate_judgment_id.
    change BHC.id_suffix with Unified.id_suffix.
    change BHC.clean_date with Unified.clean_date.
    rewrite Hp, Hd. repeat split.
    unfold SC.generate_judgment_id, digits_of. cbv zeta.
    rewrite filter_idempotent. reflexivity.
Qed.

Lemma identifiers_ignore_case_and_punctuation_witness :
  let title : str := "STATE (NCT) v. Rao & Ors." in
  let other : str := "State (nct) V. RAO & ors." in
  Unified.judgment_id "Delhi High Court" (Str.lower title) "31/01/2020"
  = Unified.judgment_id "Delhi High Court" title "31/01/2020"
  /\ Unified.judgment_id "Delhi High Court" other "31/01/2020"
     = Unified.judgment_id "Delhi High Court" title "31/01/2020"
  /\ SC.generate_judgment_id Samples.scraper other "31/01/2020"
     = SC.generate_judgment_id Samples.scraper title "31/01/2020".
Proof.
  cbv zeta.
  destruct (identifiers_ignore_case_and_punctuation
              "Delhi High Court" Samples.scraper
              "STATE (NCT) v. Rao & Ors." "31/01/2020") as [H1 [H2 _]].
  split; [|split].
  - apply H1. vm_compute. reflexivity.
  - apply (H2 "State (nct) V. RAO & ors.");
      vm_compute; reflexivity.
  - apply (H2 "State (nct) V. RAO & ors.");
      vm_compute; reflexivity.
Defined.

Example identifiers_collide_on_case_and_punctuation :
  Unified.judgment_id "Delhi High Court" "STATE (NCT) v. Rao & Ors." "31/01/2020"
  = Unified.judgment_id "Delhi High Court" "state nct v rao" "31-01-2020 (Friday)".
Proof. vm_compute. reflexivity. Qed.

(** ** The scheduled scraper *)

Lemma auto_save_unfold (st : Auto.Stores) (cases : list Auto.CaseData) :
  let new_cases :=
    filter (fun case =>
              negb (Str.mem (Auto.data_title case)
                            (map Auto.data_title (Auto.db_judgments st))))
           cases in
  Auto.save_to_mongodb st cases
  = if Auto.db_up st
    then match new_cases with
         | [] => (0, st)
         | _ => (length new_cases,
                 Auto.with_judgments st (Auto.db_judgments st ++ new_cases))
         end
    else (0, st).
Proof.
  cbv zeta. unfold Auto.save_to_mongodb.
  destruct cases as [|c cases]; [destruct (Auto.db_up st); reflexivity|].
  destruct (Auto.db_up st); reflexivity.
Qed.

(** X22: [save_to_mongodb] of the scheduled scraper.  The number it
    returns is the number of records added; only cases whose title was not
    stored before are added, nothing is removed, and the search index is
    not touched; saving the same batch a second time adds nothing and
    returns 0. *)
Theorem scheduled_save_is_idempotent :
  forall (st : Auto.Stores) (cases : list Auto.CaseData),
    let r := Auto.save_to_mongodb st cases in
    (exists added,
        Auto.db_judgments (snd r) = Auto.db_judgments st ++ added
        /\ length added = fst r
        /\ incl added cases
        /\ forall c, In c added ->
                     ~ In (Auto.data_title c)
                          (map Auto.data_title (Auto.db_judgments st)))
    /\ fst r <= length cases
    /\ Auto.es_documents (snd r) = Auto.es_documents st
    /\ Auto.save_to_mongodb (snd r) cases = (0, snd r).
Proof.
  intros st cases. cbv zeta. rewrite (auto_save_unfold st cases). cbv zeta.
  set (f := fun case =>
              negb (Str.mem (Auto.data_title case)
                            (map Auto.data_title (Auto.db_judgments st)))).
  assert (Hnone : Auto.save_to_mongodb st cases = (0, st) ->
                  (exists added,
                      Auto.db_judgments st = Auto.db_judgments st ++ added
                      /\ length added = 0 /\ incl added cases
                      /\ forall c, In c added ->
                                   ~ In (Auto.data_title c)
                                        (map Auto.data_title (Auto.db_judgments st)))
                  /\ 0 <= length cases
                  /\ Auto.es_documents st = Auto.es_documents st
                  /\ Auto.save_to_mongodb st cases = (0, st)).
  { intros H. split; [|split; [lia | split; [reflexivity | exact H]]].
    exists []. rewrite app_nil_r. repeat split; [intros x [] | intros c []]. }
  destruct (Auto.db_up st) eqn:Hup.
  - destruct (filter f cases) as [|n0 ns] eqn:Ef.
    + apply Hnone. rewrite (auto_save_unfold st cases). cbv zeta.
      fold f. rewrite Hup, Ef. reflexivity.
    + rewrite <- Ef. simpl fst. simpl snd.
      split; [|split; [apply filter_length_le | split; [reflexivity|]]].
      * exists (filter f cases). split; [reflexivity|]. split; [reflexivity|].
        split.
        -- intros x Hx. apply filter_In in Hx. tauto.
        -- intros c Hc. apply filter_In in Hc as [_ Hc]. unfold f in Hc.
           apply negb_true_iff, str_mem_notin in Hc. exact Hc.
      * rewrite auto_save_unfold. cbv zeta. simpl Auto.db_up. rewrite Hup.
        simpl Auto.db_judgments.
        rewrite filter_nil_when_all_false; [reflexivity|].
        intros c Hc. apply negb_false_iff, str_mem_In.
        rewrite map_app. apply in_or_app.
        destruct (f c) eqn:Efc.
        -- right. apply in_map. apply filter_In. auto.
        -- left. unfold f in Efc. apply negb_false_iff, str_mem_In in Efc.
           exact Efc.
  - apply Hnone. rewrite (auto_save_unfold st cases). cbv zeta.
    rewrite Hup. reflexivity.
Qed.

Lemma auto_save_keeps_index (st : Auto.Stores) (cases : list Auto.CaseData) :
  Auto.es_documents (snd (Auto.save_to_mongodb st cases)) = Auto.es_documents st
  /\ Auto.es_accepts (snd (Auto.save_to_mongodb st cases)) = Auto.es_accepts st
  /\ Auto.es_refresh_ok (snd (Auto.save_to_mongodb st cases))
     = Auto.es_refresh_ok st.
Proof.
  rewrite auto_save_unfold. cbv zeta.
  destruct (Auto.db_up st); [|repeat split].
  destruct (filter _ cases); repeat split.
Qed.

Lemma index_each_spec (accepts : Auto.CaseData -> bool) (now : str)
      (cases : list Auto.CaseData) (k : nat)
      (docs : list (Auto.CaseData * str)) :
  Auto.index_each accepts now cases k docs
  = (k + length (filter accepts cases),
     docs ++ map (fun c => (c, now)) (filter accepts cases)).
Proof.
  revert k docs; induction cases as [|c cases IH]; intros k docs; simpl.
  - rewrite app_nil_r, Nat.add_0_r. reflexivity.
  - destruct (accepts c); simpl; rewrite IH.
    + rewrite <- app_assoc. f_equal. lia.
    + reflexivity.
Qed.

Lemma index_unfold (st : Auto.Stores) (now : str) (cases : list Auto.CaseData) :
  Auto.index_to_elasticsearch st now cases
  = match cases with
    | [] => (0, st)
    | _ =>
        (if Auto.es_refresh_ok st
         then length (filter (Auto.es_accepts st) cases) else 0,
         Auto.with_documents st
           (Auto.es_documents st
              ++ map (fun c => (c, now)) (filter (Auto.es_accepts st) cases)))
    end.
Proof.
  unfold Auto.index_to_elasticsearch.
  destruct cases as [|c cases]; [reflexivity|].
  rewrite index_each_spec. reflexivity.
Qed.

(** X23: what the daily run indexes.  [index_to_elasticsearch] adds to
    the index every case of the batch that the index accepts, in order; it
    returns their number, or 0 when the final refresh fails, although the
    documents have been added.  [run_daily_scraping] indexes the whole
    batch as soon as one case of it is new to the store, the cases already
    stored included, and indexes nothing when none is new. *)
Theorem daily_run_indexes_the_whole_batch :
  forall (st : Auto.Stores) (now : str) (cases : list Auto.CaseData),
    let accepted := filter (Auto.es_accepts st) cases in
    let indexed := Auto.es_documents st ++ map (fun c => (c, now)) accepted in
    Auto.es_documents (snd (Auto.index_to_elasticsearch st now cases)) = indexed
    /\ (Auto.es_refresh_ok st = true ->
        fst (Auto.index_to_elasticsearch st now cases) = length accepted)
    /\ (Auto.es_refresh_ok st = false ->
        fst (Auto.index_to_elasticsearch st now cases) = 0)
    /\ (fst (Auto.save_to_mongodb st cases) = 0 ->
        Auto.store_and_index st now cases = snd (Auto.save_to_mongodb st cases)
        /\ Auto.es_documents (Auto.store_and_index st now cases)
           = Auto.es_documents st)
    /\ (0 < fst (Auto.save_to_mongodb st cases) ->
        Auto.es_documents (Auto.store_and_index st now cases) = indexed
        /\ Auto.db_judgments (Auto.store_and_index st now cases)
           = Auto.db_judgments (snd (Auto.save_to_mongodb st cases))).
Proof.
  intros st now cases. cbv zeta.
  destruct (auto_save_keeps_index st cases) as [Hes [Hacc Hrf]].
  rewrite index_unfold.
  split; [|split; [|split; [|split]]].
  - destruct cases; simpl; [rewrite app_nil_r|]; reflexivity.
  - intros H. rewrite H. destruct cases; reflexivity.
  - intros H. rewrite H. destruct cases; reflexivity.
  - intros H. unfold Auto.store_and_index.
    destruct (Auto.save_to_mongodb st cases) as [k st1]. simpl in *. subst k.
    simpl. split; [reflexivity | exact Hes].
  - intros H. unfold Auto.store_and_index.
    destruct (Auto.save_to_mongodb st cases) as [k st1] eqn:Es. simpl in *.
    apply Nat.ltb_lt in H. rewrite H, index_unfold.
    destruct cases as [|c cases].
    + rewrite auto_save_unfold in Es. cbv zeta in Es. simpl in Es.
      destruct (Auto.db_up st); inversion Es; subst;
        apply Nat.ltb_lt in H; lia.
    + simpl. rewrite Hacc, Hes. split; reflexivity.
Qed.

Lemma daily_run_indexes_the_whole_batch_witness :
  let old := {| Auto.data_title := "State vs Rao"; Auto.data_date := "2020-01-31";
                Auto.data_court := "Supreme Court of India"; Auto.data_url := [];
                Auto.data_text := []; Auto.data_judges := [];
                Auto.data_citation := []; Auto.data_source := [];
                Auto.data_scraped_at := []; Auto.data_summary := [] |} in
  let fresh := {| Auto.data_title := "Arnesh Kumar"; Auto.data_date := "2014-07-02";
                  Auto.data_court := "Supreme Court of India"; Auto.data_url := [];
                  Auto.data_text := []; Auto.data_judges := [];
                  Auto.data_citation := []; Auto.data_source := [];
                  Auto.data_scraped_at := []; Auto.data_summary := [] |} in
  let st := {| Auto.db_up := true; Auto.db_judgments := [old];
               Auto.es_accepts := fun _ => true; Auto.es_refresh_ok := true;
               Auto.es_documents := [(old, list_ascii_of_string "earlier")] |} in
  let stale := {| Auto.db_up := true; Auto.db_judgments := [old];
                  Auto.es_accepts := fun _ => true; Auto.es_refresh_ok := false;
                  Auto.es_documents := [] |} in
  (Auto.es_documents (Auto.store_and_index st "now" [old; fresh])
   = [(old, list_ascii_of_string "earlier"); (old, list_ascii_of_string "now");
      (fresh, list_ascii_of_string "now")]
   /\ Auto.db_judgments (Auto.store_and_index st "now" [old; fresh])
      = Auto.db_judgments (snd (Auto.save_to_mongodb st [old; fresh])))
  /\ fst (Auto.index_to_elasticsearch st "now" [old; fresh]) = 2
  /\ fst (Auto.index_to_elasticsearch stale "now" [old; fresh]) = 0
  /\ (Auto.store_and_index st "now" [old] = snd (Auto.save_to_mongodb st [old])
      /\ Auto.es_documents (Auto.store_and_index st "now" [old])
         = Auto.es_documents st).
Proof.
  cbv zeta. split; [|split; [|split]].
  - refine (proj2 (proj2 (proj2 (proj2
              (daily_run_indexes_the_whole_batch _ "now" _)))) _).
    vm_compute. lia.
  - refine (proj1 (proj2 (daily_run_indexes_the_whole_batch _ "now" _)) _).
    reflexivity.
  - refine (proj1 (proj2 (proj2 (daily_run_indexes_the_whole_batch _ "now" _))) _).
    reflexivity.
  - refine (proj1 (proj2 (proj2 (proj2
              (daily_run_indexes_the_whole_batch _ "now" _)))) _).
    vm_compute. reflexivity.
Defined.

Example scheduled_save_stores_repeats_of_a_batch :
  let c := {| Auto.data_title := "Arnesh Kumar"; Auto.data_date := "2014-07-02";
              Auto.data_court := "Supreme Court of India"; Auto.data_url := [];
              Auto.data_text := []; Auto.data_judges := [];
              Auto.data_citation := []; Auto.data_source := [];
              Auto.data_scraped_at := []; Auto.data_summary := [] |} in
  let st := {| Auto.db_up := true; Auto.db_judgments := [];
               Auto.es_accepts := fun _ => true; Auto.es_refresh_ok := true;
               Auto.es_documents := [] |} in
  Auto.save_to_mongodb st [c; c] = (2, Auto.with_judgments st [c; c])
  /\ Auto.save_to_mongodb (Auto.with_judgments st [c; c]) [c; c]
     = (0, Auto.with_judgments st [c; c]).
Proof. cbv zeta. split; vm_compute; reflexivity. Qed.

Lemma scheduled_save_is_idempotent_witness :
  let c := {| Auto.data_title := "Arnesh Kumar"; Auto.data_date := "2014-07-02";
              Auto.data_court := "Supreme Court of India"; Auto.data_url := [];
              Auto.data_text := []; Auto.data_judges := [];
              Auto.data_citation := []; Auto.data_source := [];
              Auto.data_scraped_at := []; Auto.data_summary := [] |} in
  let st := {| Auto.db_up := true; Auto.db_judgments := [];
               Auto.es_accepts := fun _ => true; Auto.es_refresh_ok := true;
               Auto.es_documents := [] |} in
  Auto.save_to_mongodb (snd (Auto.save_to_mongodb st [c])) [c]
  = (0, snd (Auto.save_to_mongodb st [c])).
Proof.
  cbv zeta.
  refine (proj2 (proj2 (proj2 (scheduled_save_is_idempotent _ _)))).
Defined.

(** X24: the record that the scheduled scraper builds for one case.  When
    the details of the case were read, building the record never raises;
    its summary is empty when the text is empty, and for a non-empty text
    and title it starts with the title followed by a colon and a space and
    ends with a period.  When the details could not be read, no record is
    built. *)
Theorem scheduled_case_record :
  forall (L : Summarizer.SumyLib) (now title date url : str)
         (d : Auto.CaseDetails),
    Auto.case_data L now title date url None = Ok None
    /\ exists r,
        Auto.case_data L now title date url (Some d) = Ok (Some r)
        /\ Auto.data_title r = title
        /\ Auto.data_text r = Auto.details_text d
        /\ Auto.data_scraped_at r = now
        /\ (Auto.details_text d = [] -> Auto.data_summary r = [])
        /\ (Auto.details_text d <> [] -> title <> [] ->
            Str.startswith (Auto.data_summary r)
                           (title ++ list_ascii_of_string ": ") = true
            /\ Str.endswith (Auto.data_summary r) "." = true).
Proof.
  intros L now title date url d. split; [reflexivity|].
  unfold Auto.case_data.
  destruct (Auto.details_text d) as [|c0 t0] eqn:Et.
  - eexists. split; [reflexivity|]. simpl.
    repeat split; auto; try (intros H; congruence).
  - destruct (case_summary_sentences L (c0 :: t0) (Some title) 4)
      as [ss [sumy [_ [Hres _]]]]; [discriminate|].
    rewrite Hres. simpl bind.
    eexists. split; [reflexivity|]. simpl.
    split; [reflexivity|]. split; [reflexivity|]. split; [reflexivity|].
    split; [discriminate|]. intros _ Ht.
    destruct title as [|t1 title]; [congruence|]. simpl Str.truthy. cbv iota.
    destruct (join_with_period_nonempty ss) as [Hne Hdot].
    split.
    + apply startswith_iff. exists (Summarizer.join_with_period ss).
      rewrite <- app_assoc. reflexivity.
    + rewrite (proj1 (titled_summary_ends_alike _ _ Hne)). exact Hdot.
Qed.

Lemma scheduled_case_record_witness :
  exists r,
    Auto.case_data Samples.failing_lib "2024-01-05T09:00:00" "Arnesh Kumar"
                   "2014-07-02" "https://main.sci.gov.in/judgments/1"
                   (Some {| Auto.details_text := Samples.bail_text;
                            Auto.details_judges := [];
                            Auto.details_citation := [] |})
    = Ok (Some r)
    /\ Str.startswith (Auto.data_summary r) "Arnesh Kumar: " = true
    /\ Str.endswith (Auto.data_summary r) "." = true.
Proof.
  destruct (proj2 (scheduled_case_record Samples.failing_lib
                     "2024-01-05T09:00:00" "Arnesh Kumar" "2014-07-02"
                     "https://main.sci.gov.in/judgments/1"
                     {| Auto.details_text := Samples.bail_text;
                        Auto.details_judges := [];
                        Auto.details_citation := [] |}))
    as [r [H1 [_ [_ [_ [_ H2]]]]]].
  exists r. split; [exact H1|].
  apply H2; discriminate.
Defined.
